(** * Axie gene decoding and trait rules of n8n-nodes-ronin

    A shallow embedding of [src/nodes/Ronin/utils/geneUtils.ts], of the
    helpers of [utils/axieUtils.ts] and of the constant tables of
    [constants/axieData.ts], with the properties the specification states
    about them, followed by the pure parts of the actions that call them
    ([actions/breeding], [actions/axie], [actions/battle],
    [actions/utility]) and further properties of both.

    Conventions of the embedding.
    - A JavaScript string is a [string]; every [ascii] stands for one
      UTF-16 code unit in the range 0..255.
    - A JavaScript number that is always integral (table entries, breed
      counts, SLP amounts, parsed bit fields) is a [Z]; the result of
      [parseInt] is an [option Z] where [None] is [NaN]; a computed stat is
      a [Stat]: an integer, [undefined] or [NaN]; a number that can be
      fractional (purity, multipliers, AXS amounts, probabilities) is an
      IEEE binary64 [float], with the kernel's own arithmetic.
    - An object literal used as a lookup table is a [gmap string _] of its
      own keys. The two stat tables are read at class names that are
      arbitrary strings, so for them the members inherited from
      [Object.prototype] are part of the lookup ([table_get]). *)

From Stdlib Require Import ZArith Ascii String List Floats Uint63 DecimalString.
From stdpp Require Import gmap strings list fin_maps.

Local Open Scope Z_scope.
#[local] Set Warnings "-inexact-float".

(* ===================================================================== *)
(** ** JavaScript built-ins used by the sources *)
(* ===================================================================== *)

Module Js.

(** Abrupt or normal completion of a call. *)
Inductive Completion (A : Type) : Type :=
| Normal (a : A)
| Throw (e : string).
Arguments Normal {A} a.
Arguments Throw {A} e.

Definition bind {A B} (c : Completion A) (k : A → Completion B) : Completion B :=
  match c with
  | Normal a => k a
  | Throw e => Throw e
  end.

(** [try { c } catch { h }] *)
Definition try_catch {A} (c : Completion A) (h : Completion A) : Completion A :=
  match c with
  | Normal a => Normal a
  | Throw _ => h
  end.

(** [s.startsWith(p)] *)
Definition startsWith (s p : string) : bool := String.prefix p s.

(** [s.slice(a, b)] for constant indices [0 <= a <= b]. *)
Definition slice (s : string) (a b : nat) : string :=
  String.substring a (b - a) s.

(** [s.slice(a)] for a constant index [0 <= a]. *)
Fixpoint slice_from (s : string) (a : nat) {struct a} : string :=
  match a with
  | O => s
  | S a' =>
      match s with
      | EmptyString => EmptyString
      | String _ s' => slice_from s' a'
      end
  end.

Fixpoint repeat_char (c : ascii) (n : nat) : string :=
  match n with
  | O => EmptyString
  | S n' => String c (repeat_char c n')
  end.

(** [s.padStart(n, c)] with a one-character filler. *)
Definition padStart (s : string) (n : nat) (c : ascii) : string :=
  String.append (repeat_char c (n - String.length s)) s.

(** White space skipped by [parseInt] (code units below 256). *)
Definition is_white (c : ascii) : bool :=
  let n := nat_of_ascii c in
  ((9 <=? n)%nat && (n <=? 13)%nat) || (n =? 32)%nat || (n =? 160)%nat.

Fixpoint trimStart (s : string) : string :=
  match s with
  | String c s' => if is_white c then trimStart s' else s
  | EmptyString => EmptyString
  end.

(** Value of a character as a digit, in any radix up to 36. *)
Definition digit_value (c : ascii) : option Z :=
  let n := Z.of_nat (nat_of_ascii c) in
  if (48 <=? n) && (n <=? 57) then Some (n - 48)
  else if (97 <=? n) && (n <=? 122) then Some (n - 87)
  else if (65 <=? n) && (n <=? 90) then Some (n - 55)
  else None.

Definition digit_in (radix : Z) (c : ascii) : option Z :=
  match digit_value c with
  | Some d => if d <? radix then Some d else None
  | None => None
  end.

(** Reads the longest prefix of digits; [acc] is [None] until a digit
    has been read. *)
Fixpoint parse_digits (radix : Z) (s : string) (acc : option Z) : option Z :=
  match s with
  | EmptyString => acc
  | String c s' =>
      match digit_in radix c with
      | Some d => parse_digits radix s' (Some (radix * default 0 acc + d))
      | None => acc
      end
  end.

Definition strip_0x (s : string) : string :=
  match s with
  | String "0" (String "x" r) => r
  | String "0" (String "X" r) => r
  | _ => s
  end.

(** [parseInt(s, radix)] for a radix in 2..36; [None] is [NaN]. *)
Definition parseInt (s : string) (radix : Z) : option Z :=
  let s1 := trimStart s in
  let '(neg, s2) :=
    match s1 with
    | String "-" r => (true, r)
    | String "+" r => (false, r)
    | _ => (false, s1)
    end in
  let s3 := if radix =? 16 then strip_0x s2 else s2 in
  match parse_digits radix s3 None with
  | Some v => Some (if neg : bool then - v else v)
  | None => None
  end.

Fixpoint pos_binary (p : positive) : string :=
  match p with
  | xH => "1"
  | xO q => String.append (pos_binary q) "0"
  | xI q => String.append (pos_binary q) "1"
  end.

(** [n.toString(2)] *)
Definition toString2 (n : option Z) : string :=
  match n with
  | None => "NaN"
  | Some Z0 => "0"
  | Some (Zpos p) => pos_binary p
  | Some (Zneg p) => String.append "-" (pos_binary p)
  end.

(** [n.toString()] of an integral number or [NaN]. *)
Definition toString (n : option Z) : string :=
  match n with
  | None => "NaN"
  | Some z => NilZero.string_of_int (Z.to_int z)
  end.

End Js.

Import Js.

(* ===================================================================== *)
(** ** Constant tables ([constants/axieData.ts]) *)
(* ===================================================================== *)

Definition AXIE_CLASSES : list string :=
  ["beast"; "bug"; "bird"; "plant"; "aquatic"; "reptile"; "mech"; "dawn"; "dusk"].

(** [AxieClass] is the union of the nine literals above; at run time a
    value of that type is a string. *)
Abbreviation AxieClass := string (only parsing).

Definition CLASS_ADVANTAGES : gmap string (list string) :=
  list_to_map
    [ ("beast",   ["plant"; "reptile"; "dusk"]);
      ("bug",     ["beast"; "mech"; "dawn"]);
      ("bird",    ["bug"; "aquatic"; "dawn"]);
      ("plant",   ["bird"; "aquatic"; "dawn"]);
      ("aquatic", ["beast"; "bug"; "mech"]);
      ("reptile", ["bird"; "plant"; "aquatic"]);
      ("mech",    ["beast"; "bug"; "bird"]);
      ("dawn",    ["plant"; "reptile"; "aquatic"]);
      ("dusk",    ["bug"; "bird"; "beast"]) ].

Inductive BodyPart := Eyes | Ears | Back | Mouth | Horn | Tail.

Definition BODY_PARTS : list BodyPart := [Eyes; Ears; Back; Mouth; Horn; Tail].

Record AxieStats := mkStats { hp : Z; speed : Z; skill : Z; morale : Z }.

Definition BASE_STATS : gmap string AxieStats :=
  list_to_map
    [ ("beast",   mkStats 31 35 31 43);
      ("bug",     mkStats 35 31 35 39);
      ("bird",    mkStats 27 43 35 35);
      ("plant",   mkStats 43 31 31 35);
      ("aquatic", mkStats 39 39 35 27);
      ("reptile", mkStats 39 35 31 35);
      ("mech",    mkStats 31 39 43 27);
      ("dawn",    mkStats 35 35 39 31);
      ("dusk",    mkStats 43 27 35 35) ].

Definition PART_STAT_BONUS : gmap string AxieStats :=
  list_to_map
    [ ("beast",   mkStats 0 1 0 3);
      ("bug",     mkStats 1 0 0 3);
      ("bird",    mkStats 0 3 0 1);
      ("plant",   mkStats 3 0 0 1);
      ("aquatic", mkStats 1 3 0 0);
      ("reptile", mkStats 3 1 0 0);
      ("mech",    mkStats 1 0 3 0);
      ("dawn",    mkStats 0 0 3 1);
      ("dusk",    mkStats 3 0 1 0) ].

Module BREEDING_COSTS.
Definition AXS_PER_BREED : float := 0.5%float.
Definition SLP_BY_BREED_COUNT : list Z :=
  [900; 1350; 2250; 3600; 5850; 9450; 15300].
Definition MAX_BREED_COUNT : Z := 7.
End BREEDING_COSTS.

Definition CLASS_HEX : gmap string string :=
  list_to_map
    [ ("0000", "beast"); ("0001", "bug"); ("0010", "bird"); ("0011", "plant");
      ("0100", "aquatic"); ("0101", "reptile"); ("1000", "mech");
      ("1001", "dawn"); ("1010", "dusk") ].

(** [xs.includes(x)] on an array of strings. *)
Definition includes (xs : list string) (x : string) : bool :=
  existsb (String.eqb x) xs.

(* ===================================================================== *)
(** ** Gene decoding ([utils/geneUtils.ts]) *)
(* ===================================================================== *)

(** The object [{ id; name; class }] of one allele. *)
Record Allele := mkAllele
  { allele_id : string; allele_name : string; allele_class : string }.

(** [PartGene]: dominant, recessive 1, recessive 2. *)
Record PartGene := mkPartGene { d : Allele; r1 : Allele; r2 : Allele }.

(** The object [{ d; r1; r2 }] of the pattern and colour fields. *)
Record Cosmetic := mkCosmetic { cos_d : string; cos_r1 : string; cos_r2 : string }.

Record DecodedGenes := mkDecodedGenes
  { genes_class : AxieClass;
    region : string;
    tag : string;
    bodySkin : string;
    pattern : Cosmetic;
    color : Cosmetic;
    eyes : PartGene;
    ears : PartGene;
    mouth : PartGene;
    horn : PartGene;
    back : PartGene;
    tail : PartGene }.

(** The body of the [for (const char of cleanHex)] loop of [hexToBinary],
    with the string built so far. *)
Fixpoint hexToBinary_loop (cleanHex : string) (binary : string) : string :=
  match cleanHex with
  | EmptyString => binary
  | String char rest =>
      hexToBinary_loop rest
        (String.append binary
           (padStart (toString2 (parseInt (String char EmptyString) 16)) 4 "0"))
  end.

Definition hexToBinary (hexGene : string) : string :=
  let cleanHex := if startsWith hexGene "0x" then slice_from hexGene 2 else hexGene in
  let binary := hexToBinary_loop cleanHex "" in
  padStart binary 256 "0".

Definition getClassFromGene (binaryGene : string) : AxieClass :=
  let classBits := slice binaryGene 0 4 in
  match CLASS_HEX !! classBits with
  | Some className =>
      if String.eqb className "" || negb (includes AXIE_CLASSES className)
      then "beast" else className
  | None => "beast"
  end.

(** The inner [decodePart] of [decodePartGene]. *)
Definition decodePart (bits : string) : Allele :=
  let classBits := slice bits 0 4 in
  let partIdBits := slice bits 4 10 in
  let partClass :=
    match CLASS_HEX !! classBits with
    | Some c => if String.eqb c "" then "unknown" else c
    | None => "unknown"
    end in
  let partId := toString (parseInt partIdBits 2) in
  {| allele_id := partId;
     allele_name := String.append "part-" partId;
     allele_class := partClass |}.

Definition decodePartGene (partBinary : string) : PartGene :=
  {| d := decodePart (slice partBinary 0 12);
     r1 := decodePart (slice partBinary 12 24);
     r2 := decodePart (slice partBinary 24 36) |}.

Definition decodeGenes (geneHex : string) : Completion DecodedGenes :=
  let binary := hexToBinary geneHex in
  let axieClass := getClassFromGene binary in
  let region := toString (parseInt (slice binary 4 9) 2) in
  let tag := toString (parseInt (slice binary 9 13) 2) in
  let bodySkin := toString (parseInt (slice binary 13 17) 2) in
  let pattern :=
    {| cos_d := toString (parseInt (slice binary 17 23) 2);
       cos_r1 := toString (parseInt (slice binary 23 29) 2);
       cos_r2 := toString (parseInt (slice binary 29 35) 2) |} in
  let color :=
    {| cos_d := toString (parseInt (slice binary 35 41) 2);
       cos_r1 := toString (parseInt (slice binary 41 47) 2);
       cos_r2 := toString (parseInt (slice binary 47 53) 2) |} in
  let offset := 64%nat in
  let partSize := 36%nat in
  let eyes := decodePartGene (slice binary offset (offset + partSize)) in
  let offset := (offset + partSize)%nat in
  let mouth := decodePartGene (slice binary offset (offset + partSize)) in
  let offset := (offset + partSize)%nat in
  let ears := decodePartGene (slice binary offset (offset + partSize)) in
  let offset := (offset + partSize)%nat in
  let horn := decodePartGene (slice binary offset (offset + partSize)) in
  let offset := (offset + partSize)%nat in
  let back := decodePartGene (slice binary offset (offset + partSize)) in
  let offset := (offset + partSize)%nat in
  let tail := decodePartGene (slice binary offset (offset + partSize)) in
  Normal
    {| genes_class := axieClass;
       region := region;
       tag := tag;
       bodySkin := bodySkin;
       pattern := pattern;
       color := color;
       eyes := eyes;
       ears := ears;
       mouth := mouth;
       horn := horn;
       back := back;
       tail := tail |}.

(** The test [/^[0-9a-fA-F]+$/.test(s)]. *)
Definition is_hex_char (c : ascii) : bool :=
  let n := nat_of_ascii c in
  ((48 <=? n)%nat && (n <=? 57)%nat)
  || ((97 <=? n)%nat && (n <=? 102)%nat)
  || ((65 <=? n)%nat && (n <=? 70)%nat).

Fixpoint all_hex (s : string) : bool :=
  match s with
  | EmptyString => true
  | String c s' => is_hex_char c && all_hex s'
  end.

Definition test_hex_plus (s : string) : bool :=
  match s with
  | EmptyString => false
  | _ => all_hex s
  end.

Definition isValidGene (geneHex : string) : Completion bool :=
  try_catch
    (let cleanHex := if startsWith geneHex "0x" then slice_from geneHex 2 else geneHex in
     if negb (String.length cleanHex =? 64)%nat then Normal false
     else if negb (test_hex_plus cleanHex) then Normal false
     else bind (decodeGenes geneHex) (fun _ => Normal true))
    (Normal false).

(* ===================================================================== *)
(** ** Derived traits ([utils/geneUtils.ts]) *)
(* ===================================================================== *)

(** [genes[part]] *)
Definition part_gene (genes : DecodedGenes) (part : BodyPart) : PartGene :=
  match part with
  | Eyes => eyes genes
  | Ears => ears genes
  | Back => back genes
  | Mouth => mouth genes
  | Horn => horn genes
  | Tail => tail genes
  end.

(** The local array [parts] of [calculateStats], [calculatePurity] and
    [getDominantParts]. *)
Definition parts : list BodyPart := [Eyes; Ears; Mouth; Horn; Back; Tail].

#[global] Instance AxieStats_inhabited : Inhabited AxieStats :=
  populate (mkStats 0 0 0 0).

(** The names that an object literal inherits from [Object.prototype]. A
    table read at one of them gives a function or, for [__proto__], the
    prototype itself: a truthy value that is no entry of the table and has
    none of the fields [hp], [speed], [skill], [morale]. *)
Definition OBJECT_PROTOTYPE : list string :=
  [ "constructor"; "__defineGetter__"; "__defineSetter__"; "hasOwnProperty";
    "__lookupGetter__"; "__lookupSetter__"; "isPrototypeOf";
    "propertyIsEnumerable"; "toString"; "valueOf"; "__proto__";
    "toLocaleString" ].

(** What [table[key]] finds in a table written as an object literal: an
    entry of the table, or a member inherited from [Object.prototype]. *)
Inductive Member (A : Type) :=
| Own (entry : A)
| Inherited.

Arguments Own {A} entry.
Arguments Inherited {A}.

(** [table[key]]; [None] is [undefined]. *)
Definition table_get {A : Type} (table : gmap string A) (key : string)
    : option (Member A) :=
  match table !! key with
  | Some entry => Some (Own entry)
  | None => if includes OBJECT_PROTOTYPE key then Some Inherited else None
  end.

(** A stat while it is computed: an integer, [undefined] (a field read
    from an inherited member), or [NaN]. *)
Inductive Stat :=
| Num (n : Z)
| Undefined
| NaN.

(** [member.field] for one of the four fields of an entry. *)
Definition field_of {A : Type} (field : A → Z) (member : Member A) : Stat :=
  match member with
  | Own entry => Num (field entry)
  | Inherited => Undefined
  end.

(** An arithmetic operation of one or two operands on such values: [NaN]
    unless every operand is an integer. *)
Definition stat_op1 (f : Z → Z) (a : Stat) : Stat :=
  match a with
  | Num x => Num (f x)
  | _ => NaN
  end.

Definition stat_op2 (f : Z → Z → Z) (a b : Stat) : Stat :=
  match a, b with
  | Num x, Num y => Num (f x y)
  | _, _ => NaN
  end.

(** The [AxieStats] object that [calculateStats] builds, whose fields can
    be [NaN]; the record [AxieStats] above is such an object with integral
    fields, as the tables and the client give it. *)
Record ComputedStats := mkComputed
  { stat_hp : Stat; stat_speed : Stat; stat_skill : Stat; stat_morale : Stat }.

(** One iteration of the loop of [calculateStats]; [genes[part]] and its
    [d] are objects, hence truthy, for every [DecodedGenes], and so is
    every member of a table. *)
Definition calculateStats_step (genes : DecodedGenes) (stats : ComputedStats)
    (part : BodyPart) : ComputedStats :=
  let partGene := part_gene genes part in
  let partClass := allele_class (d partGene) in
  let bonus :=
    default (Own (mkStats 0 0 0 0)) (table_get PART_STAT_BONUS partClass) in
  {| stat_hp := stat_op2 Z.add (stat_hp stats) (field_of hp bonus);
     stat_speed := stat_op2 Z.add (stat_speed stats) (field_of speed bonus);
     stat_skill := stat_op2 Z.add (stat_skill stats) (field_of skill bonus);
     stat_morale := stat_op2 Z.add (stat_morale stats) (field_of morale bonus) |}.

Definition calculateStats (genes : DecodedGenes) : ComputedStats :=
  let baseStats :=
    default (Own (BASE_STATS !!! "beast")) (table_get BASE_STATS (genes_class genes)) in
  let stats :=
    {| stat_hp := field_of hp baseStats; stat_speed := field_of speed baseStats;
       stat_skill := field_of skill baseStats;
       stat_morale := field_of morale baseStats |} in
  fold_left (calculateStats_step genes) parts stats.

(** One iteration of the loop of [calculatePurity]. *)
Definition calculatePurity_step (genes : DecodedGenes) (matchingParts : float)
    (part : BodyPart) : float :=
  let partGene := part_gene genes part in
  if String.eqb (allele_class (d partGene)) (genes_class genes)
  then (matchingParts + 1)%float
  else matchingParts.

Definition calculatePurity (genes : DecodedGenes) : float :=
  let totalParts := 6%float in
  let matchingParts := fold_left (calculatePurity_step genes) parts 0%float in
  ((matchingParts / totalParts) * 100)%float.

(** [x || 0] for a number or [undefined]. *)
Definition or_zero (x : option float) : float :=
  match x with
  | Some v => if (PrimFloat.eqb v 0 || PrimFloat.is_nan v)%bool then 0%float else v
  | None => 0%float
  end.

Module weights.
Definition d : float := 0.375%float.
Definition r1 : float := 0.09375%float.
Definition r2 : float := 0.03125%float.
End weights.

(** The array [allGenes] of [calculateBreedingProbability]. *)
Definition allGenes (parent1Gene parent2Gene : PartGene) : list (Allele * float) :=
  [ (d parent1Gene, weights.d);
    (r1 parent1Gene, weights.r1);
    (r2 parent1Gene, weights.r2);
    (d parent2Gene, weights.d);
    (r1 parent2Gene, weights.r1);
    (r2 parent2Gene, weights.r2) ].

(** The template [`${gene.class}-${gene.id}`]. *)
Definition gene_key (gene : Allele) : string :=
  String.append (allele_class gene) (String.append "-" (allele_id gene)).

Definition probability_step (probabilities : gmap string float)
    (entry : Allele * float) : gmap string float :=
  let '(gene, weight) := entry in
  let key := gene_key gene in
  let currentProb := or_zero (probabilities !! key) in
  <[ key := (currentProb + weight)%float ]> probabilities.

Definition calculateBreedingProbability (parent1Gene parent2Gene : PartGene)
    : gmap string float :=
  fold_left probability_step (allGenes parent1Gene parent2Gene) ∅.

(* ===================================================================== *)
(** ** Breeding rules and class advantage ([utils/axieUtils.ts]) *)
(* ===================================================================== *)

Record Axie := mkAxie
  { axie_id : string;
    axie_name : option string;
    axie_class : AxieClass;
    axie_genes : string;
    bornAt : Z;
    matronId : string;
    sireId : string;
    breedCount : Z;
    owner : string;
    stage : Z;
    axie_image : option string }.

Record BreedingInfo := mkBreedingInfo
  { info_canBreed : bool;
    axsCost : float;
    slpCost : Z;
    totalCostUsd : option float;
    cooldownEnd : option Z;
    reason : option string }.

(** [SLP_BY_BREED_COUNT[n] || 0] for an integral [n]. *)
Definition slp_by_breed_count (n : Z) : Z :=
  let entry :=
    if 0 <=? n then BREEDING_COSTS.SLP_BY_BREED_COUNT !! Z.to_nat n else None in
  match entry with
  | Some v => if v =? 0 then 0 else v
  | None => 0
  end.

Definition canBreed (axie : Axie) : BreedingInfo :=
  if BREEDING_COSTS.MAX_BREED_COUNT <=? breedCount axie then
    {| info_canBreed := false; axsCost := 0%float; slpCost := 0;
       totalCostUsd := None; cooldownEnd := None;
       reason := Some "Maximum breed count reached (7)" |}
  else if stage axie <? 4 then
    {| info_canBreed := false; axsCost := 0%float; slpCost := 0;
       totalCostUsd := None; cooldownEnd := None;
       reason := Some "Axie must be an adult to breed" |}
  else
    let slpCost := slp_by_breed_count (breedCount axie) in
    let axsCost := BREEDING_COSTS.AXS_PER_BREED in
    {| info_canBreed := true; axsCost := axsCost; slpCost := slpCost;
       totalCostUsd := None; cooldownEnd := None; reason := None |}.

Record BreedingCost := mkBreedingCost { cost_axs : float; cost_slp : Z }.

Definition calculateBreedingCost (axie1 axie2 : Axie) : BreedingCost :=
  let slp1 := slp_by_breed_count (breedCount axie1) in
  let slp2 := slp_by_breed_count (breedCount axie2) in
  {| cost_axs := BREEDING_COSTS.AXS_PER_BREED; cost_slp := slp1 + slp2 |}.

(** The result [{ canBreed; reason? }] of [canBreedTogether]. *)
Record PairResult := mkPairResult
  { pair_canBreed : bool; pair_reason : option string }.

(** The template [`Axie ${id}: ${reason}`]. *)
Definition axie_reason (id : string) (r : option string) : string :=
  String.append "Axie "
    (String.append id (String.append ": " (default "undefined" r))).

Definition canBreedTogether (axie1 axie2 : Axie) : PairResult :=
  if String.eqb (axie_id axie1) (axie_id axie2) then
    {| pair_canBreed := false; pair_reason := Some "Cannot breed Axie with itself" |}
  else if String.eqb (axie_id axie1) (matronId axie2)
          || String.eqb (axie_id axie1) (sireId axie2) then
    {| pair_canBreed := false; pair_reason := Some "Cannot breed with parent" |}
  else if String.eqb (axie_id axie2) (matronId axie1)
          || String.eqb (axie_id axie2) (sireId axie1) then
    {| pair_canBreed := false; pair_reason := Some "Cannot breed with parent" |}
  else if String.eqb (matronId axie1) (matronId axie2)
          && String.eqb (sireId axie1) (sireId axie2)
          && negb (String.eqb (matronId axie1) "0")
          && negb (String.eqb (sireId axie1) "0") then
    {| pair_canBreed := false; pair_reason := Some "Cannot breed siblings" |}
  else
    let breed1 := canBreed axie1 in
    if negb (info_canBreed breed1) then
      {| pair_canBreed := false;
         pair_reason := Some (axie_reason (axie_id axie1) (reason breed1)) |}
    else
      let breed2 := canBreed axie2 in
      if negb (info_canBreed breed2) then
        {| pair_canBreed := false;
           pair_reason := Some (axie_reason (axie_id axie2) (reason breed2)) |}
      else
        {| pair_canBreed := true; pair_reason := None |}.

Definition getClassAdvantage (attackerClass defenderClass : AxieClass) : float :=
  let advantages := default [] (CLASS_ADVANTAGES !! attackerClass) in
  if includes advantages defenderClass then 1.15%float
  else
    let defenderAdvantages := default [] (CLASS_ADVANTAGES !! defenderClass) in
    if includes defenderAdvantages attackerClass then 0.85%float
    else 1.0%float.

(* ===================================================================== *)
(** ** Further functions of [utils/geneUtils.ts] and [utils/axieUtils.ts] *)
(* ===================================================================== *)

(** The string a [BodyPart] is at run time. *)
Definition part_name (part : BodyPart) : string :=
  match part with
  | Eyes => "eyes"
  | Ears => "ears"
  | Back => "back"
  | Mouth => "mouth"
  | Horn => "horn"
  | Tail => "tail"
  end.

(** The object [{ part; id; class }] of [getDominantParts]. *)
Record DominantPart := mkDominantPart
  { dom_part : BodyPart; dom_id : string; dom_class : string }.

Definition getDominantParts (genes : DecodedGenes) : list DominantPart :=
  List.map
    (λ part,
       {| dom_part := part;
          dom_id := allele_id (d (part_gene genes part));
          dom_class := allele_class (d (part_gene genes part)) |})
    parts.

(** [getStageName]: the table [stages] is keyed by the stage number. *)
Definition getStageName (stage : Z) : string :=
  let stages : gmap Z string :=
    list_to_map [(1, "Egg"); (2, "Larva"); (3, "Petite"); (4, "Adult")] in
  match stages !! stage with
  | Some name => if String.eqb name "" then "Unknown" else name
  | None => "Unknown"
  end.

(** An entry of [MMR_TIERS]; [maxMmr = None] is [Infinity]. *)
Record Tier := mkTier { tier_name : string; minMmr : Z; maxMmr : option Z }.

Definition MMR_TIERS : list Tier :=
  [ mkTier "Egg" 0 (Some 799);
    mkTier "Chick" 800 (Some 999);
    mkTier "Hare" 1000 (Some 1099);
    mkTier "Boar" 1100 (Some 1299);
    mkTier "Wolf" 1300 (Some 1499);
    mkTier "Bear" 1500 (Some 1799);
    mkTier "Tiger" 1800 (Some 2099);
    mkTier "Dragon" 2100 (Some 2399);
    mkTier "Challenger" 2400 None ].

(** The test [mmr >= tier.minMmr && mmr <= tier.maxMmr], for an integral
    rating. *)
Definition in_tier (mmr : Z) (tier : Tier) : bool :=
  (minMmr tier <=? mmr)
  && match maxMmr tier with
     | Some top => mmr <=? top
     | None => true
     end.

(** [MMR_TIERS[0]] *)
Definition first_tier : Tier := hd (mkTier "undefined" 0 None) MMR_TIERS.

Module axieData.
(** [getMmrTier] of [constants/axieData.ts]. *)
Definition getMmrTier (mmr : Z) : Tier :=
  match List.find (in_tier mmr) MMR_TIERS with
  | Some tier => tier
  | None => first_tier
  end.
End axieData.

(** The object [{ ...tier, rank }] of [getMmrTier]. *)
Record RankedTier := mkRankedTier
  { ranked_name : string; ranked_minMmr : Z; ranked_maxMmr : option Z; rank : Z }.

(** The loop of [getMmrTier] from index [i] on. *)
Fixpoint getMmrTier_loop (mmr : Z) (i : Z) (tiers : list Tier) : option RankedTier :=
  match tiers with
  | [] => None
  | tier :: rest =>
      if in_tier mmr tier
      then Some {| ranked_name := tier_name tier; ranked_minMmr := minMmr tier;
                   ranked_maxMmr := maxMmr tier; rank := i + 1 |}
      else getMmrTier_loop mmr (i + 1) rest
  end.

(** [getMmrTier] of [utils/axieUtils.ts]. *)
Definition getMmrTier (mmr : Z) : RankedTier :=
  match getMmrTier_loop mmr 0 MMR_TIERS with
  | Some found => found
  | None =>
      {| ranked_name := tier_name first_tier; ranked_minMmr := minMmr first_tier;
         ranked_maxMmr := maxMmr first_tier; rank := 1 |}
  end.

(** [Math.round(n / 2)] for an integral [n]: a half rounds up. *)
Definition round_half (n : Z) : Z := (n + 1) / 2.

Record OffspringStats := mkOffspringStats
  { off_min : ComputedStats; off_max : ComputedStats; off_average : ComputedStats }.

(** [Math.min(a, b) - 4], [Math.max(a, b) + 4] and
    [Math.round((a + b) / 2)]. *)
Definition min_less_4 (a b : Stat) : Stat :=
  stat_op1 (λ n, n - 4) (stat_op2 Z.min a b).

Definition max_plus_4 (a b : Stat) : Stat :=
  stat_op1 (λ n, n + 4) (stat_op2 Z.max a b).

Definition round_mean (a b : Stat) : Stat :=
  stat_op1 round_half (stat_op2 Z.add a b).

Definition estimateOffspringStats (parent1Genes parent2Genes : DecodedGenes)
    : OffspringStats :=
  let stats1 := calculateStats parent1Genes in
  let stats2 := calculateStats parent2Genes in
  {| off_min :=
       {| stat_hp := min_less_4 (stat_hp stats1) (stat_hp stats2);
          stat_speed := min_less_4 (stat_speed stats1) (stat_speed stats2);
          stat_skill := min_less_4 (stat_skill stats1) (stat_skill stats2);
          stat_morale := min_less_4 (stat_morale stats1) (stat_morale stats2) |};
     off_max :=
       {| stat_hp := max_plus_4 (stat_hp stats1) (stat_hp stats2);
          stat_speed := max_plus_4 (stat_speed stats1) (stat_speed stats2);
          stat_skill := max_plus_4 (stat_skill stats1) (stat_skill stats2);
          stat_morale := max_plus_4 (stat_morale stats1) (stat_morale stats2) |};
     off_average :=
       {| stat_hp := round_mean (stat_hp stats1) (stat_hp stats2);
          stat_speed := round_mean (stat_speed stats1) (stat_speed stats2);
          stat_skill := round_mean (stat_skill stats1) (stat_skill stats2);
          stat_morale := round_mean (stat_morale stats1) (stat_morale stats2) |} |}.

Definition getAxieImageUrl (axieId : string) : string :=
  String.append "https://axiecdn.axieinfinity.com/axies/"
    (String.append axieId "/axie/axie-full-transparent.png").

Definition getAxieMarketUrl (axieId : string) : string :=
  String.append "https://app.axieinfinity.com/marketplace/axies/" axieId.

(** The class [\d]. *)
Definition is_digit (c : ascii) : bool :=
  let n := nat_of_ascii c in (48 <=? n)%nat && (n <=? 57)%nat.

(** The longest run of digits at the start of a string, and what follows. *)
Fixpoint take_digits (s : string) : string * string :=
  match s with
  | String c r =>
      if is_digit c
      then let '(ds, rest) := take_digits r in (String c ds, rest)
      else (EmptyString, s)
  | EmptyString => (EmptyString, EmptyString)
  end.

(** A letter of a pattern with the flag [i]: the character or its capital. *)
Definition letter_ci (c lower upper : ascii) : bool :=
  Ascii.eqb c lower || Ascii.eqb c upper.

(** [[\/:](\d+)] at the start of a string: the digits captured. *)
Definition match_sep_digits (s : string) : option string :=
  match s with
  | String c r =>
      if Ascii.eqb c "/" || Ascii.eqb c ":"
      then match take_digits r with
           | (EmptyString, _) => None
           | (ds, _) => Some ds
           end
      else None
  | EmptyString => None
  end.

(** [/axies?[\/:](\d+)/i] at the start of a string: the optional [s] is
    tried first, then left out. *)
Definition match_axie_here (s : string) : option string :=
  match s with
  | String c1 (String c2 (String c3 (String c4 r))) =>
      if letter_ci c1 "a" "A" && letter_ci c2 "x" "X"
         && letter_ci c3 "i" "I" && letter_ci c4 "e" "E"
      then
        let with_s :=
          match r with
          | String c5 r' => if letter_ci c5 "s" "S" then match_sep_digits r' else None
          | EmptyString => None
          end in
        match with_s with
        | Some ds => Some ds
        | None => match_sep_digits r
        end
      else None
  | _ => None
  end.

(** [input.match(/axies?[\/:](\d+)/i)]: the leftmost match, its group 1. *)
Fixpoint search_axie (input : string) : option string :=
  match input with
  | EmptyString => None
  | String _ r =>
      match match_axie_here input with
      | Some ds => Some ds
      | None => search_axie r
      end
  end.

(** [input.match(/^#?(\d+)$/)]: group 1. *)
Definition match_number (input : string) : option string :=
  let body :=
    match input with
    | String "#" r => r
    | _ => input
    end in
  match take_digits body with
  | (EmptyString, _) => None
  | (ds, EmptyString) => Some ds
  | (_, String _ _) => None
  end.

Definition parseAxieId (input : string) : Completion string :=
  match search_axie input with
  | Some id => Normal id
  | None =>
      match match_number input with
      | Some id => Normal id
      | None => Throw (String.append "Invalid Axie ID format: " input)
      end
  end.

(* ===================================================================== *)
(** ** The pure parts of the breeding actions
       ([actions/breeding/index.ts], [actions/axie/index.ts])

    The host's parameters and the client's answer are arguments: a case of
    [executeBreeding] or [executeAxie] is modelled from the parsing of its
    identifiers on, with [getAxie] the answer of the client for an id. *)
(* ===================================================================== *)

(** An element of [AxieResponse.parts]. *)
Record PartInfo := mkPartInfo
  { info_id : string; info_name : string; info_class : string; info_type : string }.

Record Auction := mkAuction { currentPrice : string; currentPriceUSD : string }.

(** [AxieResponse] of the Skynet client; an optional field is an [option]. *)
Record AxieResponse := mkAxieResponse
  { resp_id : string;
    resp_name : string;
    resp_class : string;
    resp_genes : string;
    resp_breedCount : Z;
    resp_image : string;
    resp_stage : Z;
    resp_owner : string;
    resp_bornAt : option Z;
    resp_matronId : option string;
    resp_sireId : option string;
    resp_matronClass : option string;
    resp_sireClass : option string;
    resp_children : option (list string);
    resp_parts : list PartInfo;
    resp_stats : AxieStats;
    resp_auction : option Auction }.

(** [n || 0] for an integral number. *)
Definition or_zero_int (n : Z) : Z := if n =? 0 then 0 else n.

(** [field === s] for an optional string field. *)
Definition field_is (field : option string) (s : string) : bool :=
  match field with
  | Some v => String.eqb v s
  | None => false
  end.

(** [if (cond) issues.push(text)] *)
Definition push_if (cond : bool) (text : string) (issues : list string) : list string :=
  if cond then issues ++ [text] else issues.

(** The result of the case [checkEligibility]; [elig_issues = None] is
    [undefined]. *)
Record EligibilityResult := mkEligibilityResult
  { elig_sireId : string;
    elig_matronId : string;
    elig_canBreed : bool;
    elig_issues : option (list string);
    elig_sireBreedCount : Z;
    elig_matronBreedCount : Z }.

(** The text [`... (${BREEDING_COSTS.MAX_BREED_COUNT})`]. *)
Definition max_count_text (who : string) : string :=
  String.append who
    (String.append " has reached max breed count ("
       (String.append (toString (Some BREEDING_COSTS.MAX_BREED_COUNT)) ")")).

(** The case [checkEligibility] of [executeBreeding]. *)
Definition checkEligibility (getAxie : string → AxieResponse)
    (sireIdRaw matronIdRaw : string) : Completion EligibilityResult :=
  bind (parseAxieId sireIdRaw) (λ sireId,
  bind (parseAxieId matronIdRaw) (λ matronId,
    let sire := getAxie sireId in
    let matron := getAxie matronId in
    let issues : list string := [] in
    let issues := push_if (String.eqb sireId matronId) "Cannot breed Axie with itself" issues in
    let issues :=
      push_if (BREEDING_COSTS.MAX_BREED_COUNT <=? or_zero_int (resp_breedCount sire))
        (max_count_text "Sire") issues in
    let issues :=
      push_if (BREEDING_COSTS.MAX_BREED_COUNT <=? or_zero_int (resp_breedCount matron))
        (max_count_text "Matron") issues in
    let issues := push_if (resp_stage sire <? 4) "Sire must be an adult (stage 4)" issues in
    let issues := push_if (resp_stage matron <? 4) "Matron must be an adult (stage 4)" issues in
    let issues :=
      push_if (field_is (resp_matronId sire) matronId || field_is (resp_sireId sire) matronId)
        "Cannot breed with parent" issues in
    let issues :=
      push_if (field_is (resp_matronId matron) sireId || field_is (resp_sireId matron) sireId)
        "Cannot breed with parent" issues in
    let canBreed := (length issues =? 0)%nat in
    Normal
      {| elig_sireId := sireId;
         elig_matronId := matronId;
         elig_canBreed := canBreed;
         elig_issues := if (0 <? length issues)%nat then Some issues else None;
         elig_sireBreedCount := or_zero_int (resp_breedCount sire);
         elig_matronBreedCount := or_zero_int (resp_breedCount matron) |})).

(** The objects [{ id; breedCount; slpCost }] and [{ slp; axs }] of the case
    [getBreedingCost]. *)
Record ParentCost := mkParentCost
  { parent_id : string; parent_breedCount : Z; parent_slpCost : Z }.

Record TotalCost := mkTotalCost { total_slp : Z; total_axs : float }.

Record BreedingCostResult := mkBreedingCostResult
  { cost_sire : ParentCost; cost_matron : ParentCost; totalCost : TotalCost }.

(** The case [getBreedingCost] of [executeBreeding]. *)
Definition getBreedingCost (getAxie : string → AxieResponse)
    (sireIdRaw matronIdRaw : string) : Completion BreedingCostResult :=
  bind (parseAxieId sireIdRaw) (λ sireId,
  bind (parseAxieId matronIdRaw) (λ matronId,
    let sire := getAxie sireId in
    let matron := getAxie matronId in
    let sireBreedCount := or_zero_int (resp_breedCount sire) in
    let matronBreedCount := or_zero_int (resp_breedCount matron) in
    let sireSlpCost := slp_by_breed_count sireBreedCount in
    let matronSlpCost := slp_by_breed_count matronBreedCount in
    let totalSlpCost := sireSlpCost + matronSlpCost in
    let axsCost := BREEDING_COSTS.AXS_PER_BREED in
    Normal
      {| cost_sire :=
           {| parent_id := sireId; parent_breedCount := sireBreedCount;
              parent_slpCost := sireSlpCost |};
         cost_matron :=
           {| parent_id := matronId; parent_breedCount := matronBreedCount;
              parent_slpCost := matronSlpCost |};
         totalCost := {| total_slp := totalSlpCost; total_axs := axsCost |} |})).

(** The result of the case [getBreedingInfo]; [binfo_reason = None] is
    [undefined]. *)
Record BreedingInfoResult := mkBreedingInfoResult
  { binfo_axieId : string;
    binfo_breedCount : Z;
    binfo_maxBreeds : Z;
    binfo_canBreed : bool;
    binfo_reason : option string;
    binfo_cost : TotalCost }.

(** The case [getBreedingInfo] of [executeAxie]. *)
Definition getBreedingInfo (getAxie : string → AxieResponse) (axieIdRaw : string)
    : Completion BreedingInfoResult :=
  bind (parseAxieId axieIdRaw) (λ axieId,
    let axie := getAxie axieId in
    let breedCountVal := or_zero_int (resp_breedCount axie) in
    let slpCost := slp_by_breed_count breedCountVal in
    let axsCost := BREEDING_COSTS.AXS_PER_BREED in
    let canBreedResult :=
      (breedCountVal <? BREEDING_COSTS.MAX_BREED_COUNT) && (4 <=? resp_stage axie) in
    let reason :=
      if BREEDING_COSTS.MAX_BREED_COUNT <=? breedCountVal
      then "Maximum breed count reached (7)"
      else if resp_stage axie <? 4 then "Axie must be an adult to breed"
      else "" in
    Normal
      {| binfo_axieId := axieId;
         binfo_breedCount := breedCountVal;
         binfo_maxBreeds := BREEDING_COSTS.MAX_BREED_COUNT;
         binfo_canBreed := canBreedResult;
         binfo_reason := if String.eqb reason "" then None else Some reason;
         binfo_cost := {| total_slp := slpCost; total_axs := axsCost |} |}).

(* ===================================================================== *)
(** ** The pure part of the action [getMmr] ([actions/battle/index.ts])

    [wins] is the length of the array that the filter on the battles of the
    client leaves. *)
(* ===================================================================== *)

Record MmrResult := mkMmrResult
  { res_estimatedMmr : Z;
    res_tier : string;
    res_tierMinMmr : Z;
    res_tierMaxMmr : option Z }.

Definition getMmr (wins : nat) : MmrResult :=
  let estimatedMmr := 1000 + (Z.of_nat wins * 50) in
  let tier := getMmrTier estimatedMmr in
  {| res_estimatedMmr := estimatedMmr;
     res_tier := ranked_name tier;
     res_tierMinMmr := ranked_minMmr tier;
     res_tierMaxMmr := ranked_maxMmr tier |}.

(* ===================================================================== *)
(** ** Further cases of [executeBreeding] ([actions/breeding/index.ts]) *)
(* ===================================================================== *)

(** The object [{ slp; axs }] of the case [getBreedCount]; [next_slp] is
    [None] when the index lies outside the table ([undefined]). *)
Record NextBreedCost := mkNextBreedCost { next_slp : option Z; next_axs : float }.

Record BreedCountResult := mkBreedCountResult
  { count_axieId : string;
    count_breedCount : Z;
    count_maxBreedCount : Z;
    remainingBreeds : Z;
    nextBreedCost : option NextBreedCost;
    count_canBreed : bool }.

(** The case [getBreedCount]; [nextBreedSlpCost] is [None] for [null]. *)
Definition getBreedCount (getAxie : string → AxieResponse) (axieIdRaw : string)
    : Completion BreedCountResult :=
  bind (parseAxieId axieIdRaw) (λ axieId,
    let axie := getAxie axieId in
    let breedCount := or_zero_int (resp_breedCount axie) in
    let remainingBreeds := BREEDING_COSTS.MAX_BREED_COUNT - breedCount in
    let nextBreedSlpCost :=
      if breedCount <? BREEDING_COSTS.MAX_BREED_COUNT
      then Some (if 0 <=? breedCount
                 then BREEDING_COSTS.SLP_BY_BREED_COUNT !! Z.to_nat breedCount
                 else None)
      else None in
    Normal
      {| count_axieId := axieId;
         count_breedCount := breedCount;
         count_maxBreedCount := BREEDING_COSTS.MAX_BREED_COUNT;
         remainingBreeds := remainingBreeds;
         nextBreedCost :=
           match nextBreedSlpCost with
           | Some slp =>
               Some {| next_slp := slp; next_axs := BREEDING_COSTS.AXS_PER_BREED |}
           | None => None
           end;
         count_canBreed :=
           (breedCount <? BREEDING_COSTS.MAX_BREED_COUNT) && (4 <=? resp_stage axie) |}).

(** A row [{ breedCount; slpCost; axsCost }] of the case [getCostsTable]. *)
Record CostsRow := mkCostsRow
  { row_breedCount : Z; row_slpCost : Z; row_axsCost : float }.

Record CostsTable := mkCostsTable
  { axsPerBreed : float; maxBreedCount : Z; costsByBreedCount : list CostsRow }.

(** The case [getCostsTable]. *)
Definition getCostsTable : CostsTable :=
  let costsTable :=
    imap (λ breedCount slp,
            {| row_breedCount := Z.of_nat breedCount;
               row_slpCost := slp;
               row_axsCost := BREEDING_COSTS.AXS_PER_BREED |})
      BREEDING_COSTS.SLP_BY_BREED_COUNT in
  {| axsPerBreed := BREEDING_COSTS.AXS_PER_BREED;
     maxBreedCount := BREEDING_COSTS.MAX_BREED_COUNT;
     costsByBreedCount := costsTable |}.

(* ===================================================================== *)
(** ** The case [validateGenes] of the utility actions
       ([actions/utility/index.ts]) *)
(* ===================================================================== *)

(** The integer nearest to ten times [m * 2 ^ e], the larger one of two. *)
Definition nearest_tenths (m : positive) (e : Z) : Z :=
  if 0 <=? e then 10 * Z.pos m * 2 ^ e
  else (20 * Z.pos m + 2 ^ (- e)) / 2 ^ (- e + 1).

(** [k <= m * 2 ^ e] *)
Definition at_least (m : positive) (e : Z) (k : Z) : bool :=
  if 0 <=? e then k <=? Z.pos m * 2 ^ e else k * 2 ^ (- e) <=? Z.pos m.

(** [x.toFixed(1)]: the sign, then the multiple of a tenth nearest to the
    magnitude, the larger one of two, with one decimal. [None] stands for
    the exponent notation the method turns to from 1e21 on, which is not
    modelled. *)
Definition toFixed1 (x : float) : option string :=
  match Prim2SF x with
  | S754_nan => Some "NaN"
  | S754_infinity false => Some "Infinity"
  | S754_infinity true => Some "-Infinity"
  | S754_zero _ => Some "0.0"
  | S754_finite s m e =>
      if at_least m e (10 ^ 21) then None
      else
        let n := nearest_tenths m e in
        Some (String.append (if s then "-" else "")
                (String.append (toString (Some (n / 10)))
                   (String.append "." (toString (Some (n mod 10))))))
  end.

(** The two shapes of the answer of [validateGenes]; [isValid] tells them
    apart. *)
Inductive ValidateResult :=
| Invalid (genes message : string)
| Valid (genes class : string) (eyes ears mouth horn back tail : PartGene)
    (purity : option string) (pattern color : Cosmetic).

Definition validateGenes (genes : string) : Completion ValidateResult :=
  bind (isValidGene genes) (λ isValid,
    if negb isValid
    then
      Normal
        (Invalid genes
           "Invalid gene format. Expected 256-bit hex string (64 characters after 0x)")
    else
      bind (decodeGenes genes) (λ decoded,
        let purity := calculatePurity decoded in
        Normal
          (Valid genes (genes_class decoded)
             (eyes decoded) (ears decoded) (mouth decoded)
             (horn decoded) (back decoded) (tail decoded)
             ((λ text, String.append text "%") <$> toFixed1 purity)
             (pattern decoded) (color decoded)))).

(* ===================================================================== *)
(** ** Definitions used to state the properties *)
(* ===================================================================== *)

(** *** The gene pattern *)

(** The character class [[0-9a-fA-F]]. *)
Definition hex_class (c : ascii) : bool :=
  existsb (Ascii.eqb c) (list_ascii_of_string "0123456789abcdefABCDEF").

(** [[0-9a-fA-F]{n}$] *)
Fixpoint hex_run (n : nat) (s : string) : bool :=
  match n, s with
  | O, EmptyString => true
  | S n', String c s' => hex_class c && hex_run n' s'
  | _, _ => false
  end.

(** [^(0x)?[0-9a-fA-F]{64}$] *)
Definition matches_gene_pattern (s : string) : bool :=
  hex_run 64 s
  || match s with
     | String "0" (String "x" r) => hex_run 64 r
     | _ => false
     end.

(** *** Class advantage *)

(** The "beats" list of a class. *)
Definition beats (X : AxieClass) : list string :=
  default [] (CLASS_ADVANTAGES !! X).

(** All ordered pairs of classes. *)
Definition class_pairs : list (AxieClass * AxieClass) :=
  list_prod AXIE_CLASSES AXIE_CLASSES.

(** The pairs at which the consistency property of the table fails:
    1.15 one way without 0.85 the other way. *)
Definition inconsistent_pair (p : AxieClass * AxieClass) : bool :=
  let '(X, Y) := p in
  (getClassAdvantage X Y =? 1.15)%float
  && negb (getClassAdvantage Y X =? 0.85)%float.

(** *** Purity and stats *)

(** An integral number as a double (exact below 2^53). *)
Definition number (n : nat) : float := PrimFloat.of_uint63 (Uint63.of_Z (Z.of_nat n)).

(** Whether the dominant allele of a part has the class of the Axie. *)
Definition part_matches (genes : DecodedGenes) (p : PartGene) : bool :=
  String.eqb (allele_class (d p)) (genes_class genes).

(** The number of parts, among eyes, ears, mouth, horn, back and tail,
    whose dominant allele has the class of the Axie. *)
Definition matching_parts (genes : DecodedGenes) : nat :=
  length
    (List.filter (part_matches genes)
       [eyes genes; ears genes; mouth genes; horn genes; back genes; tail genes]).

(** The base stats of a class: its table entry, or that of [beast] when the
    class has no entry. *)
Definition base_stats_of (c : string) : AxieStats :=
  match BASE_STATS !! c with
  | Some b => b
  | None => mkStats 31 35 31 43
  end.

(** The bonus of one part: the table entry of the class of its dominant
    allele, or nothing when that class has no entry. *)
Definition part_bonus (p : PartGene) : AxieStats :=
  match PART_STAT_BONUS !! allele_class (d p) with
  | Some b => b
  | None => mkStats 0 0 0 0
  end.

(** The sum of two stat records, stat by stat. *)
Definition stats_add (a b : AxieStats) : AxieStats :=
  mkStats (hp a + hp b) (speed a + speed b) (skill a + skill b) (morale a + morale b).

(** Base stats plus the bonuses of the six parts. *)
Definition expected_stats (genes : DecodedGenes) : AxieStats :=
  stats_add (stats_add (stats_add (stats_add (stats_add (stats_add
    (base_stats_of (genes_class genes))
    (part_bonus (eyes genes))) (part_bonus (ears genes))) (part_bonus (mouth genes)))
    (part_bonus (horn genes))) (part_bonus (back genes))) (part_bonus (tail genes)).

(** Computed stats that are the integers of a stat record. *)
Definition exact_stats (s : AxieStats) : ComputedStats :=
  mkComputed (Num (hp s)) (Num (speed s)) (Num (skill s)) (Num (morale s)).

(** Computed stats that are all [NaN]. *)
Definition nan_stats : ComputedStats := mkComputed NaN NaN NaN NaN.

(** The four fields read from a member of a table. *)
Definition member_stats (member : Member AxieStats) : ComputedStats :=
  mkComputed (field_of hp member) (field_of speed member)
    (field_of skill member) (field_of morale member).

(** The sum of two computed stats, stat by stat. *)
Definition computed_add (a b : ComputedStats) : ComputedStats :=
  mkComputed (stat_op2 Z.add (stat_hp a) (stat_hp b))
    (stat_op2 Z.add (stat_speed a) (stat_speed b))
    (stat_op2 Z.add (stat_skill a) (stat_skill b))
    (stat_op2 Z.add (stat_morale a) (stat_morale b)).

(** What the code reads for a class in a table, given the entry that the
    specification expects. *)
Definition read_stats (class : string) (expected : AxieStats) : ComputedStats :=
  if includes OBJECT_PROTOTYPE class then member_stats Inherited
  else exact_stats expected.

(** The class of the Axie or of one of the six dominant alleles is a name
    inherited from [Object.prototype]. *)
Definition inherited_class (genes : DecodedGenes) : bool :=
  includes OBJECT_PROTOTYPE (genes_class genes)
  || existsb (λ p, includes OBJECT_PROTOTYPE (allele_class (d p)))
       [eyes genes; ears genes; mouth genes; horn genes; back genes; tail genes].

(** Genes of class [beast] with six [beast] parts, except for the class of
    the dominant allele of the eyes. *)
Definition beast_with_eyes (class : string) : DecodedGenes :=
  let p := mkPartGene (mkAllele "1" "part-1" "beast")
             (mkAllele "2" "part-2" "beast") (mkAllele "3" "part-3" "beast") in
  mkDecodedGenes "beast" "0" "0" "0" (mkCosmetic "0" "0" "0") (mkCosmetic "0" "0" "0")
    (mkPartGene (mkAllele "1" "part-1" class)
       (mkAllele "2" "part-2" "beast") (mkAllele "3" "part-3" "beast"))
    p p p p p.

(** *** Breeding eligibility *)

(** A test Axie: identity, parents, breed count and stage. *)
Definition test_axie (id matron sire : string) (count stg : Z) : Axie :=
  mkAxie id None "beast" "" 0 matron sire count "" stg None.

(** [s] contains [sub] as a substring. *)
Fixpoint contains (s sub : string) : bool :=
  String.prefix sub s
  || match s with
     | String _ s' => contains s' sub
     | EmptyString => false
     end.

(** The conditions that block a pairing, as the specification lists them. *)
Inductive Blocker :=
| SelfBreeding | MaxBreedCount | NotAdult | ParentChild | Siblings.

(** Whether a condition blocks the pairing of [axie1] with [axie2]. *)
Definition blocks (b : Blocker) (axie1 axie2 : Axie) : bool :=
  match b with
  | SelfBreeding => String.eqb (axie_id axie1) (axie_id axie2)
  | MaxBreedCount => (7 <=? breedCount axie1) || (7 <=? breedCount axie2)
  | NotAdult => (stage axie1 <? 4) || (stage axie2 <? 4)
  | ParentChild =>
      String.eqb (axie_id axie1) (matronId axie2)
      || String.eqb (axie_id axie1) (sireId axie2)
      || String.eqb (axie_id axie2) (matronId axie1)
      || String.eqb (axie_id axie2) (sireId axie1)
  | Siblings =>
      String.eqb (matronId axie1) (matronId axie2)
      && String.eqb (sireId axie1) (sireId axie2)
      && negb (String.eqb (matronId axie1) "0")
      && negb (String.eqb (sireId axie1) "0")
  end.

(** The words by which a reason names a blocking condition. *)
Definition blocker_words (b : Blocker) : string :=
  match b with
  | SelfBreeding => "itself"
  | MaxBreedCount => "breed count"
  | NotAdult => "adult"
  | ParentChild => "parent"
  | Siblings => "siblings"
  end.

(** Whether the reason of a result names a blocking condition. *)
Definition reports (r : PairResult) (b : Blocker) : bool :=
  match pair_reason r with
  | Some text => contains text (blocker_words b)
  | None => false
  end.

(** The checks of [canBreedTogether] in the order the code makes them, each
    with the reason it gives. *)
Definition ordered_checks (axie1 axie2 : Axie) : list (bool * string) :=
  [ (String.eqb (axie_id axie1) (axie_id axie2), "Cannot breed Axie with itself");
    (String.eqb (axie_id axie1) (matronId axie2)
     || String.eqb (axie_id axie1) (sireId axie2), "Cannot breed with parent");
    (String.eqb (axie_id axie2) (matronId axie1)
     || String.eqb (axie_id axie2) (sireId axie1), "Cannot breed with parent");
    (String.eqb (matronId axie1) (matronId axie2)
     && String.eqb (sireId axie1) (sireId axie2)
     && negb (String.eqb (matronId axie1) "0")
     && negb (String.eqb (sireId axie1) "0"), "Cannot breed siblings");
    (7 <=? breedCount axie1,
     String.append "Axie " (String.append (axie_id axie1) ": Maximum breed count reached (7)"));
    (stage axie1 <? 4,
     String.append "Axie " (String.append (axie_id axie1) ": Axie must be an adult to breed"));
    (7 <=? breedCount axie2,
     String.append "Axie " (String.append (axie_id axie2) ": Maximum breed count reached (7)"));
    (stage axie2 <? 4,
     String.append "Axie " (String.append (axie_id axie2) ": Axie must be an adult to breed")) ].

(** The reason of the first check that fails, if any. *)
Definition first_failure (axie1 axie2 : Axie) : option string :=
  snd <$> List.find fst (ordered_checks axie1 axie2).

(** *** Inheritance probabilities *)

(** [n] thirty-seconds as a double. *)
Definition dy (n : nat) : float := (number n / 32)%float.

(** [probability_step] on a key and a weight. *)
Definition add_weight (m : gmap string float) (e : string * float) : gmap string float :=
  <[ e.1 := (or_zero (m !! e.1) + e.2)%float ]> m.

(** The same accumulation with the weights counted in thirty-seconds. *)
Definition add_units (m : gmap string nat) (e : string * nat) : gmap string nat :=
  <[ e.1 := (default 0 (m !! e.1) + e.2)%nat ]> m.

(** The units of all the entries of [l]. *)
Definition total (l : list (string * nat)) : nat := sum_list (l.*2).

(** The units of the entries of [l] filed under [k], in order. *)
Definition units_of (k : string) (l : list (string * nat)) : list nat :=
  (List.filter (λ e, String.eqb e.1 k) l).*2.

(** Every value of [m] leaves room for all of [l] below 32. *)
Definition room (m : gmap string nat) (l : list (string * nat)) : Prop :=
  (total l ≤ 32)%nat ∧ ∀ k v, m !! k = Some v → (v + total l ≤ 32)%nat.

(** The sum of the values of a map. *)
Definition map_total (m : gmap string nat) : nat := sum_list ((map_to_list m).*2).

(** The left-to-right sum of a list of numbers, in double arithmetic. *)
Definition sum_numbers (ws : list float) : float :=
  fold_left PrimFloat.add ws 0%float.

(** The weights of the entries filed under [key], in the order of the
    array. *)
Definition weights_of (key : string) (entries : list (Allele * float)) : list float :=
  (List.filter (λ e, String.eqb (gene_key e.1) key) entries).*2.

(** The six alleles as keys and thirty-seconds. *)
Definition unit_entries (p1 p2 : PartGene) : list (string * nat) :=
  [ (gene_key (d p1), 12%nat); (gene_key (r1 p1), 3%nat); (gene_key (r2 p1), 1%nat);
    (gene_key (d p2), 12%nat); (gene_key (r1 p2), 3%nat); (gene_key (r2 p2), 1%nat) ].

(** A string without the separator [-] of the keys. *)
Fixpoint no_dash (s : string) : bool :=
  match s with
  | EmptyString => true
  | String c r => negb (Ascii.eqb c "-") && no_dash r
  end.

(** Two alleles with the same class and the same part id. *)
Definition same_pair (a b : Allele) : bool :=
  String.eqb (allele_class a) (allele_class b) && String.eqb (allele_id a) (allele_id b).

(** The weights of the entries whose allele has the class and the part id
    of [gene], in the order of the array. *)
Definition weights_of_pair (gene : Allele) (entries : list (Allele * float))
    : list float :=
  (List.filter (λ e, same_pair e.1 gene) entries).*2.

(** The pair (class, part id) of an allele. *)
Definition class_id (a : Allele) : string * string := (allele_class a, allele_id a).

(** The key of a pair: the class, [-], the part id. *)
Definition pair_key (p : string * string) : string :=
  String.append p.1 (String.append "-" p.2).

(** No class name of the three alleles holds a [-]. *)
Definition plain_classes (p : PartGene) : bool :=
  no_dash (allele_class (d p)) && no_dash (allele_class (r1 p))
  && no_dash (allele_class (r2 p)).

(** A test part: class and id of its dominant and two recessive alleles. *)
Definition test_part (c1 i1 c2 i2 c3 i3 : string) : PartGene :=
  mkPartGene (mkAllele i1 (String.append "part-" i1) c1)
    (mkAllele i2 (String.append "part-" i2) c2)
    (mkAllele i3 (String.append "part-" i3) c3).

(** *** The bit layout of a gene *)

(** The value of a binary digit. *)
Definition bit_of (c : ascii) : Z := if Ascii.eqb c "1" then 1 else 0.

(** The characters [0] and [1], and the strings made of them. *)
Definition is_bit (c : ascii) : bool := Ascii.eqb c "0" || Ascii.eqb c "1".

Fixpoint is_binary (s : string) : bool :=
  match s with
  | EmptyString => true
  | String c r => is_bit c && is_binary r
  end.

(** The number written by a string of binary digits, most significant
    digit first, after the digits already read into [acc]. *)
Fixpoint bits_acc (acc : Z) (s : string) : Z :=
  match s with
  | EmptyString => acc
  | String c r => bits_acc (2 * acc + bit_of c) r
  end.

(** The [width] bits that start [start] bits after the most significant
    bit of the 256-bit number [G]. *)
Definition field (G : Z) (start width : nat) : Z :=
  Z.land (Z.shiftr G (Z.of_nat (256 - (start + width)))) (Z.ones (Z.of_nat width)).

(** The value of a hexadecimal digit: its position among the digits. *)
Definition hex_digit_value (c : ascii) : Z :=
  match String.index 0 (String c EmptyString) "0123456789abcdef" with
  | Some i => Z.of_nat i
  | None =>
      match String.index 0 (String c EmptyString) "0123456789ABCDEF" with
      | Some i => Z.of_nat i
      | None => 0
      end
  end.

(** The number written by a string of hexadecimal digits, after the digits
    already read into [acc]. *)
Fixpoint hex_acc (acc : Z) (s : string) : Z :=
  match s with
  | EmptyString => acc
  | String c r => hex_acc (16 * acc + hex_digit_value c) r
  end.

(** The 256-bit number a gene string writes, its [0x] prefix apart. *)
Definition gene_value (geneHex : string) : Z :=
  hex_acc 0
    match geneHex with
    | String "0" (String "x" r) => r
    | _ => geneHex
    end.

(** What one iteration of the loop of [hexToBinary] appends for [char]. *)
Definition expand_char (char : ascii) : string :=
  padStart (toString2 (parseInt (String char EmptyString) 16)) 4 "0".

(** The class-code table, by the number a 4-bit code writes. *)
Definition class_of_code (code : Z) : option string :=
  match code with
  | 0 => Some "beast"
  | 1 => Some "bug"
  | 2 => Some "bird"
  | 3 => Some "plant"
  | 4 => Some "aquatic"
  | 5 => Some "reptile"
  | 8 => Some "mech"
  | 9 => Some "dawn"
  | 10 => Some "dusk"
  | _ => None
  end.

(** The decimal text of a number. *)
Definition decimal (v : Z) : string := toString (Some v).

(** The allele read from the 12 bits at [start]: 4 bits of class code, 6
    bits of part id, 2 bits ignored. *)
Definition allele_at (G : Z) (start : nat) : Allele :=
  let id := decimal (field G (start + 4) 6) in
  {| allele_id := id;
     allele_name := String.append "part-" id;
     allele_class := default "unknown" (class_of_code (field G start 4)) |}.

(** The part read from the 36 bits at [start]. *)
Definition part_at (G : Z) (start : nat) : PartGene :=
  {| d := allele_at G start;
     r1 := allele_at G (start + 12);
     r2 := allele_at G (start + 24) |}.

(** What [decodePart] returns on the empty string. *)
Definition absent_allele : Allele :=
  {| allele_id := "NaN"; allele_name := "part-NaN"; allele_class := "unknown" |}.

(** The gene of 64 zero digits. *)
Definition zero_gene : string := repeat_char "0" 64.

(** *** Further properties: gene decoding *)

(** The string [cleanHex] of [hexToBinary] and [isValidGene]. *)
Definition cleanHex_of (geneHex : string) : string :=
  if startsWith geneHex "0x" then slice_from geneHex 2 else geneHex.

(** An allele as the decoder builds it: its class is one of the nine or
    "unknown", and its name is its id after "part-". *)
Definition allele_wf (a : Allele) : Prop :=
  (In (allele_class a) AXIE_CLASSES ∨ allele_class a = "unknown")
  ∧ allele_name a = String.append "part-" (allele_id a).

Definition part_wf (p : PartGene) : Prop :=
  allele_wf (d p) ∧ allele_wf (r1 p) ∧ allele_wf (r2 p).

(** The decimal text of a number from 0 to [bound - 1]. *)
Definition decimal_below (bound : Z) (text : string) : Prop :=
  ∃ n, 0 <= n < bound ∧ text = decimal n.

Definition ids_below_64 (p : PartGene) : Prop :=
  decimal_below 64 (allele_id (d p))
  ∧ decimal_below 64 (allele_id (r1 p))
  ∧ decimal_below 64 (allele_id (r2 p)).

(** *** Further properties: stats and purity *)

(** The sum of the four stats. *)
Definition stat_total (s : AxieStats) : Z := hp s + speed s + skill s + morale s.

(** The number of parts whose dominant allele has one of the nine classes. *)
Definition mapped_parts (genes : DecodedGenes) : nat :=
  length
    (List.filter (λ p, includes AXIE_CLASSES (allele_class (d p)))
       [eyes genes; ears genes; mouth genes; horn genes; back genes; tail genes]).

(** A stat between two bounds. *)
Definition stats_between (lo hi : Z) (s : AxieStats) : Prop :=
  lo <= hp s <= hi ∧ lo <= speed s <= hi ∧ lo <= skill s <= hi ∧ lo <= morale s <= hi.

(** Genes with a class and six parts given by their dominant and recessive
    classes, for examples. *)
Definition test_genes (class dominant recessive : string) : DecodedGenes :=
  let p := test_part dominant "1" recessive "2" recessive "3" in
  mkDecodedGenes class "0" "0" "0" (mkCosmetic "0" "0" "0") (mkCosmetic "0" "0" "0")
    p p p p p p.

(** *** Further properties: the breeding actions *)

(** The record [a] holds the data of the answer [r] of the client for the
    id [id], parents included. *)
Definition describes (id : string) (r : AxieResponse) (a : Axie) : Prop :=
  axie_id a = id
  ∧ breedCount a = resp_breedCount r
  ∧ stage a = resp_stage r
  ∧ resp_matronId r = Some (matronId a)
  ∧ resp_sireId r = Some (sireId a).

(** A test answer of the client. *)
Definition test_response (id matron sire : string) (count stg : Z) : AxieResponse :=
  mkAxieResponse id "" "beast" "" count "" stg "" None (Some matron) (Some sire)
    None None None [] (mkStats 0 0 0 0) None.

(** A test client that knows two Axies. *)
Definition test_client (r1 r2 : AxieResponse) (id : string) : AxieResponse :=
  if String.eqb id (resp_id r1) then r1 else r2.

(** *** Further properties: stages, tiers and offspring *)

(** The rating lies in the tier. *)
Definition tier_contains (mmr : Z) (t : RankedTier) : Prop :=
  ranked_minMmr t <= mmr
  ∧ match ranked_maxMmr t with
    | Some top => mmr <= top
    | None => True
    end.

(** A tier without its rank. *)
Definition unranked (t : RankedTier) : Tier :=
  mkTier (ranked_name t) (ranked_minMmr t) (ranked_maxMmr t).

(** Each stat of the first is at most the stat of the second. *)
Definition stats_le (a b : AxieStats) : Prop :=
  hp a <= hp b ∧ speed a <= speed b ∧ skill a <= skill b ∧ morale a <= morale b.

(** The same number added to each stat. *)
Definition stats_shift (k : Z) (s : AxieStats) : AxieStats :=
  mkStats (hp s + k) (speed s + k) (skill s + k) (morale s + k).

(** *** Further properties: Axie identifiers *)

(** Every character is a decimal digit. *)
Fixpoint all_digits (s : string) : bool :=
  match s with
  | EmptyString => true
  | String c r => is_digit c && all_digits r
  end.

(** The string does not start with a decimal digit. *)
Definition no_digit_first (s : string) : bool :=
  match s with
  | EmptyString => true
  | String c _ => negb (is_digit c)
  end.

(** What a successful match captures: a non-empty run of digits of the
    string. *)
Definition captured (s ds : string) : Prop :=
  ds ≠ "" ∧ all_digits ds = true ∧ contains s ds = true.

(** *** Further properties: the table of costs and the purity shown *)

(** The text of the purity of an Axie with [k] parts of its class. *)
Definition purity_text (k : nat) : string :=
  nth k ["0.0%"; "16.7%"; "33.3%"; "50.0%"; "66.7%"; "83.3%"; "100.0%"] "".

(** A letter in lower case. *)
Definition lower_char (c : ascii) : ascii :=
  let n := nat_of_ascii c in
  if (65 <=? n)%nat && (n <=? 90)%nat then ascii_of_nat (n + 32) else c.

Fixpoint lower (s : string) : string :=
  match s with
  | EmptyString => EmptyString
  | String c r => String (lower_char c) (lower r)
  end.

(** The word [axie] or [axies], in any mix of capitals and small letters. *)
Definition axie_word (word : string) : bool :=
  String.eqb (lower word) "axie" || String.eqb (lower word) "axies".

(** One of the separators [/] and [:]. *)
Definition separator (c : ascii) : bool := Ascii.eqb c "/" || Ascii.eqb c ":".

(* ===================================================================== *)
(** ** Strings *)
(* ===================================================================== *)

Lemma append_cons (c : ascii) (s1 s2 : string) :
  String.append (String c s1) s2 = String c (String.append s1 s2).
Proof. reflexivity. Qed.

(* ===================================================================== *)
(** ** Gene validation: the pattern of the specification *)
(* ===================================================================== *)

Lemma hex_class_is_hex_char c : hex_class c = is_hex_char c.
Proof. destruct c as [[] [] [] [] [] [] [] []]; reflexivity. Qed.

Lemma hex_run_length_all_hex n s :
  hex_run n s = (String.length s =? n)%nat && all_hex s.
Proof.
  revert s; induction n as [|n IH]; intros [|c s]; simpl; try reflexivity.
  rewrite IH, hex_class_is_hex_char.
  destruct (is_hex_char c), (String.length s =? n)%nat; reflexivity.
Qed.

Lemma test_hex_plus_all_hex s :
  s ≠ EmptyString → test_hex_plus s = all_hex s.
Proof. destruct s; [congruence | reflexivity]. Qed.

(** The two guards of [isValidGene] on the cleaned string. *)
Lemma guards_hex_run cleanHex :
  (String.length cleanHex =? 64)%nat && test_hex_plus cleanHex = hex_run 64 cleanHex.
Proof.
  rewrite hex_run_length_all_hex.
  destruct cleanHex as [|c r]; [reflexivity|].
  rewrite test_hex_plus_all_hex by discriminate. reflexivity.
Qed.

Lemma decodeGenes_returns geneHex : ∃ genes, decodeGenes geneHex = Normal genes.
Proof. unfold decodeGenes. eexists. reflexivity. Qed.

Lemma isValidGene_guards geneHex :
  isValidGene geneHex =
  Normal
    (let cleanHex := if startsWith geneHex "0x" then slice_from geneHex 2 else geneHex in
     (String.length cleanHex =? 64)%nat && test_hex_plus cleanHex).
Proof.
  unfold isValidGene. cbv zeta.
  destruct (decodeGenes_returns geneHex) as [g ->].
  set (cleanHex := if startsWith geneHex "0x" then _ else _).
  destruct (String.length cleanHex =? 64)%nat, (test_hex_plus cleanHex); reflexivity.
Qed.

Lemma startsWith_0x_cases s :
  (startsWith s "0x" = true ∧ ∃ r, s = String "0" (String "x" r))
  ∨ (startsWith s "0x" = false ∧ ∀ r, s ≠ String "0" (String "x" r)).
Proof.
  unfold startsWith.
  destruct s as [|c1 [|c2 r]]; cbn -[ascii_dec].
  - right; split; [reflexivity | discriminate].
  - right; split; [destruct (ascii_dec "0" c1); reflexivity | discriminate].
  - destruct (ascii_dec "0" c1) as [<-|N1].
    + destruct (ascii_dec "x" c2) as [<-|N2].
      * left; split; [destruct r; reflexivity | eauto].
      * right; split; [reflexivity | congruence].
    + right; split; [reflexivity | congruence].
Qed.

Lemma matches_gene_pattern_0x r :
  matches_gene_pattern (String "0" (String "x" r)) = hex_run 64 r.
Proof. reflexivity. Qed.

Lemma matches_gene_pattern_plain s :
  (∀ r, s ≠ String "0" (String "x" r)) →
  matches_gene_pattern s = hex_run 64 s.
Proof.
  intros Hs. unfold matches_gene_pattern.
  destruct s as [|c1 [|c2 r]].
  - apply orb_false_r.
  - destruct c1 as [[] [] [] [] [] [] [] []]; apply orb_false_r.
  - destruct (ascii_dec "0" c1) as [<-|N1]; [destruct (ascii_dec "x" c2) as [<-|N2]|].
    + destruct (Hs r eq_refl).
    + destruct c2 as [[] [] [] [] [] [] [] []]; try apply orb_false_r; congruence.
    + destruct c1 as [[] [] [] [] [] [] [] []]; try apply orb_false_r; congruence.
Qed.

(** The guards accept the cleaned string exactly when the gene matches
    the pattern. *)
Lemma guards_match_pattern (geneHex : string) :
  (let cleanHex := if startsWith geneHex "0x" then slice_from geneHex 2 else geneHex in
   (String.length cleanHex =? 64)%nat && test_hex_plus cleanHex)
  = matches_gene_pattern geneHex.
Proof.
  cbv zeta.
  destruct (startsWith_0x_cases geneHex) as [[-> [r ->]] | [-> Hne]].
  - rewrite matches_gene_pattern_0x. cbn [slice_from]. apply guards_hex_run.
  - rewrite matches_gene_pattern_plain by assumption. apply guards_hex_run.
Qed.

(** C9: [isValidGene] completes normally on every string, and its result is
    [true] exactly when the string matches [^(0x)?[0-9a-fA-F]{64}$]. *)
Theorem isValidGene_matches_pattern (geneHex : string) :
  isValidGene geneHex = Normal (matches_gene_pattern geneHex).
Proof.
  rewrite isValidGene_guards.
  f_equal. apply guards_match_pattern.
Qed.

(** C1 fails on the code: the string ["invalid"] does not match the
    pattern, yet [decodeGenes] completes normally and returns a structure. *)
Lemma decodeGenes_invalid_not_rejected :
  matches_gene_pattern "invalid" = false
  ∧ (∀ e, decodeGenes "invalid" ≠ Throw e)
  ∧ ∃ genes, decodeGenes "invalid" = Normal genes
             ∧ genes_class genes = "beast"
             ∧ d (tail genes) = mkAllele "0" "part-0" "unknown".
Proof.
  split; [reflexivity|]. split; [intros e; discriminate|].
  eexists. split; [reflexivity|]. split; vm_compute; reflexivity.
Qed.

(** C1, amended: [decodeGenes] does not validate. On every string that
    does not match the pattern it completes normally with a structure;
    [isValidGene] is the function that rejects such a string, by returning
    [false]. *)
Theorem decodeGenes_never_rejects (geneHex : string) :
  matches_gene_pattern geneHex = false →
  (∃ genes, decodeGenes geneHex = Normal genes)
  ∧ (∀ e, decodeGenes geneHex ≠ Throw e)
  ∧ isValidGene geneHex = Normal false.
Proof.
  intros Hno. split; [apply decodeGenes_returns|]. split.
  - intros e. destruct (decodeGenes_returns geneHex) as [g ->]. discriminate.
  - rewrite isValidGene_guards, guards_match_pattern, Hno. reflexivity.
Qed.

Lemma decodeGenes_never_rejects_witness :
  matches_gene_pattern "0x12" = false
  ∧ (∃ genes, decodeGenes "0x12" = Normal genes)
  ∧ (∀ e, decodeGenes "0x12" ≠ Throw e)
  ∧ isValidGene "0x12" = Normal false.
Proof. split; [reflexivity | apply (decodeGenes_never_rejects "0x12"); reflexivity]. Defined.

(* ===================================================================== *)
(** ** Class advantage *)
(* ===================================================================== *)

(** C2 on the code: [beast] and [dusk] are in each other's "beats" list, so
    the multiplier is 1.15 in both directions and never 0.85; the same holds
    for [bug]/[mech] and [plant]/[dawn], and for no other pair. The other
    two parts of the claim hold: 0.85 one way is always 1.15 the other way,
    and every class is neutral against itself. *)
Theorem getClassAdvantage_mutual_pairs :
  (getClassAdvantage "beast" "dusk" =? 1.15)%float = true
  ∧ (getClassAdvantage "dusk" "beast" =? 1.15)%float = true
  ∧ (getClassAdvantage "dusk" "beast" =? 0.85)%float = false
  ∧ includes (beats "beast") "dusk" && includes (beats "dusk") "beast" = true
  ∧ filter (λ p, Is_true (inconsistent_pair p)) class_pairs
    = [ ("beast", "dusk"); ("bug", "mech"); ("plant", "dawn");
        ("mech", "bug"); ("dawn", "plant"); ("dusk", "beast") ]
  ∧ forallb (λ '(X, Y),
       implb (getClassAdvantage X Y =? 0.85)%float
             (getClassAdvantage Y X =? 1.15)%float) class_pairs = true
  ∧ forallb (λ X, (getClassAdvantage X X =? 1.0)%float) AXIE_CLASSES = true.
Proof. repeat split; vm_compute; reflexivity. Qed.

(* ===================================================================== *)
(** ** Purity and stats *)
(* ===================================================================== *)

(** C5: [calculatePurity] is [(matchingParts / 6) * 100] in double
    arithmetic, where [matchingParts] counts the parts whose dominant allele
    has the Axie's class; the count is at most 6 and the result lies in
    [0, 100]. *)
Theorem calculatePurity_spec (genes : DecodedGenes) :
  calculatePurity genes = ((number (matching_parts genes) / 6) * 100)%float
  ∧ (matching_parts genes ≤ 6)%nat
  ∧ (0 <=? calculatePurity genes)%float = true
  ∧ (calculatePurity genes <=? 100)%float = true.
Proof.
  unfold calculatePurity, matching_parts, parts.
  cbn [fold_left List.filter].
  unfold calculatePurity_step, part_matches. cbn [part_gene].
  repeat match goal with
         | |- context [String.eqb ?a ?b] => destruct (String.eqb a b)
         end;
    (split; [vm_compute; reflexivity|]);
    (split; [cbn [length]; lia|]);
    split; vm_compute; reflexivity.
Qed.

Lemma BASE_STATS_beast : BASE_STATS !!! "beast" = mkStats 31 35 31 43.
Proof. vm_compute. reflexivity. Qed.

Lemma includes_In (xs : list string) (x : string) :
  includes xs x = true ↔ In x xs.
Proof.
  unfold includes. rewrite existsb_exists. split.
  - intros (y & Hy & E). apply String.eqb_eq in E. subst. exact Hy.
  - intros H. exists x. split; [exact H | apply String.eqb_refl].
Qed.

(** No table has an entry at a name inherited from [Object.prototype]. *)
Lemma inherited_no_entry (c : string) :
  includes OBJECT_PROTOTYPE c = true →
  BASE_STATS !! c = None ∧ PART_STAT_BONUS !! c = None.
Proof.
  intros H. apply includes_In in H. cbn [In OBJECT_PROTOTYPE] in H.
  repeat (destruct H as [<-|H]; [split; vm_compute; reflexivity|]).
  destruct H.
Qed.

Lemma base_member (c : string) :
  default (Own (BASE_STATS !!! "beast")) (table_get BASE_STATS c)
  = if includes OBJECT_PROTOTYPE c then Inherited else Own (base_stats_of c).
Proof.
  unfold table_get, base_stats_of. rewrite BASE_STATS_beast.
  destruct (includes OBJECT_PROTOTYPE c) eqn:I.
  - destruct (inherited_no_entry c I) as [-> _]. reflexivity.
  - destruct (BASE_STATS !! c); reflexivity.
Qed.

Lemma bonus_member (p : PartGene) :
  default (Own (mkStats 0 0 0 0)) (table_get PART_STAT_BONUS (allele_class (d p)))
  = if includes OBJECT_PROTOTYPE (allele_class (d p))
    then Inherited else Own (part_bonus p).
Proof.
  unfold table_get, part_bonus.
  destruct (includes OBJECT_PROTOTYPE (allele_class (d p))) eqn:I.
  - destruct (inherited_no_entry _ I) as [_ ->]. reflexivity.
  - destruct (PART_STAT_BONUS !! allele_class (d p)); reflexivity.
Qed.

Lemma calculateStats_step_add (genes : DecodedGenes) (stats : ComputedStats)
    (part : BodyPart) :
  calculateStats_step genes stats part
  = computed_add stats
      (read_stats (allele_class (d (part_gene genes part)))
         (part_bonus (part_gene genes part))).
Proof.
  unfold calculateStats_step. cbv zeta. rewrite bonus_member.
  unfold read_stats.
  destruct (includes OBJECT_PROTOTYPE _); reflexivity.
Qed.

Lemma calculateStats_chain (genes : DecodedGenes) :
  calculateStats genes
  = computed_add (computed_add (computed_add (computed_add (computed_add (computed_add
      (read_stats (genes_class genes) (base_stats_of (genes_class genes)))
      (read_stats (allele_class (d (eyes genes))) (part_bonus (eyes genes))))
      (read_stats (allele_class (d (ears genes))) (part_bonus (ears genes))))
      (read_stats (allele_class (d (mouth genes))) (part_bonus (mouth genes))))
      (read_stats (allele_class (d (horn genes))) (part_bonus (horn genes))))
      (read_stats (allele_class (d (back genes))) (part_bonus (back genes))))
      (read_stats (allele_class (d (tail genes))) (part_bonus (tail genes))).
Proof.
  unfold calculateStats, parts. cbv zeta. cbn [fold_left].
  rewrite !calculateStats_step_add. cbn [part_gene].
  rewrite base_member. do 6 f_equal.
  unfold read_stats. destruct (includes OBJECT_PROTOTYPE _); reflexivity.
Qed.

(** Every stat is [NaN] as soon as one class is an inherited name; without
    such a class the stats are the base stats plus the six bonuses. *)
Lemma calculateStats_cases (genes : DecodedGenes) :
  calculateStats genes
  = if inherited_class genes then nan_stats else exact_stats (expected_stats genes).
Proof.
  rewrite calculateStats_chain.
  unfold inherited_class, expected_stats, read_stats. cbn [existsb].
  generalize (base_stats_of (genes_class genes)), (part_bonus (eyes genes)),
    (part_bonus (ears genes)), (part_bonus (mouth genes)), (part_bonus (horn genes)),
    (part_bonus (back genes)), (part_bonus (tail genes)).
  intros b e a m h k t.
  destruct (includes OBJECT_PROTOTYPE (genes_class genes)),
    (includes OBJECT_PROTOTYPE (allele_class (d (eyes genes)))),
    (includes OBJECT_PROTOTYPE (allele_class (d (ears genes)))),
    (includes OBJECT_PROTOTYPE (allele_class (d (mouth genes)))),
    (includes OBJECT_PROTOTYPE (allele_class (d (horn genes)))),
    (includes OBJECT_PROTOTYPE (allele_class (d (back genes)))),
    (includes OBJECT_PROTOTYPE (allele_class (d (tail genes))));
    reflexivity.
Qed.

Lemma calculateStats_sum (genes : DecodedGenes) :
  inherited_class genes = false →
  calculateStats genes = exact_stats (expected_stats genes).
Proof. intros H. rewrite calculateStats_cases, H. reflexivity. Qed.

Lemma CLASS_HEX_values (code className : string) :
  CLASS_HEX !! code = Some className →
  In className AXIE_CLASSES ∧ String.eqb className "" = false.
Proof.
  unfold CLASS_HEX. intros H. apply elem_of_list_to_map_2 in H.
  apply list_elem_of_In in H. cbn [In] in H.
  repeat (destruct H as [H|H]; [injection H as _ <-; split; [cbn; tauto | reflexivity]|]).
  destruct H.
Qed.

Lemma getClassFromGene_class (binaryGene : string) :
  In (getClassFromGene binaryGene) AXIE_CLASSES.
Proof.
  unfold getClassFromGene. cbv zeta.
  destruct (CLASS_HEX !! slice binaryGene 0 4) as [c|] eqn:E; [|cbn; tauto].
  destruct (CLASS_HEX_values _ _ E) as [Hin ->].
  destruct (includes AXIE_CLASSES c); [exact Hin | cbn; tauto].
Qed.

Lemma decodePart_wf (bits : string) : allele_wf (decodePart bits).
Proof.
  unfold decodePart, allele_wf. cbv zeta. cbn [allele_class allele_name allele_id].
  split; [|reflexivity].
  destruct (CLASS_HEX !! slice bits 0 4) as [c|] eqn:E; [|right; reflexivity].
  destruct (CLASS_HEX_values _ _ E) as [Hin ->]. left. exact Hin.
Qed.

Lemma decodePartGene_wf (partBinary : string) : part_wf (decodePartGene partBinary).
Proof. unfold decodePartGene, part_wf. cbn [d r1 r2]. auto using decodePart_wf. Qed.

Lemma class_not_inherited (c : string) :
  In c AXIE_CLASSES ∨ c = "unknown" → includes OBJECT_PROTOTYPE c = false.
Proof.
  intros [H| ->]; [|reflexivity]. cbn [In AXIE_CLASSES] in H.
  repeat (destruct H as [<-|H]; [reflexivity|]). destruct H.
Qed.

(** No class that [decodeGenes] yields is an inherited name. *)
Lemma decodeGenes_no_inherited (geneHex : string) (decoded : DecodedGenes) :
  decodeGenes geneHex = Normal decoded → inherited_class decoded = false.
Proof.
  unfold decodeGenes. cbv zeta. intros [= <-].
  unfold inherited_class.
  cbn [genes_class eyes ears mouth horn back tail existsb].
  rewrite (class_not_inherited _ (or_introl (getClassFromGene_class _))).
  unfold decodePartGene. cbn [d].
  rewrite !(class_not_inherited _ (proj1 (decodePart_wf _))). reflexivity.
Qed.

(** C6 on the code: the two tables are object literals read with
    [table[key] || fallback], so a class name that every object inherits
    from [Object.prototype], such as [constructor], finds a truthy member
    that is no entry of the table: the fallback is not taken, the fields
    read are [undefined], and every stat comes out as [NaN], where the
    claim expects a bonus of zero. With no such name among the class of
    the Axie and the classes of the six dominant alleles the claim holds:
    base stats of [genes.class] (those of [beast] when the class has no
    entry) plus, stat by stat, the bonuses of the six parts, each looked up
    by the class of the part's dominant allele, a class without entry
    adding nothing. No class that [decodeGenes] yields is such a name. *)
Theorem calculateStats_inherited_names (genes : DecodedGenes) (geneHex : string) :
  part_bonus (eyes (beast_with_eyes "constructor")) = mkStats 0 0 0 0
  ∧ calculateStats (beast_with_eyes "constructor") = nan_stats
  ∧ calculateStats (beast_with_eyes "unknown") = exact_stats (mkStats 31 40 31 58)
  ∧ (let b := base_stats_of (genes_class genes) in
     let e := part_bonus (eyes genes) in
     let a := part_bonus (ears genes) in
     let m := part_bonus (mouth genes) in
     let h := part_bonus (horn genes) in
     let k := part_bonus (back genes) in
     let t := part_bonus (tail genes) in
     calculateStats genes =
     if inherited_class genes then nan_stats
     else
       exact_stats
         {| hp := hp b + hp e + hp a + hp m + hp h + hp k + hp t;
            speed := speed b + speed e + speed a + speed m + speed h + speed k + speed t;
            skill := skill b + skill e + skill a + skill m + skill h + skill k + skill t;
            morale :=
              morale b + morale e + morale a + morale m + morale h + morale k + morale t |})
  ∧ match decodeGenes geneHex with
    | Normal decoded => inherited_class decoded = false
    | Throw _ => True
    end.
Proof.
  split; [vm_compute; reflexivity|]. split; [vm_compute; reflexivity|].
  split; [vm_compute; reflexivity|]. split.
  - cbv zeta. rewrite calculateStats_cases. reflexivity.
  - destruct (decodeGenes geneHex) as [decoded|] eqn:E; [|exact I].
    exact (decodeGenes_no_inherited geneHex decoded E).
Qed.

(** Dominant alleles are what counts: a [beast] whose six dominant alleles
    are [plant] gets six [plant] bonuses. *)
Example calculateStats_dominant_class :
  let plant := mkPartGene (mkAllele "1" "part-1" "plant")
                 (mkAllele "2" "part-2" "beast") (mkAllele "3" "part-3" "beast") in
  calculateStats
    (mkDecodedGenes "beast" "0" "0" "0" (mkCosmetic "0" "0" "0") (mkCosmetic "0" "0" "0")
       plant plant plant plant plant plant)
  = exact_stats (mkStats 49 35 31 49).
Proof. vm_compute. reflexivity. Qed.

(** An unmapped class of the Axie or of a dominant allele. *)
Example calculateStats_unmapped :
  let unk := mkPartGene (mkAllele "NaN" "part-NaN" "unknown")
               (mkAllele "2" "part-2" "beast") (mkAllele "3" "part-3" "beast") in
  calculateStats
    (mkDecodedGenes "ghost" "0" "0" "0" (mkCosmetic "0" "0" "0") (mkCosmetic "0" "0" "0")
       unk unk unk unk unk unk)
  = exact_stats (mkStats 31 35 31 43).
Proof. vm_compute. reflexivity. Qed.

(* ===================================================================== *)
(** ** Breeding cost and eligibility *)
(* ===================================================================== *)

Lemma canBreed_max axie :
  7 <= breedCount axie →
  canBreed axie =
  {| info_canBreed := false; axsCost := 0%float; slpCost := 0;
     totalCostUsd := None; cooldownEnd := None;
     reason := Some "Maximum breed count reached (7)" |}.
Proof.
  intros H. unfold canBreed, BREEDING_COSTS.MAX_BREED_COUNT.
  destruct (Z.leb_spec 7 (breedCount axie)); [reflexivity | lia].
Qed.

Lemma canBreed_eligible axie :
  breedCount axie < 7 → 4 <= stage axie →
  canBreed axie =
  {| info_canBreed := true; axsCost := 0.5%float;
     slpCost := slp_by_breed_count (breedCount axie);
     totalCostUsd := None; cooldownEnd := None; reason := None |}.
Proof.
  intros Hc Hs. unfold canBreed, BREEDING_COSTS.MAX_BREED_COUNT.
  destruct (Z.leb_spec 7 (breedCount axie)); [lia|].
  destruct (Z.ltb_spec (stage axie) 4); [lia | reflexivity].
Qed.

(** A pairing with an Axie at the cap is refused, whichever side it is on. *)
Lemma canBreedTogether_max axie other :
  7 <= breedCount axie →
  pair_canBreed (canBreedTogether axie other) = false
  ∧ pair_canBreed (canBreedTogether other axie) = false.
Proof.
  intros H. pose proof (canBreed_max axie H) as E.
  unfold canBreedTogether. rewrite E. cbn [info_canBreed negb].
  split;
    repeat match goal with
           | |- context [if ?b then _ else _] =>
               lazymatch b with
               | context [if _ then _ else _] => fail
               | _ => destruct b
               end
           end; reflexivity.
Qed.

(** C7: the SLP cost of an Axie is the entry of the seven-element table at
    its breed count (900 at 0, 15300 at 6), and this is the cost that
    [canBreed] quotes, with 0.5 AXS, for every Axie that can breed, that is
    with a breed count below 7 and a stage of 4 or more; the cost of a
    pairing is 0.5 AXS whatever the breed counts, and the sum of the two SLP
    costs; an Axie whose breed count is 7 or more cannot breed, for the
    reason "Maximum breed count reached (7)", and no pairing with it is
    allowed. *)
Theorem breeding_cost_and_cap (axie1 axie2 axie : Axie) :
  7 <= breedCount axie →
  length BREEDING_COSTS.SLP_BY_BREED_COUNT = 7%nat
  ∧ BREEDING_COSTS.SLP_BY_BREED_COUNT = [900; 1350; 2250; 3600; 5850; 9450; 15300]
  ∧ slp_by_breed_count <$> [0; 1; 2; 3; 4; 5; 6] = BREEDING_COSTS.SLP_BY_BREED_COUNT
  ∧ slp_by_breed_count 0 = 900
  ∧ slp_by_breed_count 6 = 15300
  ∧ info_canBreed (canBreed axie1) = (breedCount axie1 <? 7) && (4 <=? stage axie1)
  ∧ slpCost (canBreed axie1)
    = (if info_canBreed (canBreed axie1)
       then slp_by_breed_count (breedCount axie1) else 0)
  ∧ axsCost (canBreed axie1)
    = (if info_canBreed (canBreed axie1) then 0.5 else 0)%float
  ∧ cost_axs (calculateBreedingCost axie1 axie2) = 0.5%float
  ∧ cost_slp (calculateBreedingCost axie1 axie2)
    = slp_by_breed_count (breedCount axie1) + slp_by_breed_count (breedCount axie2)
  ∧ slp_by_breed_count 0 + slp_by_breed_count 0 = 1800
  ∧ info_canBreed (canBreed axie) = false
  ∧ reason (canBreed axie) = Some "Maximum breed count reached (7)"
  ∧ pair_canBreed (canBreedTogether axie axie1) = false
  ∧ pair_canBreed (canBreedTogether axie1 axie) = false.
Proof.
  intros H. rewrite (canBreed_max axie H).
  destruct (canBreedTogether_max axie axie1 H) as [P1 P2].
  assert (info_canBreed (canBreed axie1) = (breedCount axie1 <? 7) && (4 <=? stage axie1)
          ∧ slpCost (canBreed axie1)
            = (if info_canBreed (canBreed axie1)
               then slp_by_breed_count (breedCount axie1) else 0)
          ∧ axsCost (canBreed axie1)
            = (if info_canBreed (canBreed axie1) then 0.5 else 0)%float) as (Q1 & Q2 & Q3).
  { unfold canBreed, BREEDING_COSTS.MAX_BREED_COUNT.
    destruct (Z.leb_spec 7 (breedCount axie1)), (Z.ltb_spec (breedCount axie1) 7);
      try lia; [repeat split|].
    destruct (Z.ltb_spec (stage axie1) 4), (Z.leb_spec 4 (stage axie1));
      try lia; repeat split. }
  repeat split; try reflexivity; assumption.
Qed.

Lemma breeding_cost_and_cap_witness :
  let a1 := test_axie "1" "0" "0" 0 4 in
  let a2 := test_axie "2" "0" "0" 0 4 in
  let a := test_axie "3" "0" "0" 7 4 in
  7 <= breedCount a
  ∧ info_canBreed (canBreed a1) = true
  ∧ slpCost (canBreed a1) = 900
  ∧ axsCost (canBreed a1) = 0.5%float
  ∧ cost_axs (calculateBreedingCost a1 a2) = 0.5%float
  ∧ cost_slp (calculateBreedingCost a1 a2) = 1800
  ∧ info_canBreed (canBreed a) = false
  ∧ reason (canBreed a) = Some "Maximum breed count reached (7)"
  ∧ pair_canBreed (canBreedTogether a1 a) = false.
Proof.
  cbv zeta. split; [cbn; lia|].
  pose proof (breeding_cost_and_cap (test_axie "1" "0" "0" 0 4)
                (test_axie "2" "0" "0" 0 4) (test_axie "3" "0" "0" 7 4)) as H.
  destruct H as (_ & _ & _ & _ & _ & Q1 & Q2 & Q3 & Ha & Hs & _ & Hc & Hr & _ & Hp);
    [cbn; lia|].
  rewrite Q1 in Q2, Q3.
  split; [exact Q1|]. split; [exact Q2|]. split; [exact Q3|].
  split; [exact Ha|]. split; [exact Hs|]. split; [exact Hc|].
  split; [exact Hr | exact Hp].
Defined.

(** The pairing of the specification: breed counts 0 and 0, stage 4, no
    relation. *)
Example breeding_fresh_pair :
  let a1 := test_axie "1" "0" "0" 0 4 in
  let a2 := test_axie "2" "0" "0" 0 4 in
  canBreedTogether a1 a2 = {| pair_canBreed := true; pair_reason := None |}
  ∧ calculateBreedingCost a1 a2 = {| cost_axs := 0.5%float; cost_slp := 1800 |}.
Proof. split; vm_compute; reflexivity. Qed.

(** C3 fails on the code: an Axie paired with itself, with breed count 7
    and stage 1, meets three blocking conditions, and the result names the
    first of them only. *)
Lemma canBreedTogether_reports_one :
  let a := test_axie "1" "0" "0" 7 1 in
  blocks SelfBreeding a a = true
  ∧ blocks MaxBreedCount a a = true
  ∧ blocks NotAdult a a = true
  ∧ canBreedTogether a a
    = {| pair_canBreed := false; pair_reason := Some "Cannot breed Axie with itself" |}
  ∧ reports (canBreedTogether a a) SelfBreeding = true
  ∧ reports (canBreedTogether a a) MaxBreedCount = false
  ∧ reports (canBreedTogether a a) NotAdult = false.
Proof. cbv zeta. repeat split; vm_compute; reflexivity. Qed.

(** C3, amended: [canBreedTogether] stops at the first failing check, in the
    order self-breeding, first Axie parent of the second, second parent of
    the first, siblings, breed count then stage of the first Axie, breed
    count then stage of the second; its result carries the reason of that
    check alone, and the pair can breed exactly when no check fails. *)
Theorem canBreedTogether_first_failure (axie1 axie2 : Axie) :
  canBreedTogether axie1 axie2 =
  match first_failure axie1 axie2 with
  | Some text => {| pair_canBreed := false; pair_reason := Some text |}
  | None => {| pair_canBreed := true; pair_reason := None |}
  end.
Proof.
  unfold canBreedTogether, first_failure, ordered_checks, canBreed, axie_reason,
    BREEDING_COSTS.MAX_BREED_COUNT.
  cbn [List.find fst snd fmap option_fmap option_map].
  repeat match goal with
         | |- context [if ?b then _ else _] =>
             lazymatch b with
             | context [if _ then _ else _] => fail
             | _ => destruct b eqn:?
             end
         end; cbn in *; try reflexivity; try discriminate.
Qed.

(* ===================================================================== *)
(** ** Inheritance probabilities *)
(* ===================================================================== *)

(** *** Thirty-seconds as doubles

    The three weights are 12/32, 3/32 and 1/32. Multiples of 1/32 up to 2
    are doubles, and their sums are computed without rounding as long as
    they stay in that range; the table of these sums is checked by
    evaluation. *)

Lemma weights_dy :
  weights.d = dy 12 ∧ weights.r1 = dy 3 ∧ weights.r2 = dy 1.
Proof. repeat split; reflexivity. Qed.

Lemma dy_add_table :
  Forall (λ a, Forall (λ b, (dy a + dy b)%float = dy (a + b)) (seq 0 33)) (seq 0 33).
Proof. cbn [seq]. repeat (constructor; [repeat (constructor; [reflexivity|]); constructor|]); constructor. Qed.

Lemma dy_add_exact a b :
  (a ≤ 32)%nat → (b ≤ 32)%nat → (dy a + dy b)%float = dy (a + b).
Proof.
  intros Ha Hb.
  pose proof dy_add_table as T.
  rewrite Forall_forall in T. specialize (T a).
  rewrite Forall_forall in T. apply T; apply elem_of_seq; lia.
Qed.

Lemma or_zero_dy_table :
  Forall (λ n, or_zero (Some (dy n)) = dy n) (seq 0 33).
Proof. cbn [seq]. repeat (constructor; [reflexivity|]). constructor. Qed.

Lemma or_zero_dy (o : option nat) :
  (∀ n, o = Some n → (n ≤ 32)%nat) →
  or_zero (dy <$> o) = dy (default 0%nat o).
Proof.
  intros Ho. destruct o as [n|]; [|reflexivity].
  pose proof or_zero_dy_table as T. rewrite Forall_forall in T.
  change (or_zero (Some (dy n)) = dy n).
  apply T, elem_of_seq. specialize (Ho n eq_refl). lia.
Qed.

(** *** The accumulation over thirty-seconds *)

Lemma probability_step_add_weight m gene w :
  probability_step m (gene, w) = add_weight m (gene_key gene, w).
Proof. reflexivity. Qed.

Section accumulation.
Implicit Types (m : gmap string nat) (l : list (string * nat)).

Lemma room_step m k n l :
  room m ((k, n) :: l) → room (add_units m (k, n)) l.
Proof.
  unfold room, total, add_units. cbn. intros [Ht Hm]. split; [lia|].
  intros k' v. destruct (decide (k = k')) as [->|Hne].
  - rewrite lookup_insert_eq. intros [= <-].
    destruct (m !! k') as [v|] eqn:E; cbn; [specialize (Hm _ _ E)|]; lia.
  - rewrite lookup_insert_ne by done. intros E. specialize (Hm _ _ E). lia.
Qed.

Lemma add_weight_dy m k n l :
  room m ((k, n) :: l) →
  add_weight (dy <$> m) (k, dy n) = dy <$> add_units m (k, n).
Proof.
  unfold room, total, add_weight, add_units. cbn. intros [Ht Hm].
  rewrite fmap_insert, lookup_fmap. f_equal.
  rewrite or_zero_dy.
  - apply dy_add_exact; [|lia].
    destruct (m !! k) as [v|] eqn:E; cbn; [specialize (Hm _ _ E)|]; lia.
  - intros v E. specialize (Hm _ _ E). lia.
Qed.

Lemma fold_add_weight_dy l : ∀ m,
  room m l →
  fold_left add_weight (prod_map id dy <$> l) (dy <$> m)
  = dy <$> fold_left add_units l m.
Proof.
  induction l as [|[k n] l IH]; intros m Hr; [reflexivity|].
  cbn [fmap list_fmap fold_left prod_map fst snd id].
  change (id k) with k.
  rewrite (add_weight_dy _ _ _ l Hr). apply IH, room_step, Hr.
Qed.

Lemma fold_add_units_lookup l : ∀ m k,
  fold_left add_units l m !! k =
  match units_of k l with
  | [] => m !! k
  | us => Some (default 0 (m !! k) + sum_list us)%nat
  end.
Proof.
  unfold units_of.
  induction l as [|[k' n] l IH]; intros m k; [reflexivity|].
  cbn [fold_left List.filter fst]. rewrite IH. unfold add_units. cbn [fst snd].
  destruct (String.eqb_spec k' k) as [->|Hne].
  - rewrite lookup_insert_eq. cbn.
    destruct ((List.filter _ l).*2) as [|u us]; cbn; f_equal; lia.
  - rewrite lookup_insert_ne by done. reflexivity.
Qed.

Lemma fold_add_units_dom l : ∀ m,
  dom (fold_left add_units l m) = list_to_set (l.*1) ∪ dom m.
Proof.
  induction l as [|[k n] l IH]; intros m; cbn [fold_left fmap list_fmap list_to_set].
  - symmetry. apply (left_id_L ∅ (∪)).
  - rewrite IH. unfold add_units. rewrite dom_insert_L. cbn [fst].
    rewrite !(assoc_L (∪)). f_equal. apply (comm_L (∪)).
Qed.

Lemma map_total_insert_fresh m k n :
  m !! k = None → map_total (<[k := n]> m) = (n + map_total m)%nat.
Proof.
  intros E. unfold map_total. rewrite map_to_list_insert by done. reflexivity.
Qed.

Lemma map_total_add_units m k n :
  map_total (add_units m (k, n)) = (map_total m + n)%nat.
Proof.
  unfold add_units. cbn [fst snd].
  destruct (m !! k) as [v|] eqn:E; cbn [default].
  - rewrite <- (insert_delete_id m k v E) at 2.
    rewrite <- insert_delete_eq.
    rewrite !map_total_insert_fresh by apply lookup_delete_eq.
    unfold id. lia.
  - rewrite map_total_insert_fresh by done. lia.
Qed.

Lemma fold_add_units_total l : ∀ m,
  map_total (fold_left add_units l m) = (map_total m + total l)%nat.
Proof.
  unfold total.
  induction l as [|[k n] l IH]; intros m; cbn [fold_left]; [cbn; lia|].
  rewrite IH, map_total_add_units. cbn. unfold id. lia.
Qed.

End accumulation.

(** *** The probability map *)

Lemma unit_entries_room p1 p2 : room ∅ (unit_entries p1 p2).
Proof.
  split; [cbn; lia|]. intros k v E. rewrite lookup_empty in E. discriminate.
Qed.

Lemma calculateBreedingProbability_units p1 p2 :
  calculateBreedingProbability p1 p2
  = dy <$> fold_left add_units (unit_entries p1 p2) ∅.
Proof.
  rewrite <- (fold_add_weight_dy _ _ (unit_entries_room p1 p2)).
  rewrite fmap_empty. reflexivity.
Qed.

Lemma sum_numbers_dy us : ∀ a,
  (a + sum_list us ≤ 32)%nat →
  fold_left PrimFloat.add (dy <$> us) (dy a) = dy (a + sum_list us).
Proof.
  induction us as [|u us IH]; intros a Ha;
    cbn [fmap list_fmap fold_left sum_list_with] in *; unfold id in *.
  - f_equal. lia.
  - rewrite dy_add_exact by lia. rewrite IH by lia. f_equal. lia.
Qed.

Lemma list_to_set_remove_dups_size (l : list string) :
  size (list_to_set (C:=gset string) l) = length (remove_dups l).
Proof.
  rewrite <- (size_list_to_set (C:=gset string) (remove_dups l))
    by apply NoDup_remove_dups.
  f_equal. apply set_eq. intros x.
  rewrite !elem_of_list_to_set, elem_of_remove_dups. reflexivity.
Qed.

Lemma remove_dups_length_le (l : list string) : (length (remove_dups l) ≤ length l)%nat.
Proof.
  induction l as [|x l IH]; cbn; [lia|].
  destruct (decide_rel elem_of x l); cbn; lia.
Qed.

(** Two alleles whose class names have no [-], as all class names of the
    tables and "unknown", have the same key only when they have the same
    class and the same id. *)
Lemma gene_key_inj (g1 g2 : Allele) :
  no_dash (allele_class g1) = true → no_dash (allele_class g2) = true →
  gene_key g1 = gene_key g2 →
  allele_class g1 = allele_class g2 ∧ allele_id g1 = allele_id g2.
Proof.
  unfold gene_key.
  generalize (allele_id g1) as i1, (allele_id g2) as i2.
  generalize (allele_class g2) as c2.
  induction (allele_class g1) as [|x c1 IH]; intros [|y c2] i1 i2 H1 H2 E.
  - injection E as E. auto.
  - rewrite append_cons in E. injection E as <- _.
    cbn in H2. discriminate H2.
  - rewrite append_cons in E. injection E as -> _.
    cbn in H1. discriminate H1.
  - rewrite !append_cons in E. injection E as <- E.
    cbn [no_dash] in H1, H2.
    apply andb_prop in H1 as [_ H1]. apply andb_prop in H2 as [_ H2].
    destruct (IH c2 i1 i2 H1 H2 E) as [-> ->]. auto.
Qed.

(** The map by keys: it holds, for each key [class-id], the sum of the
    weights of the alleles with that key and nothing for any other key; it
    has as many entries as there are distinct keys among the six alleles. *)
Lemma calculateBreedingProbability_by_key (parent1Gene parent2Gene : PartGene) :
  let probabilities := calculateBreedingProbability parent1Gene parent2Gene in
  let entries := allGenes parent1Gene parent2Gene in
  entries.*1 = [ d parent1Gene; r1 parent1Gene; r2 parent1Gene;
                 d parent2Gene; r1 parent2Gene; r2 parent2Gene ]
  ∧ entries.*2 = [0.375; 0.09375; 0.03125; 0.375; 0.09375; 0.03125]%float
  ∧ (∀ key,
       probabilities !! key =
       match weights_of key entries with
       | [] => None
       | ws => Some (sum_numbers ws)
       end)
  ∧ size probabilities = length (remove_dups (gene_key <$> entries.*1))
  ∧ (size probabilities ≤ 6)%nat.
Proof.
  cbv zeta. split; [reflexivity|]. split; [reflexivity|].
  rewrite calculateBreedingProbability_units. split; [|split].
  - intros key. rewrite lookup_fmap, fold_add_units_lookup, lookup_empty.
    unfold units_of, weights_of, unit_entries, allGenes.
    cbn [List.filter fst snd].
    repeat match goal with
           | |- context [String.eqb ?a key] => destruct (String.eqb a key)
           end; reflexivity.
  - rewrite map_size_fmap, <- size_dom, fold_add_units_dom, dom_empty_L.
    rewrite (right_id_L ∅ (∪)), list_to_set_remove_dups_size. reflexivity.
  - rewrite map_size_fmap, <- size_dom, fold_add_units_dom, dom_empty_L.
    rewrite (right_id_L ∅ (∪)), list_to_set_remove_dups_size.
    etransitivity; [apply remove_dups_length_le|]. cbn. lia.
Qed.

Lemma same_pair_refl (a : Allele) : same_pair a a = true.
Proof. unfold same_pair. rewrite !String.eqb_refl. reflexivity. Qed.

Lemma gene_key_eqb (a b : Allele) :
  no_dash (allele_class a) = true → no_dash (allele_class b) = true →
  String.eqb (gene_key a) (gene_key b) = same_pair a b.
Proof.
  intros Ha Hb. unfold same_pair.
  destruct (String.eqb_spec (gene_key a) (gene_key b)) as [E|N].
  - destruct (gene_key_inj a b Ha Hb E) as [-> ->].
    rewrite !String.eqb_refl. reflexivity.
  - destruct (String.eqb_spec (allele_class a) (allele_class b)) as [Ec|]; [|reflexivity].
    destruct (String.eqb_spec (allele_id a) (allele_id b)) as [Ei|]; [|reflexivity].
    exfalso. apply N. unfold gene_key. rewrite Ec, Ei. reflexivity.
Qed.

Lemma pair_key_class_id (g : Allele) : pair_key (class_id g) = gene_key g.
Proof. reflexivity. Qed.

Lemma remove_dups_fmap_length {A B C : Type} `{EqDecision B} `{EqDecision C}
    (f : A → B) (g : A → C) (l : list A) :
  (∀ x y, x ∈ l → y ∈ l → f x = f y ↔ g x = g y) →
  length (remove_dups (f <$> l)) = length (remove_dups (g <$> l)).
Proof.
  induction l as [|x l IH]; intros H; [reflexivity|].
  cbn [fmap list_fmap remove_dups].
  assert (f x ∈ f <$> l ↔ g x ∈ g <$> l) as Hx.
  { rewrite !list_elem_of_fmap. split; intros (y & E & Hy); exists y; (split; [|exact Hy]).
    - apply (H x y); [left | right; exact Hy | exact E].
    - apply (H x y); [left | right; exact Hy | exact E]. }
  assert (length (remove_dups (f <$> l)) = length (remove_dups (g <$> l))) as IH'.
  { apply IH. intros a b Ha Hb. apply H; right; assumption. }
  destruct (decide_rel elem_of (f x) (f <$> l)) as [I|I],
    (decide_rel elem_of (g x) (g <$> l)) as [J|J]; cbn [length];
    first [exact IH' | f_equal; exact IH' | exfalso; tauto].
Qed.

(** C8 fails on the code: the key is the text [class-id], so the pairs
    (a-b, c) and (a, b-c), which differ, are filed under the one key
    [a-b-c]: their weights are added up, and the map has five entries for
    six distinct pairs. *)
Lemma calculateBreedingProbability_merges_pairs :
  let p1 := test_part "a-b" "c" "bug" "1" "bug" "2" in
  let p2 := test_part "a" "b-c" "bug" "3" "bug" "4" in
  class_id (d p1) ≠ class_id (d p2)
  ∧ calculateBreedingProbability p1 p2 !! "a-b-c" = Some 0.75%float
  ∧ weights_of_pair (d p1) (allGenes p1 p2) = [0.375%float]
  ∧ length (remove_dups (class_id <$> (allGenes p1 p2).*1)) = 6%nat
  ∧ size (calculateBreedingProbability p1 p2) = 5%nat.
Proof.
  cbv zeta. split; [discriminate|].
  split; [vm_compute; reflexivity|]. split; [reflexivity|].
  split; vm_compute; reflexivity.
Qed.

(** C8, amended: the weights are 0.375, 0.09375 and 0.03125 for the
    dominant, first recessive and second recessive allele of each parent;
    when no class name holds a [-], as no name of the tables does, the map
    holds for the pair (class, part id) of each allele, under the key
    [class-id], the sum of the weights of the alleles with that class and
    that part id, it has no other key, and it has as many entries as there
    are distinct pairs among the six alleles, hence at most six. *)
Theorem calculateBreedingProbability_per_pair (parent1Gene parent2Gene : PartGene) :
  plain_classes parent1Gene = true →
  plain_classes parent2Gene = true →
  let probabilities := calculateBreedingProbability parent1Gene parent2Gene in
  let entries := allGenes parent1Gene parent2Gene in
  entries.*1 = [ d parent1Gene; r1 parent1Gene; r2 parent1Gene;
                 d parent2Gene; r1 parent2Gene; r2 parent2Gene ]
  ∧ entries.*2 = [0.375; 0.09375; 0.03125; 0.375; 0.09375; 0.03125]%float
  ∧ Forall
      (λ gene,
         probabilities !! pair_key (class_id gene)
         = Some (sum_numbers (weights_of_pair gene entries)))
      entries.*1
  ∧ dom probabilities = list_to_set (pair_key <$> (class_id <$> entries.*1))
  ∧ size probabilities = length (remove_dups (class_id <$> entries.*1))
  ∧ (size probabilities ≤ 6)%nat.
Proof.
  intros P1 P2. cbv zeta.
  unfold plain_classes in P1, P2.
  apply andb_prop in P1 as [P1 C13]. apply andb_prop in P1 as [C11 C12].
  apply andb_prop in P2 as [P2 C23]. apply andb_prop in P2 as [C21 C22].
  pose proof (calculateBreedingProbability_by_key parent1Gene parent2Gene) as Hb.
  cbv zeta in Hb. destruct Hb as (E1 & E2 & Hk & Hs & Hle).
  split; [exact E1|]. split; [exact E2|].
  split; [|split; [|split; [|exact Hle]]].
  - rewrite E1.
    repeat (apply Forall_cons; split); try solve [constructor];
      cbv beta; rewrite pair_key_class_id, Hk; unfold weights_of, weights_of_pair, allGenes;
      cbn [List.filter fst snd];
      rewrite !gene_key_eqb by assumption;
      rewrite ?same_pair_refl;
      repeat match goal with
             | |- context [same_pair ?a ?b] => destruct (same_pair a b)
             end; reflexivity.
  - rewrite calculateBreedingProbability_units, dom_fmap_L, fold_add_units_dom, dom_empty_L.
    rewrite (right_id_L ∅ (∪)). reflexivity.
  - rewrite Hs, E1. apply remove_dups_fmap_length.
    intros x y Hx Hy.
    assert (no_dash (allele_class x) = true) as Nx.
    { rewrite !elem_of_cons in Hx.
      destruct Hx as [->|[->|[->|[->|[->|[->|Hx]]]]]]; try assumption.
      apply elem_of_nil in Hx. destruct Hx. }
    assert (no_dash (allele_class y) = true) as Ny.
    { rewrite !elem_of_cons in Hy.
      destruct Hy as [->|[->|[->|[->|[->|[->|Hy]]]]]]; try assumption.
      apply elem_of_nil in Hy. destruct Hy. }
    split.
    + intros E. destruct (gene_key_inj x y Nx Ny E) as [Ec Ei].
      unfold class_id. rewrite Ec, Ei. reflexivity.
    + intros [= Ec Ei]. unfold gene_key. rewrite Ec, Ei. reflexivity.
Qed.

Lemma calculateBreedingProbability_per_pair_witness :
  let p1 := test_part "bug" "1" "bug" "1" "bug" "2" in
  let p2 := test_part "bug" "1" "plant" "1" "bug" "2" in
  calculateBreedingProbability p1 p2 !! "bug-1" = Some 0.84375%float
  ∧ calculateBreedingProbability p1 p2 !! "plant-1" = Some 0.09375%float
  ∧ size (calculateBreedingProbability p1 p2) = 3%nat.
Proof.
  cbv zeta.
  destruct (calculateBreedingProbability_per_pair
              (test_part "bug" "1" "bug" "1" "bug" "2")
              (test_part "bug" "1" "plant" "1" "bug" "2") eq_refl eq_refl)
    as (_ & _ & Hf & _ & Hs & _).
  cbv zeta in Hf.
  split; [|split].
  - apply Forall_cons in Hf as [H _]. exact H.
  - apply Forall_cons in Hf as [_ Hf]. apply Forall_cons in Hf as [_ Hf].
    apply Forall_cons in Hf as [_ Hf]. apply Forall_cons in Hf as [_ Hf].
    apply Forall_cons in Hf as [H _]. exact H.
  - rewrite Hs. reflexivity.
Defined.

(** C10: the values of the probability map, summed in any order in double
    arithmetic, give exactly 1. *)
Theorem calculateBreedingProbability_total (parent1Gene parent2Gene : PartGene)
    (values : list float) :
  values ≡ₚ (map_to_list (calculateBreedingProbability parent1Gene parent2Gene)).*2 →
  sum_numbers values = 1%float.
Proof.
  rewrite calculateBreedingProbability_units, map_to_list_fmap.
  set (um := fold_left add_units _ ∅).
  rewrite <- list_fmap_compose.
  change (snd ∘ prod_map id dy) with (dy ∘ (snd : string * nat → nat)).
  rewrite list_fmap_compose. intros Hp.
  change (dy <$> (map_to_list um).*2) with (List.map dy ((map_to_list um).*2)) in Hp.
  apply Permutation_map_inv in Hp as (ns & -> & Hns).
  assert (sum_list ns = 32%nat) as Hsum.
  { rewrite <- Hns. change (sum_list (map_to_list um).*2) with (map_total um).
    unfold um. rewrite fold_add_units_total. reflexivity. }
  unfold sum_numbers. change (List.map dy ns) with (dy <$> ns).
  change 0%float with (dy 0).
  rewrite sum_numbers_dy by lia. rewrite Hsum. reflexivity.
Qed.

Lemma calculateBreedingProbability_total_witness :
  let p1 := test_part "bug" "1" "bug" "1" "bug" "2" in
  let p2 := test_part "bug" "1" "bug" "3" "bug" "2" in
  let values := [0.0625; 0.09375; 0.84375]%float in
  values ≡ₚ (map_to_list (calculateBreedingProbability p1 p2)).*2
  ∧ sum_numbers values = 1%float.
Proof.
  cbv zeta.
  assert ([0.0625; 0.09375; 0.84375]%float
          ≡ₚ (map_to_list
                (calculateBreedingProbability
                   (test_part "bug" "1" "bug" "1" "bug" "2")
                   (test_part "bug" "1" "bug" "3" "bug" "2"))).*2) as Hp.
  { vm_compute. apply Permutation_sym. apply perm_trans with [0.09375; 0.0625; 0.84375]%float.
    - apply perm_skip, perm_swap.
    - apply perm_swap. }
  split; [exact Hp|].
  exact (calculateBreedingProbability_total _ _ _ Hp).
Defined.

(* ===================================================================== *)
(** ** The bit layout read by [decodeGenes] *)
(* ===================================================================== *)

(** *** Strings of binary digits *)

Lemma append_assoc (s1 s2 s3 : string) :
  String.append (String.append s1 s2) s3 = String.append s1 (String.append s2 s3).
Proof.
  induction s1 as [|c s1 IH]; [reflexivity|].
  rewrite !append_cons, IH. reflexivity.
Qed.

Lemma append_empty_r (s : string) : String.append s "" = s.
Proof.
  induction s as [|c s IH]; [reflexivity|].
  rewrite append_cons, IH. reflexivity.
Qed.

Lemma length_append (s1 s2 : string) :
  String.length (String.append s1 s2) = (String.length s1 + String.length s2)%nat.
Proof.
  induction s1 as [|c s1 IH]; [reflexivity|].
  rewrite append_cons. cbn [String.length]. rewrite IH. reflexivity.
Qed.

Lemma is_binary_append (s1 s2 : string) :
  is_binary (String.append s1 s2) = is_binary s1 && is_binary s2.
Proof.
  induction s1 as [|c s1 IH]; [reflexivity|].
  rewrite append_cons. cbn [is_binary].
  rewrite IH. destruct (is_bit c); reflexivity.
Qed.

Lemma bits_acc_append (s1 s2 : string) : ∀ acc,
  bits_acc acc (String.append s1 s2) = bits_acc (bits_acc acc s1) s2.
Proof.
  induction s1 as [|c s1 IH]; intros acc; [reflexivity|].
  rewrite append_cons. cbn [bits_acc]. apply IH.
Qed.

Lemma bits_acc_shift (s : string) : ∀ acc,
  bits_acc acc s = acc * 2 ^ Z.of_nat (String.length s) + bits_acc 0 s.
Proof.
  induction s as [|c s IH]; intros acc.
  - cbn. lia.
  - cbn [bits_acc String.length]. rewrite (IH (2 * acc + bit_of c)), (IH (2 * 0 + bit_of c)).
    rewrite Nat2Z.inj_succ, Z.pow_succ_r by lia. lia.
Qed.

Lemma bits_acc_range (s : string) :
  0 <= bits_acc 0 s < 2 ^ Z.of_nat (String.length s).
Proof.
  induction s as [|c s IH].
  - cbn. lia.
  - cbn [bits_acc String.length]. rewrite bits_acc_shift.
    rewrite Nat2Z.inj_succ, Z.pow_succ_r by lia.
    assert (0 <= bit_of c <= 1) by (unfold bit_of; destruct (Ascii.eqb c "1"); lia).
    nia.
Qed.

(** *** Substrings *)

Lemma substring_take (n : nat) : ∀ s,
  (n ≤ String.length s)%nat →
  ∃ post, s = String.append (String.substring 0 n s) post
          ∧ String.length (String.substring 0 n s) = n
          ∧ String.length post = (String.length s - n)%nat.
Proof.
  induction n as [|n IH]; intros s Hn.
  - exists s. destruct s; cbn; repeat split; lia.
  - destruct s as [|c r]; cbn in Hn; [lia|].
    destruct (IH r) as (post & E & L & P); [lia|].
    exists post. cbn [String.substring String.length].
    rewrite append_cons, <- E, L. repeat split; lia.
Qed.

Lemma substring_decompose (a n : nat) : ∀ s,
  (a + n ≤ String.length s)%nat →
  ∃ pre post,
    s = String.append pre (String.append (String.substring a n s) post)
    ∧ String.length pre = a
    ∧ String.length (String.substring a n s) = n
    ∧ String.length post = (String.length s - (a + n))%nat.
Proof.
  induction a as [|a IH]; intros s Hs.
  - destruct (substring_take n s) as (post & E & L & P); [lia|].
    exists EmptyString, post. repeat split; assumption.
  - destruct s as [|c r]; cbn in Hs; [lia|].
    destruct (IH r) as (pre & post & E & La & L & P); [lia|].
    exists (String c pre), post. cbn [String.substring String.length].
    rewrite append_cons, <- E, La. repeat split; assumption.
Qed.

Lemma substring_past_end (a n : nat) : ∀ s,
  (String.length s ≤ a)%nat → String.substring a n s = EmptyString.
Proof.
  induction a as [|a IH]; intros s Hs.
  - destruct s; cbn in Hs; [|lia]. destruct n; reflexivity.
  - destruct s as [|c r]; [reflexivity|]. cbn in *. apply IH. lia.
Qed.

Lemma substring_0_substring_0 (m : nat) : ∀ n s,
  (m ≤ n)%nat →
  String.substring 0 m (String.substring 0 n s) = String.substring 0 m s.
Proof.
  induction m as [|m IH]; intros n s Hm.
  - destruct (String.substring 0 n s), s; reflexivity.
  - destruct n as [|n]; [lia|]. destruct s as [|c r]; [reflexivity|].
    cbn. rewrite IH by lia. reflexivity.
Qed.

Lemma substring_substring_0 (c m : nat) : ∀ n s,
  (c + m ≤ n)%nat →
  String.substring c m (String.substring 0 n s) = String.substring c m s.
Proof.
  induction c as [|c IH]; intros n s Hc.
  - apply substring_0_substring_0. lia.
  - destruct n as [|n]; [lia|]. destruct s as [|x r]; [reflexivity|].
    cbn. apply IH. lia.
Qed.

Lemma substring_substring (a : nat) : ∀ n c m s,
  (c + m ≤ n)%nat →
  String.substring c m (String.substring a n s) = String.substring (a + c) m s.
Proof.
  induction a as [|a IH]; intros n c m s Hc.
  - apply substring_substring_0. assumption.
  - destruct s as [|x r].
    + cbn. destruct c, m; reflexivity.
    + cbn. apply IH. assumption.
Qed.

Lemma slice_slice (s : string) (a b c e : nat) :
  (c ≤ e)%nat → (e ≤ b - a)%nat →
  slice (slice s a b) c e = slice s (a + c) (a + e).
Proof.
  intros Hc He. unfold slice.
  rewrite substring_substring by lia. f_equal. lia.
Qed.

(** *** Fields of the 256-bit gene *)

Lemma bits_acc_substring (B : string) (a n : nat) :
  String.length B = 256%nat → (a + n ≤ 256)%nat →
  bits_acc 0 (String.substring a n B) = field (bits_acc 0 B) a n.
Proof.
  intros HB Han.
  destruct (substring_decompose a n B) as (pre & post & E & La & Ln & Lp); [lia|].
  set (mid := String.substring a n B) in *.
  unfold field. rewrite Z.shiftr_div_pow2, Z.land_ones by lia.
  rewrite E, !bits_acc_append.
  rewrite (bits_acc_shift post (bits_acc (bits_acc 0 pre) mid)).
  rewrite (bits_acc_shift mid (bits_acc 0 pre)).
  rewrite Lp, Ln, HB.
  pose proof (bits_acc_range post) as Rp. rewrite Lp, HB in Rp.
  pose proof (bits_acc_range mid) as Rm. rewrite Ln in Rm.
  set (p := Z.of_nat (256 - (a + n))) in *.
  rewrite Z.div_add_l by lia.
  rewrite (Z.div_small (bits_acc 0 post)) by lia.
  rewrite Z.add_0_r.
  rewrite Z.add_comm, Z.mod_add by lia.
  rewrite Z.mod_small by lia. reflexivity.
Qed.

Lemma is_binary_substring (B : string) (a n : nat) :
  is_binary B = true → (a + n ≤ String.length B)%nat →
  is_binary (String.substring a n B) = true.
Proof.
  intros HB Han.
  destruct (substring_decompose a n B Han) as (pre & post & E & _).
  rewrite E, !is_binary_append in HB.
  apply andb_prop in HB as [_ HB]. apply andb_prop in HB as [HB _]. exact HB.
Qed.

(** *** [parseInt] on binary digits *)

Lemma is_bit_cases c : is_bit c = true → c = "0"%char ∨ c = "1"%char.
Proof.
  unfold is_bit. intros H. apply orb_prop in H as [H|H];
    apply Ascii.eqb_eq in H; auto.
Qed.

Lemma parse_digits_binary (s : string) : ∀ acc,
  is_binary s = true →
  parse_digits 2 (String "0" s) acc = Some (bits_acc (2 * default 0 acc + 0) s)
  ∧ parse_digits 2 (String "1" s) acc = Some (bits_acc (2 * default 0 acc + 1) s).
Proof.
  induction s as [|c s IH]; intros acc Hs.
  - split; reflexivity.
  - cbn [is_binary] in Hs. apply andb_prop in Hs as [Hc Hs].
    destruct (is_bit_cases c Hc) as [-> | ->].
    + destruct (IH (Some (2 * default 0 acc + 0)) Hs) as [E0 _].
      destruct (IH (Some (2 * default 0 acc + 1)) Hs) as [E1 _].
      split; [exact E0 | exact E1].
    + destruct (IH (Some (2 * default 0 acc + 0)) Hs) as [_ E0].
      destruct (IH (Some (2 * default 0 acc + 1)) Hs) as [_ E1].
      split; [exact E0 | exact E1].
Qed.

Lemma parseInt_binary (s : string) :
  is_binary s = true → s ≠ EmptyString →
  parseInt s 2 = Some (bits_acc 0 s).
Proof.
  intros Hs Hne. destruct s as [|c s]; [congruence|].
  cbn [is_binary] in Hs. apply andb_prop in Hs as [Hc Hs].
  destruct (parse_digits_binary s None Hs) as [E0 E1].
  destruct (is_bit_cases c Hc) as [-> | ->].
  - change (parseInt (String "0" s) 2)
      with (match parse_digits 2 (String "0" s) None with
            | Some v => Some v
            | None => None
            end).
    rewrite E0. reflexivity.
  - change (parseInt (String "1" s) 2)
      with (match parse_digits 2 (String "1" s) None with
            | Some v => Some v
            | None => None
            end).
    rewrite E1. reflexivity.
Qed.

(** A field of the gene, read from its binary expansion. *)
Lemma parseInt_slice (B : string) (a b : nat) :
  is_binary B = true → String.length B = 256%nat →
  (a < b)%nat → (b ≤ 256)%nat →
  parseInt (slice B a b) 2 = Some (field (bits_acc 0 B) a (b - a)).
Proof.
  intros HB HL Hab Hb. unfold slice.
  rewrite parseInt_binary.
  - rewrite bits_acc_substring by lia. reflexivity.
  - apply is_binary_substring; [assumption | lia].
  - destruct (substring_decompose a (b - a) B) as (_ & _ & _ & _ & L & _); [lia|].
    intros E. rewrite E in L. cbn in L. lia.
Qed.

(** *** The binary expansion of a valid gene *)

Lemma expand_char_hex (c : ascii) :
  is_hex_char c = true →
  is_binary (expand_char c) = true
  ∧ String.length (expand_char c) = 4%nat
  ∧ ∀ acc, bits_acc acc (expand_char c) = 16 * acc + hex_digit_value c.
Proof.
  destruct c as [[] [] [] [] [] [] [] []]; intros H; vm_compute in H;
    try discriminate H;
    (split; [reflexivity|]); (split; [reflexivity|]); intros acc;
    match goal with
    | |- bits_acc acc (expand_char ?c) = _ + hex_digit_value ?c =>
        let e := eval vm_compute in (expand_char c) in
        let v := eval vm_compute in (hex_digit_value c) in
        change (expand_char c) with e; change (hex_digit_value c) with v
    end;
    cbn [bits_acc]; unfold bit_of; cbn [Ascii.eqb Bool.eqb]; lia.
Qed.

Lemma expand_char_other (c : ascii) :
  is_hex_char c = false → expand_char c = "0NaN".
Proof.
  destruct c as [[] [] [] [] [] [] [] []]; intros H; vm_compute in H;
    try discriminate H; reflexivity.
Qed.

Lemma hexToBinary_loop_acc (s : string) : ∀ acc,
  hexToBinary_loop s acc = String.append acc (hexToBinary_loop s "").
Proof.
  induction s as [|c r IH]; intros acc; cbn [hexToBinary_loop].
  - rewrite append_empty_r. reflexivity.
  - fold (expand_char c). rewrite (IH (String.append acc _)), (IH (String.append "" _)).
    apply append_assoc.
Qed.

Lemma hexToBinary_loop_cons (c : ascii) (r : string) :
  hexToBinary_loop (String c r) ""
  = String.append (expand_char c) (hexToBinary_loop r "").
Proof. cbn [hexToBinary_loop]. fold (expand_char c). apply hexToBinary_loop_acc. Qed.

Lemma hexToBinary_loop_hex (s : string) :
  all_hex s = true →
  is_binary (hexToBinary_loop s "") = true
  ∧ String.length (hexToBinary_loop s "") = (4 * String.length s)%nat
  ∧ ∀ acc, bits_acc acc (hexToBinary_loop s "") = hex_acc acc s.
Proof.
  induction s as [|c r IH]; intros Hs.
  - repeat split.
  - cbn [all_hex] in Hs. apply andb_prop in Hs as [Hc Hr].
    destruct (expand_char_hex c Hc) as (Bc & Lc & Vc).
    destruct (IH Hr) as (Br & Lr & Vr).
    rewrite hexToBinary_loop_cons, is_binary_append, length_append, Bc, Br, Lc, Lr.
    split; [reflexivity|]. split; [cbn [String.length]; lia|].
    intros acc. rewrite bits_acc_append, Vc, Vr. reflexivity.
Qed.

Lemma hexToBinary_clean (clean : string) :
  hex_run 64 clean = true →
  is_binary (padStart (hexToBinary_loop clean "") 256 "0") = true
  ∧ String.length (padStart (hexToBinary_loop clean "") 256 "0") = 256%nat
  ∧ bits_acc 0 (padStart (hexToBinary_loop clean "") 256 "0") = hex_acc 0 clean.
Proof.
  rewrite hex_run_length_all_hex. intros H. apply andb_prop in H as [HL HA].
  apply Nat.eqb_eq in HL.
  destruct (hexToBinary_loop_hex clean HA) as (Hb & Hl & Hv).
  rewrite HL in Hl. unfold padStart. rewrite Hl.
  change (repeat_char "0" (256 - 4 * 64)) with EmptyString.
  change (String.append "" (hexToBinary_loop clean "")) with (hexToBinary_loop clean "").
  repeat split; [assumption | assumption | apply Hv].
Qed.

(** The expansion of a gene that matches the pattern: 256 binary digits
    that write the same number as its hexadecimal digits. *)
Lemma hexToBinary_valid (geneHex : string) :
  matches_gene_pattern geneHex = true →
  is_binary (hexToBinary geneHex) = true
  ∧ String.length (hexToBinary geneHex) = 256%nat
  ∧ bits_acc 0 (hexToBinary geneHex) = gene_value geneHex.
Proof.
  intros Hm. unfold hexToBinary, gene_value. cbv zeta.
  destruct (startsWith_0x_cases geneHex) as [[-> [r ->]] | [-> Hne]].
  - rewrite matches_gene_pattern_0x in Hm. cbn [slice_from].
    apply hexToBinary_clean, Hm.
  - rewrite matches_gene_pattern_plain in Hm by assumption.
    replace (match geneHex with
             | String "0" (String "x" r) => r
             | _ => geneHex
             end) with geneHex.
    + apply hexToBinary_clean, Hm.
    + destruct geneHex as [|c1 [|c2 r]]; try reflexivity.
      * destruct c1 as [[] [] [] [] [] [] [] []]; reflexivity.
      * destruct (ascii_dec "0" c1) as [<-|N1]; [destruct (ascii_dec "x" c2) as [<-|N2]|].
        -- destruct (Hne r eq_refl).
        -- destruct c2 as [[] [] [] [] [] [] [] []]; try reflexivity; congruence.
        -- destruct c1 as [[] [] [] [] [] [] [] []]; try reflexivity; congruence.
Qed.

(** *** The decoded structure *)

Lemma is_binary_4 (s : string) :
  is_binary s = true → String.length s = 4%nat →
  ∃ c1 c2 c3 c4, s = String c1 (String c2 (String c3 (String c4 EmptyString)))
    ∧ (c1 = "0" ∨ c1 = "1")%char ∧ (c2 = "0" ∨ c2 = "1")%char
    ∧ (c3 = "0" ∨ c3 = "1")%char ∧ (c4 = "0" ∨ c4 = "1")%char.
Proof.
  intros Hb HL.
  destruct s as [|c1 [|c2 [|c3 [|c4 [|c5 r]]]]]; try discriminate HL.
  cbn [is_binary] in Hb.
  apply andb_prop in Hb as [H1 Hb]. apply andb_prop in Hb as [H2 Hb].
  apply andb_prop in Hb as [H3 Hb]. apply andb_prop in Hb as [H4 _].
  exists c1, c2, c3, c4.
  split; [reflexivity|]. repeat split; apply is_bit_cases; assumption.
Qed.

(** The two table lookups of the decoder on a 4-bit code. *)
Lemma CLASS_HEX_code (s : string) :
  is_binary s = true → String.length s = 4%nat →
  match CLASS_HEX !! s with
  | Some className =>
      if String.eqb className "" || negb (includes AXIE_CLASSES className)
      then "beast" else className
  | None => "beast"
  end = default "beast" (class_of_code (bits_acc 0 s))
  ∧ match CLASS_HEX !! s with
    | Some c => if String.eqb c "" then "unknown" else c
    | None => "unknown"
    end = default "unknown" (class_of_code (bits_acc 0 s)).
Proof.
  intros Hb HL.
  destruct (is_binary_4 s Hb HL) as (c1 & c2 & c3 & c4 & -> & H1 & H2 & H3 & H4).
  destruct H1 as [-> | ->], H2 as [-> | ->], H3 as [-> | ->], H4 as [-> | ->];
    split; vm_compute; reflexivity.
Qed.

Section layout.
Variable B : string.
Hypothesis B_binary : is_binary B = true.
Hypothesis B_length : String.length B = 256%nat.

Local Abbreviation G := (bits_acc 0 B).

Lemma slice_binary_4 (a b : nat) :
  b = (a + 4)%nat → (b ≤ 256)%nat →
  is_binary (slice B a b) = true ∧ String.length (slice B a b) = 4%nat
  ∧ bits_acc 0 (slice B a b) = field G a 4.
Proof.
  intros -> Hb. unfold slice. replace (a + 4 - a)%nat with 4%nat by lia.
  split; [apply is_binary_substring; [assumption | lia]|].
  split.
  - destruct (substring_decompose a 4 B) as (_ & _ & _ & _ & L & _); [lia | exact L].
  - apply bits_acc_substring; [assumption | lia].
Qed.

Lemma decimal_slice (a b : nat) :
  (a < b)%nat → (b ≤ 256)%nat →
  toString (parseInt (slice B a b) 2) = decimal (field G a (b - a)).
Proof. intros Hab Hb. rewrite parseInt_slice by assumption. reflexivity. Qed.

Lemma getClassFromGene_field :
  getClassFromGene B = default "beast" (class_of_code (field G 0 4)).
Proof.
  unfold getClassFromGene. cbv zeta.
  destruct (slice_binary_4 0 4) as (Hb & HL & HV); [reflexivity | lia |].
  rewrite <- HV. apply CLASS_HEX_code; assumption.
Qed.

Lemma decodePart_slice (a b : nat) :
  b = (a + 12)%nat → (b ≤ 256)%nat →
  decodePart (slice B a b) = allele_at G a.
Proof.
  intros -> Hb. unfold decodePart, allele_at. cbv zeta.
  rewrite !slice_slice by lia.
  replace (a + 0)%nat with a by lia.
  destruct (slice_binary_4 a (a + 4)) as (Hb4 & HL4 & HV4); [reflexivity | lia |].
  destruct (CLASS_HEX_code _ Hb4 HL4) as [_ ->]. rewrite HV4.
  rewrite decimal_slice by lia.
  replace (a + 10 - (a + 4))%nat with 6%nat by lia.
  reflexivity.
Qed.

Lemma decodePartGene_slice (a b : nat) :
  b = (a + 36)%nat → (b ≤ 256)%nat →
  decodePartGene (slice B a b) = part_at G a.
Proof.
  intros -> Hb. unfold decodePartGene, part_at.
  rewrite !slice_slice by lia.
  rewrite (decodePart_slice (a + 0) (a + 12)) by lia.
  rewrite (decodePart_slice (a + 12) (a + 24)) by lia.
  rewrite (decodePart_slice (a + 24) (a + 36)) by lia.
  replace (a + 0)%nat with a by lia. reflexivity.
Qed.

(** The last part starts at bit 244: its 36 bits would end at bit 280,
    past the 256 bits there are. Only its dominant allele is read from the
    gene. *)
Lemma decodePartGene_tail :
  decodePartGene (slice B 244 280)
  = {| d := allele_at G 244; r1 := absent_allele; r2 := absent_allele |}.
Proof.
  unfold decodePartGene.
  rewrite !slice_slice by lia.
  rewrite (decodePart_slice (244 + 0) (244 + 12)) by lia.
  unfold slice. rewrite !substring_past_end by lia.
  reflexivity.
Qed.

End layout.

(** The structure [decodeGenes] returns for a gene that matches the
    pattern, field by field from the 256-bit number [G] the gene writes:
    every field is read at its fixed offset, except that the tail,
    whose 36 bits would run from bit 244 to bit 280, has only its dominant
    allele inside the gene. *)
Lemma decodeGenes_layout (geneHex : string) :
  matches_gene_pattern geneHex = true →
  let G := gene_value geneHex in
  decodeGenes geneHex =
  Normal
    {| genes_class := default "beast" (class_of_code (field G 0 4));
       region := decimal (field G 4 5);
       tag := decimal (field G 9 4);
       bodySkin := decimal (field G 13 4);
       pattern :=
         {| cos_d := decimal (field G 17 6);
            cos_r1 := decimal (field G 23 6);
            cos_r2 := decimal (field G 29 6) |};
       color :=
         {| cos_d := decimal (field G 35 6);
            cos_r1 := decimal (field G 41 6);
            cos_r2 := decimal (field G 47 6) |};
       eyes := part_at G 64;
       ears := part_at G 136;
       mouth := part_at G 100;
       horn := part_at G 172;
       back := part_at G 208;
       tail := {| d := allele_at G 244; r1 := absent_allele; r2 := absent_allele |} |}.
Proof.
  intros Hm. cbv zeta.
  destruct (hexToBinary_valid geneHex Hm) as (Hb & HL & <-).
  unfold decodeGenes. cbv zeta.
  set (B := hexToBinary geneHex) in *.
  rewrite (getClassFromGene_field B Hb HL).
  rewrite !(decimal_slice B Hb HL) by lia.
  rewrite (decodePartGene_slice B Hb HL 64 (64 + 36)) by lia.
  rewrite (decodePartGene_slice B Hb HL (64 + 36) (64 + 36 + 36)) by lia.
  rewrite (decodePartGene_slice B Hb HL (64 + 36 + 36) (64 + 36 + 36 + 36)) by lia.
  rewrite (decodePartGene_slice B Hb HL (64 + 36 + 36 + 36) (64 + 36 + 36 + 36 + 36)) by lia.
  rewrite (decodePartGene_slice B Hb HL (64 + 36 + 36 + 36 + 36)
             (64 + 36 + 36 + 36 + 36 + 36)) by lia.
  change (64 + 36 + 36 + 36 + 36 + 36)%nat with 244%nat.
  change (244 + 36)%nat with 280%nat.
  rewrite (decodePartGene_tail B Hb HL).
  reflexivity.
Qed.

(** C4 on the code: six parts of 36 bits from bit 64 need 280 bits. For the
    all-zero gene the eyes, mouth, ears, horn and back decode at the stated
    offsets, and so does the dominant allele of the tail; the two recessive
    alleles of the tail are read past the end of the 256 bits and come out
    with the class "unknown" and the id "NaN" instead of a decimal part id. *)
Theorem decodeGenes_zero_gene_tail :
  matches_gene_pattern zero_gene = true
  ∧ ∃ genes, decodeGenes zero_gene = Normal genes
      ∧ back genes = part_at 0 208
      ∧ d (tail genes) = mkAllele "0" "part-0" "beast"
      ∧ r1 (tail genes) = mkAllele "NaN" "part-NaN" "unknown"
      ∧ r2 (tail genes) = mkAllele "NaN" "part-NaN" "unknown"
      ∧ slice (hexToBinary zero_gene) 244 280 = repeat_char "0" 12.
Proof.
  split; [reflexivity|]. eexists. split; [reflexivity|].
  repeat split; vm_compute; reflexivity.
Qed.

(* ===================================================================== *)
(** ** Further properties of the gene decoder *)
(* ===================================================================== *)

Lemma length_repeat_char (c : ascii) (n : nat) :
  String.length (repeat_char c n) = n.
Proof. induction n as [|n IH]; cbn; [reflexivity | rewrite IH; reflexivity]. Qed.

Lemma length_padStart (s : string) (n : nat) (c : ascii) :
  String.length (padStart s n c) = Nat.max n (String.length s).
Proof. unfold padStart. rewrite length_append, length_repeat_char. lia. Qed.

Lemma length_expand_char (c : ascii) : String.length (expand_char c) = 4%nat.
Proof. destruct c as [[] [] [] [] [] [] [] []]; reflexivity. Qed.

Lemma length_hexToBinary_loop (s : string) :
  String.length (hexToBinary_loop s "") = (4 * String.length s)%nat.
Proof.
  induction s as [|c r IH]; [reflexivity|].
  rewrite hexToBinary_loop_cons, length_append, length_expand_char, IH.
  cbn [String.length]. lia.
Qed.

(** X1: every character of the cleaned input, hexadecimal or not, gives four
    characters of the expansion, which is padded to 256 characters and
    never cut. *)
Theorem hexToBinary_length (hexGene : string) :
  String.length (hexToBinary hexGene)
  = Nat.max 256 (4 * String.length (cleanHex_of hexGene)).
Proof.
  unfold hexToBinary, cleanHex_of. cbv zeta.
  rewrite length_padStart, length_hexToBinary_loop. reflexivity.
Qed.

Lemma hexToBinary_loop_append (s1 s2 : string) :
  hexToBinary_loop (String.append s1 s2) ""
  = String.append (hexToBinary_loop s1 "") (hexToBinary_loop s2 "").
Proof.
  induction s1 as [|c s1 IH]; [reflexivity|].
  rewrite append_cons, !hexToBinary_loop_cons, IH, append_assoc. reflexivity.
Qed.

Lemma repeat_char_add (c : ascii) (a b : nat) :
  repeat_char c (a + b) = String.append (repeat_char c a) (repeat_char c b).
Proof.
  induction a as [|a IH]; [reflexivity|].
  cbn [Nat.add repeat_char]. rewrite append_cons, IH. reflexivity.
Qed.

Lemma hexToBinary_loop_zeros (k : nat) :
  hexToBinary_loop (repeat_char "0" k) "" = repeat_char "0" (4 * k).
Proof.
  induction k as [|k IH]; [reflexivity|].
  cbn [repeat_char]. rewrite hexToBinary_loop_cons, IH.
  replace (4 * S k)%nat with (4 + 4 * k)%nat by lia.
  rewrite repeat_char_add. reflexivity.
Qed.

Lemma all_hex_append (s1 s2 : string) :
  all_hex (String.append s1 s2) = all_hex s1 && all_hex s2.
Proof.
  induction s1 as [|c s1 IH]; [reflexivity|].
  rewrite append_cons. cbn [all_hex]. rewrite IH.
  destruct (is_hex_char c); reflexivity.
Qed.

Lemma all_hex_zeros (k : nat) : all_hex (repeat_char "0" k) = true.
Proof. induction k as [|k IH]; [reflexivity | cbn [repeat_char all_hex]; rewrite IH; reflexivity]. Qed.

Lemma all_hex_no_prefix (s : string) :
  all_hex s = true → startsWith s "0x" = false.
Proof.
  intros H. destruct (startsWith_0x_cases s) as [[_ [r ->]] | [E _]]; [|exact E].
  cbn in H. discriminate H.
Qed.

Lemma decodeGenes_of_expansion (s1 s2 : string) :
  hexToBinary s1 = hexToBinary s2 → decodeGenes s1 = decodeGenes s2.
Proof. intros E. unfold decodeGenes. rewrite E. reflexivity. Qed.

Lemma hexToBinary_prefix (s : string) :
  startsWith s "0x" = false →
  hexToBinary (String.append "0x" s) = hexToBinary s.
Proof.
  intros E. unfold hexToBinary. rewrite E.
  replace (startsWith (String.append "0x" s) "0x") with true
    by (destruct s; reflexivity).
  reflexivity.
Qed.

Lemma hexToBinary_padded (s : string) :
  all_hex s = true → (String.length s ≤ 64)%nat →
  hexToBinary (padStart s 64 "0") = hexToBinary s.
Proof.
  intros Hs HL.
  set (k := (64 - String.length s)%nat).
  change (padStart s 64 "0") with (String.append (repeat_char "0" k) s).
  unfold hexToBinary. cbv zeta.
  rewrite (all_hex_no_prefix s Hs).
  rewrite all_hex_no_prefix
    by (rewrite all_hex_append, all_hex_zeros, Hs; reflexivity).
  rewrite hexToBinary_loop_append, hexToBinary_loop_zeros.
  unfold padStart.
  rewrite length_append, length_repeat_char, !length_hexToBinary_loop.
  replace (256 - (4 * k + 4 * String.length s))%nat with 0%nat by lia.
  replace (256 - 4 * String.length s)%nat with (4 * k)%nat by lia.
  reflexivity.
Qed.

(** X2: a string of at most 64 hexadecimal digits decodes as the same
    digits padded with zeros on the left to 64, and a [0x] in front changes
    nothing; only the padded form is a valid gene. *)
Theorem decodeGenes_leading_zeros (geneHex : string) :
  all_hex geneHex = true → (String.length geneHex ≤ 64)%nat →
  decodeGenes geneHex = decodeGenes (padStart geneHex 64 "0")
  ∧ decodeGenes (String.append "0x" geneHex) = decodeGenes geneHex
  ∧ isValidGene (padStart geneHex 64 "0") = Normal true
  ∧ isValidGene geneHex = Normal (String.length geneHex =? 64)%nat.
Proof.
  intros Hs HL.
  assert (all_hex (padStart geneHex 64 "0") = true) as Hp
    by (unfold padStart; rewrite all_hex_append, all_hex_zeros, Hs; reflexivity).
  assert (String.length (padStart geneHex 64 "0") = 64%nat) as Lp
    by (rewrite length_padStart; lia).
  split; [|split; [|split]].
  - apply decodeGenes_of_expansion. symmetry. apply hexToBinary_padded; assumption.
  - apply decodeGenes_of_expansion, hexToBinary_prefix, all_hex_no_prefix, Hs.
  - rewrite isValidGene_guards. cbv zeta.
    rewrite (all_hex_no_prefix _ Hp), guards_hex_run, hex_run_length_all_hex, Lp, Hp.
    reflexivity.
  - rewrite isValidGene_guards. cbv zeta.
    rewrite (all_hex_no_prefix _ Hs), guards_hex_run, hex_run_length_all_hex, Hs.
    rewrite andb_true_r. reflexivity.
Qed.

Lemma decodeGenes_leading_zeros_witness :
  all_hex "1f" = true ∧ (String.length "1f" ≤ 64)%nat
  ∧ decodeGenes "1f" = decodeGenes (padStart "1f" 64 "0")
  ∧ decodeGenes "0x1f" = decodeGenes "1f"
  ∧ isValidGene "1f" = Normal false.
Proof.
  split; [reflexivity|]. split; [cbn; lia|].
  destruct (decodeGenes_leading_zeros "1f") as (H1 & H2 & _ & H4);
    [reflexivity | cbn; lia |].
  repeat split; assumption.
Defined.

(** X3: whatever the input string, valid or not, the decoded class is one
    of the nine classes, and every allele of every part has a class among
    the nine or "unknown" and the name "part-" followed by its id. *)
Theorem decodeGenes_well_formed (geneHex : string) :
  ∃ genes, decodeGenes geneHex = Normal genes
    ∧ In (genes_class genes) AXIE_CLASSES
    ∧ part_wf (eyes genes) ∧ part_wf (ears genes) ∧ part_wf (mouth genes)
    ∧ part_wf (horn genes) ∧ part_wf (back genes) ∧ part_wf (tail genes).
Proof.
  unfold decodeGenes. cbv zeta. eexists. split; [reflexivity|].
  cbn [genes_class eyes ears mouth horn back tail].
  split; [apply getClassFromGene_class|].
  do 5 (split; [apply decodePartGene_wf|]). apply decodePartGene_wf.
Qed.

Lemma field_range (G : Z) (start width : nat) :
  0 <= field G start width < 2 ^ Z.of_nat width.
Proof.
  unfold field. rewrite Z.land_ones by lia.
  apply Z.mod_pos_bound. apply Z.pow_pos_nonneg; lia.
Qed.

Lemma decimal_field_below (G : Z) (start width : nat) :
  decimal_below (2 ^ Z.of_nat width) (decimal (field G start width)).
Proof. exists (field G start width). split; [apply field_range | reflexivity]. Qed.

Lemma part_at_ids_below (G : Z) (start : nat) : ids_below_64 (part_at G start).
Proof.
  unfold ids_below_64, part_at, allele_at. cbn [d r1 r2 allele_id].
  repeat split; apply (decimal_field_below G _ 6).
Qed.

(** X4: for every gene that matches the pattern, each field of the decoded
    structure is the shift-and-mask of the 256-bit number the gene writes,
    at a fixed offset: class [0,4), region [4,9), tag [9,13), bodySkin
    [13,17), pattern [17,35), color [35,53), then eyes, mouth, ears, horn
    and back from bit 64 in steps of 36, and the dominant allele of the tail
    at bit 244; the two recessive alleles of the tail are not read from the
    gene. *)
Theorem decodeGenes_bit_fields (geneHex : string) :
  matches_gene_pattern geneHex = true →
  let G := gene_value geneHex in
  decodeGenes geneHex =
  Normal
    {| genes_class := default "beast" (class_of_code (field G 0 4));
       region := decimal (field G 4 5);
       tag := decimal (field G 9 4);
       bodySkin := decimal (field G 13 4);
       pattern :=
         {| cos_d := decimal (field G 17 6);
            cos_r1 := decimal (field G 23 6);
            cos_r2 := decimal (field G 29 6) |};
       color :=
         {| cos_d := decimal (field G 35 6);
            cos_r1 := decimal (field G 41 6);
            cos_r2 := decimal (field G 47 6) |};
       eyes := part_at G 64;
       ears := part_at G 136;
       mouth := part_at G 100;
       horn := part_at G 172;
       back := part_at G 208;
       tail := {| d := allele_at G 244; r1 := absent_allele; r2 := absent_allele |} |}.
Proof. intros Hm. exact (decodeGenes_layout geneHex Hm). Qed.

Lemma decodeGenes_bit_fields_witness :
  let geneHex := String.append "0x" (repeat_char "1" 64) in
  matches_gene_pattern geneHex = true
  ∧ ∃ genes, decodeGenes geneHex = Normal genes
      ∧ genes_class genes = "bug" ∧ region genes = "2"
      ∧ d (eyes genes) = mkAllele "4" "part-4" "bug".
Proof.
  cbv zeta. split; [reflexivity|].
  eexists. split.
  - apply (decodeGenes_bit_fields (String.append "0x" (repeat_char "1" 64))).
    reflexivity.
  - repeat split; vm_compute; reflexivity.
Defined.

(** X5: for every gene that matches the pattern, the numbers decoded are in
    the range of their width: region below 32, tag and bodySkin below 16,
    the pattern and colour values and every part id below 64; the ids of
    the two recessive alleles of the tail are "NaN". *)
Theorem decodeGenes_ranges (geneHex : string) :
  matches_gene_pattern geneHex = true →
  ∃ genes, decodeGenes geneHex = Normal genes
    ∧ decimal_below 32 (region genes)
    ∧ decimal_below 16 (tag genes)
    ∧ decimal_below 16 (bodySkin genes)
    ∧ decimal_below 64 (cos_d (pattern genes))
    ∧ decimal_below 64 (cos_r1 (pattern genes))
    ∧ decimal_below 64 (cos_r2 (pattern genes))
    ∧ decimal_below 64 (cos_d (color genes))
    ∧ decimal_below 64 (cos_r1 (color genes))
    ∧ decimal_below 64 (cos_r2 (color genes))
    ∧ ids_below_64 (eyes genes) ∧ ids_below_64 (ears genes)
    ∧ ids_below_64 (mouth genes) ∧ ids_below_64 (horn genes)
    ∧ ids_below_64 (back genes)
    ∧ decimal_below 64 (allele_id (d (tail genes)))
    ∧ allele_id (r1 (tail genes)) = "NaN"
    ∧ allele_id (r2 (tail genes)) = "NaN".
Proof.
  intros Hm. eexists. split; [apply (decodeGenes_layout geneHex Hm)|].
  cbn [region tag bodySkin pattern color cos_d cos_r1 cos_r2
       eyes ears mouth horn back tail d r1 r2].
  set (G := gene_value geneHex).
  pose proof (decimal_field_below G) as F.
  pose proof (part_at_ids_below G) as P.
  split; [apply (F 4%nat 5%nat)|].
  split; [apply (F 9%nat 4%nat)|].
  split; [apply (F 13%nat 4%nat)|].
  do 6 (split; [apply (F _ 6%nat)|]).
  do 5 (split; [apply P|]).
  split; [apply (F _ 6%nat)|].
  split; reflexivity.
Qed.

Lemma decodeGenes_ranges_witness :
  matches_gene_pattern zero_gene = true
  ∧ ∃ genes, decodeGenes zero_gene = Normal genes
      ∧ decimal_below 32 (region genes)
      ∧ ids_below_64 (back genes)
      ∧ allele_id (r1 (tail genes)) = "NaN".
Proof.
  split; [reflexivity|].
  destruct (decodeGenes_ranges zero_gene) as (g & E & Hr & H); [reflexivity|].
  exists g. split; [exact E|]. split; [exact Hr|].
  destruct H as (_ & _ & _ & _ & _ & _ & _ & _ & _ & _ & _ & _ & Hb & _ & Hn & _).
  split; [exact Hb | exact Hn].
Defined.

Lemma substring_append_l (s1 s2 : string) : ∀ a n,
  (a + n ≤ String.length s1)%nat →
  String.substring a n (String.append s1 s2) = String.substring a n s1.
Proof.
  induction s1 as [|c s1 IH]; intros a n H.
  - cbn in H. assert (a = 0%nat) as -> by lia. assert (n = 0%nat) as -> by lia.
    destruct s2; reflexivity.
  - rewrite append_cons. cbn [String.length] in H.
    destruct a as [|a].
    + destruct n as [|n]; [reflexivity|].
      cbn [String.substring]. rewrite (IH 0%nat n) by lia. reflexivity.
    + cbn [String.substring]. apply IH. lia.
Qed.

Lemma slice_append_l (s1 s2 : string) (a b : nat) :
  (a ≤ b)%nat → (b ≤ String.length s1)%nat →
  slice (String.append s1 s2) a b = slice s1 a b.
Proof. intros Hab Hb. unfold slice. apply substring_append_l. lia. Qed.

Lemma hexToBinary_64 (s : string) :
  hex_run 64 s = true →
  hexToBinary s = hexToBinary_loop s "" ∧ String.length (hexToBinary_loop s "") = 256%nat.
Proof.
  rewrite hex_run_length_all_hex. intros H. apply andb_prop in H as [HL HA].
  apply Nat.eqb_eq in HL.
  assert (String.length (hexToBinary_loop s "") = 256%nat) as L
    by (rewrite length_hexToBinary_loop, HL; reflexivity).
  split; [|exact L].
  unfold hexToBinary. rewrite (all_hex_no_prefix s HA). unfold padStart. rewrite L.
  reflexivity.
Qed.

Lemma hexToBinary_64_more (s t : string) :
  hex_run 64 s = true →
  hexToBinary (String.append s t)
  = String.append (hexToBinary_loop s "") (hexToBinary_loop t "").
Proof.
  intros H. destruct (hexToBinary_64 s H) as [_ L].
  rewrite hex_run_length_all_hex in H. apply andb_prop in H as [HL HA].
  apply Nat.eqb_eq in HL.
  unfold hexToBinary.
  replace (startsWith (String.append s t) "0x") with false.
  - rewrite hexToBinary_loop_append. unfold padStart.
    rewrite length_append, L.
    replace (256 - (256 + String.length (hexToBinary_loop t "")))%nat with 0%nat by lia.
    reflexivity.
  - symmetry.
    destruct (startsWith_0x_cases (String.append s t)) as [[_ [r E]] | [E _]]; [|exact E].
    destruct s as [|c1 [|c2 s]]; try discriminate HL.
    rewrite !append_cons in E. injection E as -> -> _.
    cbn in HA. discriminate HA.
Qed.

(** X6: digits after the 64th are not rejected by [decodeGenes]: the class,
    the cosmetic fields, five parts and the dominant allele of the tail are
    those of the first 64 digits; only [isValidGene] refuses the longer
    string. *)
Theorem decodeGenes_extra_digits (geneHex more : string) :
  hex_run 64 geneHex = true →
  ∃ genes genes',
    decodeGenes geneHex = Normal genes
    ∧ decodeGenes (String.append geneHex more) = Normal genes'
    ∧ genes_class genes' = genes_class genes
    ∧ region genes' = region genes
    ∧ tag genes' = tag genes
    ∧ bodySkin genes' = bodySkin genes
    ∧ pattern genes' = pattern genes
    ∧ color genes' = color genes
    ∧ eyes genes' = eyes genes
    ∧ ears genes' = ears genes
    ∧ mouth genes' = mouth genes
    ∧ horn genes' = horn genes
    ∧ back genes' = back genes
    ∧ d (tail genes') = d (tail genes)
    ∧ isValidGene (String.append geneHex more) = Normal (String.eqb more "").
Proof.
  intros H.
  assert (isValidGene (String.append geneHex more) = Normal (String.eqb more ""))
    as Hvalid.
  { destruct more as [|c more'].
    - rewrite append_empty_r, isValidGene_guards, guards_match_pattern.
      unfold matches_gene_pattern. rewrite H. reflexivity.
    - set (more := String c more').
      rewrite isValidGene_guards. cbv zeta.
      rewrite hex_run_length_all_hex in H. apply andb_prop in H as [HL HA].
      apply Nat.eqb_eq in HL.
      assert (String.length (String.append geneHex more) ≠ 64%nat) as Hlen.
      { rewrite length_append, HL. cbn. lia. }
      destruct (startsWith (String.append geneHex more) "0x") eqn:Hs.
      + destruct (startsWith_0x_cases (String.append geneHex more))
          as [[_ [r Er]] | [Er _]]; [|congruence].
        destruct geneHex as [|c1 [|c2 s]]; try discriminate HL.
        rewrite !append_cons in Er. injection Er as -> -> _.
        cbn in HA. discriminate HA.
      + apply Nat.eqb_neq in Hlen. rewrite Hlen. reflexivity. }
  destruct (hexToBinary_64 geneHex H) as [EB L].
  pose proof (hexToBinary_64_more geneHex more H) as EB'.
  unfold decodeGenes. cbv zeta. rewrite EB, EB'.
  set (B := hexToBinary_loop geneHex "") in *.
  set (E := hexToBinary_loop more "").
  do 2 eexists. split; [reflexivity|]. split; [reflexivity|].
  cbn [genes_class region tag bodySkin pattern color eyes ears mouth horn back tail].
  unfold getClassFromGene, decodePartGene at 11 12. cbn [d].
  rewrite !(slice_slice _ 244 280 0 12) by lia.
  rewrite !(slice_append_l B E) by (rewrite ?L; lia).
  repeat (split; [reflexivity|]).
  exact Hvalid.
Qed.

Lemma decodeGenes_extra_digits_witness :
  hex_run 64 (repeat_char "1" 64) = true
  ∧ ∃ genes genes',
      decodeGenes (repeat_char "1" 64) = Normal genes
      ∧ decodeGenes (repeat_char "1" 128) = Normal genes'
      ∧ back genes' = back genes
      ∧ d (tail genes') = d (tail genes)
      ∧ isValidGene (repeat_char "1" 128) = Normal false.
Proof.
  split; [reflexivity|].
  destruct (decodeGenes_extra_digits (repeat_char "1" 64) (repeat_char "1" 64))
    as (g & g' & E & E' & H); [reflexivity|].
  exists g, g'. split; [exact E|]. split; [exact E'|].
  destruct H as (_ & _ & _ & _ & _ & _ & _ & _ & _ & _ & Hb & Hd & Hv).
  split; [exact Hb|]. split; [exact Hd|]. exact Hv.
Defined.

(* ===================================================================== *)
(** ** Further properties of stats and purity *)
(* ===================================================================== *)

Lemma part_bonus_class (p q : PartGene) :
  allele_class (d p) = allele_class (d q) → part_bonus p = part_bonus q.
Proof. intros E. unfold part_bonus. rewrite E. reflexivity. Qed.

Lemma part_matches_class (genes1 genes2 : DecodedGenes) (p q : PartGene) :
  genes_class genes1 = genes_class genes2 →
  allele_class (d p) = allele_class (d q) →
  part_matches genes1 p = part_matches genes2 q.
Proof. intros Ec E. unfold part_matches. rewrite Ec, E. reflexivity. Qed.

Lemma calculatePurity_by_count (genes : DecodedGenes) :
  calculatePurity genes = ((number (matching_parts genes) / 6) * 100)%float.
Proof.
  unfold calculatePurity, matching_parts, parts.
  cbn [fold_left List.filter].
  unfold calculatePurity_step, part_matches. cbn [part_gene].
  repeat match goal with
         | |- context [String.eqb ?a ?b] => destruct (String.eqb a b)
         end; vm_compute; reflexivity.
Qed.

Lemma matching_parts_le (genes : DecodedGenes) : (matching_parts genes ≤ 6)%nat.
Proof.
  unfold matching_parts. cbn [List.filter].
  repeat match goal with
         | |- context [part_matches ?g ?p] => destruct (part_matches g p)
         end; cbn [length]; lia.
Qed.

(** X7: stats and purity are decided by the class of the Axie and the
    dominant alleles: two decoded structures with the same class and the
    same [getDominantParts] have the same stats and the same purity,
    whatever their recessive alleles and cosmetic fields. *)
Theorem dominant_parts_decide (genes1 genes2 : DecodedGenes) :
  genes_class genes1 = genes_class genes2 →
  getDominantParts genes1 = getDominantParts genes2 →
  calculateStats genes1 = calculateStats genes2
  ∧ calculatePurity genes1 = calculatePurity genes2.
Proof.
  intros Hc Hd. unfold getDominantParts, parts in Hd.
  cbn [List.map part_gene] in Hd.
  injection Hd as _ E1 _ E2 _ E3 _ E4 _ E5 _ E6.
  split.
  - rewrite !calculateStats_chain, Hc, E1, E2, E3, E4, E5, E6.
    rewrite (part_bonus_class _ _ E1), (part_bonus_class _ _ E2),
      (part_bonus_class _ _ E3), (part_bonus_class _ _ E4),
      (part_bonus_class _ _ E5), (part_bonus_class _ _ E6).
    reflexivity.
  - rewrite !calculatePurity_by_count. do 3 f_equal.
    unfold matching_parts. cbn [List.filter].
    rewrite (part_matches_class genes1 genes2 _ _ Hc E1),
      (part_matches_class genes1 genes2 _ _ Hc E2),
      (part_matches_class genes1 genes2 _ _ Hc E3),
      (part_matches_class genes1 genes2 _ _ Hc E4),
      (part_matches_class genes1 genes2 _ _ Hc E5),
      (part_matches_class genes1 genes2 _ _ Hc E6).
    repeat match goal with
           | |- context [part_matches genes2 ?p] => destruct (part_matches genes2 p)
           end; reflexivity.
Qed.

Lemma dominant_parts_decide_witness :
  let g1 := test_genes "plant" "plant" "bird" in
  let g2 := test_genes "plant" "plant" "dusk" in
  g1 ≠ g2
  ∧ calculateStats g1 = calculateStats g2
  ∧ calculatePurity g1 = calculatePurity g2.
Proof.
  cbv zeta. split; [discriminate|].
  apply (dominant_parts_decide (test_genes "plant" "plant" "bird")
           (test_genes "plant" "plant" "dusk")); reflexivity.
Defined.

Lemma base_stats_of_cases (c : string) :
  stat_total (base_stats_of c) = 140 ∧ stats_between 27 43 (base_stats_of c).
Proof.
  unfold base_stats_of. destruct (BASE_STATS !! c) as [b|] eqn:E.
  - unfold BASE_STATS in E. apply elem_of_list_to_map_2, list_elem_of_In in E.
    cbn [In] in E.
    repeat (destruct E as [E|E];
            [injection E as _ <-; unfold stat_total, stats_between; cbn; lia|]).
    destruct E.
  - unfold stat_total, stats_between; cbn; lia.
Qed.

Lemma part_bonus_cases (p : PartGene) :
  stat_total (part_bonus p)
  = (if includes AXIE_CLASSES (allele_class (d p)) then 4 else 0)
  ∧ stats_between 0 3 (part_bonus p).
Proof.
  unfold part_bonus. generalize (allele_class (d p)) as c. intros c.
  destruct (PART_STAT_BONUS !! c) as [b|] eqn:E.
  - unfold PART_STAT_BONUS in E. apply elem_of_list_to_map_2, list_elem_of_In in E.
    cbn [In] in E.
    repeat (destruct E as [E|E];
            [injection E as <- <-; unfold stat_total, stats_between; cbn; lia|]).
    destruct E.
  - destruct (includes AXIE_CLASSES c) eqn:I.
    + apply includes_In in I. cbn [In AXIE_CLASSES] in I.
      repeat (destruct I as [<-|I]; [vm_compute in E; discriminate E|]).
      destruct I.
    + unfold stat_total, stats_between; cbn; lia.
Qed.

Lemma expected_stats_total (genes : DecodedGenes) :
  stat_total (expected_stats genes) = 140 + 4 * Z.of_nat (mapped_parts genes)
  ∧ (mapped_parts genes ≤ 6)%nat
  ∧ stats_between 27 61 (expected_stats genes).
Proof.
  unfold expected_stats.
  destruct (base_stats_of_cases (genes_class genes)) as [Tb Rb].
  destruct (part_bonus_cases (eyes genes)) as [T1 R1].
  destruct (part_bonus_cases (ears genes)) as [T2 R2].
  destruct (part_bonus_cases (mouth genes)) as [T3 R3].
  destruct (part_bonus_cases (horn genes)) as [T4 R4].
  destruct (part_bonus_cases (back genes)) as [T5 R5].
  destruct (part_bonus_cases (tail genes)) as [T6 R6].
  unfold mapped_parts. cbn [List.filter].
  unfold stat_total, stats_between, stats_add in *. cbn [hp speed skill morale] in *.
  repeat match goal with
         | H : context [includes AXIE_CLASSES ?c] |- _ =>
             destruct (includes AXIE_CLASSES c)
         end; cbn [length]; lia.
Qed.

(** X8: when neither the class of the Axie nor the class of a dominant
    allele is a name inherited from [Object.prototype], the four stats are
    integers that add up to 140 plus 4 for each part whose dominant allele
    has one of the nine classes, so to 164 at most, and each stat lies
    between 27 and 61. *)
Theorem calculateStats_total (genes : DecodedGenes) :
  inherited_class genes = false →
  ∃ stats,
    calculateStats genes = exact_stats stats
    ∧ stat_total stats = 140 + 4 * Z.of_nat (mapped_parts genes)
    ∧ (mapped_parts genes ≤ 6)%nat
    ∧ stats_between 27 61 stats.
Proof.
  intros H. exists (expected_stats genes).
  split; [apply calculateStats_sum, H | apply expected_stats_total].
Qed.

Lemma calculateStats_total_witness :
  inherited_class (test_genes "bird" "plant" "ghost") = false
  ∧ ∃ stats,
      calculateStats (test_genes "bird" "plant" "ghost") = exact_stats stats
      ∧ stat_total stats = 164.
Proof.
  split; [reflexivity|].
  destruct (calculateStats_total (test_genes "bird" "plant" "ghost") eq_refl)
    as (stats & E & T & _).
  exists stats. split; [exact E | exact T].
Defined.

(** X9: the purity is 100 exactly when the dominant alleles of all six
    parts have the class of the Axie, and 0 exactly when none has. *)
Theorem calculatePurity_extremes (genes : DecodedGenes) :
  ((calculatePurity genes =? 100)%float = true ↔ matching_parts genes = 6%nat)
  ∧ ((calculatePurity genes =? 0)%float = true ↔ matching_parts genes = 0%nat).
Proof.
  rewrite calculatePurity_by_count.
  pose proof (matching_parts_le genes) as Hle.
  destruct (matching_parts genes) as [|[|[|[|[|[|[|n]]]]]]]; try lia;
    (split; split; intros H; try (vm_compute in H; discriminate H);
     try discriminate H; vm_compute; reflexivity).
Qed.

(* ===================================================================== *)
(** ** Further properties of the inheritance probabilities *)
(* ===================================================================== *)

Lemma units_lookup (p1 p2 : PartGene) (key : string) :
  calculateBreedingProbability p1 p2 !! key
  = dy <$> match units_of key (unit_entries p1 p2) with
           | [] => None
           | us => Some (0 + sum_list us)%nat
           end.
Proof.
  rewrite calculateBreedingProbability_units, lookup_fmap, fold_add_units_lookup,
    lookup_empty.
  reflexivity.
Qed.

(** X10: the distribution does not depend on which parent comes first. *)
Theorem calculateBreedingProbability_comm (parent1Gene parent2Gene : PartGene) :
  calculateBreedingProbability parent1Gene parent2Gene
  = calculateBreedingProbability parent2Gene parent1Gene.
Proof.
  apply map_eq. intros key. rewrite !units_lookup.
  unfold units_of, unit_entries. cbn [List.filter fst snd].
  repeat match goal with
         | |- context [String.eqb ?a key] => destruct (String.eqb a key)
         end; reflexivity.
Qed.

(** X11: every probability of the map is at least 0.03125 and at most 1. *)
Theorem calculateBreedingProbability_bounds (parent1Gene parent2Gene : PartGene)
    (key : string) (p : float) :
  calculateBreedingProbability parent1Gene parent2Gene !! key = Some p →
  (0.03125 <=? p)%float = true ∧ (p <=? 1)%float = true.
Proof.
  rewrite units_lookup.
  unfold units_of, unit_entries. cbn [List.filter fst snd].
  repeat match goal with
         | |- context [String.eqb ?a key] => destruct (String.eqb a key)
         end;
    cbn [fmap list_fmap option_fmap option_map sum_list_with];
    intros H; try discriminate H; injection H as <-; split; vm_compute; reflexivity.
Qed.

Lemma calculateBreedingProbability_bounds_witness :
  let p1 := test_part "bug" "1" "bug" "1" "bug" "2" in
  let p2 := test_part "bug" "1" "bug" "3" "bug" "2" in
  calculateBreedingProbability p1 p2 !! "bug-1" = Some 0.84375%float
  ∧ (0.03125 <=? 0.84375)%float = true ∧ (0.84375 <=? 1)%float = true.
Proof.
  cbv zeta.
  assert (calculateBreedingProbability (test_part "bug" "1" "bug" "1" "bug" "2")
            (test_part "bug" "1" "bug" "3" "bug" "2") !! "bug-1"
          = Some 0.84375%float) as H by (vm_compute; reflexivity).
  split; [exact H|].
  exact (calculateBreedingProbability_bounds _ _ _ _ H).
Defined.

(** X12: each of the six alleles has its key in the map, with a
    probability of at least its own weight: 0.375 for a dominant allele,
    0.09375 and 0.03125 for the recessive ones. *)
Theorem calculateBreedingProbability_covers (parent1Gene parent2Gene : PartGene) :
  Forall
    (λ entry, ∃ p,
       calculateBreedingProbability parent1Gene parent2Gene !! gene_key entry.1 = Some p
       ∧ (entry.2 <=? p)%float = true)
    (allGenes parent1Gene parent2Gene).
Proof.
  unfold allGenes.
  repeat (apply Forall_cons; split;
          [cbn [fst snd]; rewrite units_lookup;
           unfold units_of, unit_entries; cbn [List.filter fst snd];
           rewrite !String.eqb_refl;
           repeat match goal with
                  | |- context [String.eqb ?a ?b] => destruct (String.eqb a b)
                  end;
           eexists; (split; [reflexivity | vm_compute; reflexivity])|]).
  apply Forall_nil. exact I.
Qed.

(* ===================================================================== *)
(** ** Further properties of the breeding rules *)
(* ===================================================================== *)

Lemma info_canBreed_eq (axie : Axie) :
  info_canBreed (canBreed axie) = (breedCount axie <? 7) && (4 <=? stage axie).
Proof.
  unfold canBreed, BREEDING_COSTS.MAX_BREED_COUNT.
  destruct (Z.leb_spec 7 (breedCount axie)), (Z.ltb_spec (breedCount axie) 7); try lia;
    cbn [info_canBreed andb]; [reflexivity|].
  destruct (Z.ltb_spec (stage axie) 4), (Z.leb_spec 4 (stage axie)); try lia; reflexivity.
Qed.

Lemma slpCost_canBreed (axie : Axie) :
  info_canBreed (canBreed axie) = true →
  slpCost (canBreed axie) = slp_by_breed_count (breedCount axie)
  ∧ axsCost (canBreed axie) = 0.5%float.
Proof.
  unfold canBreed.
  destruct (BREEDING_COSTS.MAX_BREED_COUNT <=? breedCount axie); [discriminate|].
  destruct (stage axie <? 4); [discriminate|]. intros _. split; reflexivity.
Qed.

(** The pair can breed exactly when no relation blocks it and each Axie
    can breed on its own. *)
Lemma canBreedTogether_eligible (axie1 axie2 : Axie) :
  pair_canBreed (canBreedTogether axie1 axie2)
  = negb (blocks SelfBreeding axie1 axie2)
    && negb (blocks ParentChild axie1 axie2)
    && negb (blocks Siblings axie1 axie2)
    && info_canBreed (canBreed axie1)
    && info_canBreed (canBreed axie2).
Proof.
  unfold canBreedTogether, blocks.
  destruct (String.eqb (axie_id axie1) (axie_id axie2)); [reflexivity|].
  destruct (String.eqb (axie_id axie1) (matronId axie2)); [reflexivity|].
  destruct (String.eqb (axie_id axie1) (sireId axie2)); [reflexivity|].
  destruct (String.eqb (axie_id axie2) (matronId axie1)); [reflexivity|].
  destruct (String.eqb (axie_id axie2) (sireId axie1)); [reflexivity|].
  cbn [orb negb andb].
  destruct (String.eqb (matronId axie1) (matronId axie2)
            && String.eqb (sireId axie1) (sireId axie2)
            && negb (String.eqb (matronId axie1) "0")
            && negb (String.eqb (sireId axie1) "0")); [reflexivity|].
  cbn [negb andb].
  destruct (info_canBreed (canBreed axie1)); [|reflexivity].
  destruct (info_canBreed (canBreed axie2)); reflexivity.
Qed.

Lemma blocks_sym (b : Blocker) (axie1 axie2 : Axie) :
  b = SelfBreeding ∨ b = ParentChild ∨ b = Siblings →
  blocks b axie1 axie2 = blocks b axie2 axie1.
Proof.
  intros [-> | [-> | ->]]; unfold blocks.
  - apply String.eqb_sym.
  - destruct (String.eqb (axie_id axie1) (matronId axie2)),
      (String.eqb (axie_id axie1) (sireId axie2)),
      (String.eqb (axie_id axie2) (matronId axie1)),
      (String.eqb (axie_id axie2) (sireId axie1)); reflexivity.
  - destruct (String.eqb_spec (matronId axie1) (matronId axie2)) as [Em|Nm];
      destruct (String.eqb_spec (matronId axie2) (matronId axie1)) as [Em'|Nm'];
      try congruence; try reflexivity.
    destruct (String.eqb_spec (sireId axie1) (sireId axie2)) as [Es|Ns];
      destruct (String.eqb_spec (sireId axie2) (sireId axie1)) as [Es'|Ns'];
      try congruence; reflexivity.
Qed.

(** X13: whether two Axies can breed together does not depend on their
    order (the reason given may). *)
Theorem canBreedTogether_sym (axie1 axie2 : Axie) :
  pair_canBreed (canBreedTogether axie1 axie2)
  = pair_canBreed (canBreedTogether axie2 axie1).
Proof.
  rewrite !canBreedTogether_eligible.
  rewrite (blocks_sym SelfBreeding axie1 axie2) by auto.
  rewrite (blocks_sym ParentChild axie1 axie2) by auto.
  rewrite (blocks_sym Siblings axie1 axie2) by auto.
  destruct (blocks SelfBreeding axie2 axie1), (blocks ParentChild axie2 axie1),
    (blocks Siblings axie2 axie1), (info_canBreed (canBreed axie1)),
    (info_canBreed (canBreed axie2)); reflexivity.
Qed.

(** X14: when two Axies can breed together, they are distinct, each can
    breed on its own with a breed count below 7 and a stage of at least 4,
    and the SLP cost of the pairing is the sum of the SLP costs [canBreed]
    gives for each; the pairing costs 0.5 AXS once, where [canBreed] quotes
    0.5 for each parent. *)
Theorem canBreedTogether_costs (axie1 axie2 : Axie) :
  pair_canBreed (canBreedTogether axie1 axie2) = true →
  axie_id axie1 ≠ axie_id axie2
  ∧ info_canBreed (canBreed axie1) = true
  ∧ info_canBreed (canBreed axie2) = true
  ∧ breedCount axie1 < 7 ∧ breedCount axie2 < 7
  ∧ 4 <= stage axie1 ∧ 4 <= stage axie2
  ∧ cost_slp (calculateBreedingCost axie1 axie2)
    = slpCost (canBreed axie1) + slpCost (canBreed axie2)
  ∧ cost_axs (calculateBreedingCost axie1 axie2) = 0.5%float
  ∧ axsCost (canBreed axie1) = 0.5%float
  ∧ axsCost (canBreed axie2) = 0.5%float.
Proof.
  rewrite canBreedTogether_eligible. intros H.
  apply andb_prop in H as [H H2]. apply andb_prop in H as [H H1].
  apply andb_prop in H as [H _]. apply andb_prop in H as [H _].
  apply negb_true_iff in H. cbn [blocks] in H. apply String.eqb_neq in H.
  pose proof H1 as B1. pose proof H2 as B2.
  rewrite info_canBreed_eq in B1, B2.
  apply andb_prop in B1 as [C1 S1]. apply andb_prop in B2 as [C2 S2].
  apply Z.ltb_lt in C1, C2. apply Z.leb_le in S1, S2.
  destruct (slpCost_canBreed axie1 H1) as [P1 A1].
  destruct (slpCost_canBreed axie2 H2) as [P2 A2].
  rewrite P1, P2.
  repeat (split; [assumption|]). split; [reflexivity|].
  split; [reflexivity|]. split; assumption.
Qed.

Lemma canBreedTogether_costs_witness :
  let a1 := test_axie "1" "0" "0" 2 4 in
  let a2 := test_axie "2" "0" "0" 6 4 in
  pair_canBreed (canBreedTogether a1 a2) = true
  ∧ cost_slp (calculateBreedingCost a1 a2) = 2250 + 15300
  ∧ cost_axs (calculateBreedingCost a1 a2) = 0.5%float.
Proof.
  cbv zeta. split; [reflexivity|].
  destruct (canBreedTogether_costs (test_axie "1" "0" "0" 2 4) (test_axie "2" "0" "0" 6 4))
    as (_ & _ & _ & _ & _ & _ & _ & Hs & Ha & _); [reflexivity|].
  split; [exact Hs | exact Ha].
Defined.

(** X15: within the table the SLP cost grows strictly with the breed
    count, from 900 to 15300. *)
Theorem slp_by_breed_count_increasing (m n : Z) :
  0 <= m → m < n → n < 7 →
  slp_by_breed_count m < slp_by_breed_count n
  ∧ 900 <= slp_by_breed_count m
  ∧ slp_by_breed_count n <= 15300.
Proof.
  intros Hm Hmn Hn.
  assert (m = 0 ∨ m = 1 ∨ m = 2 ∨ m = 3 ∨ m = 4 ∨ m = 5) as Cm by lia.
  assert (n = 1 ∨ n = 2 ∨ n = 3 ∨ n = 4 ∨ n = 5 ∨ n = 6) as Cn by lia.
  destruct Cm as [->|[->|[->|[->|[->| ->]]]]];
    destruct Cn as [->|[->|[->|[->|[->| ->]]]]]; try lia;
    repeat split; vm_compute; first [reflexivity | discriminate].
Qed.

Lemma slp_by_breed_count_increasing_witness :
  0 <= 2 ∧ 2 < 5 ∧ 5 < 7 ∧ slp_by_breed_count 2 < slp_by_breed_count 5.
Proof.
  split; [lia|]. split; [lia|]. split; [lia|].
  apply (slp_by_breed_count_increasing 2 5); lia.
Defined.

Lemma slp_by_breed_count_outside (n : Z) :
  n < 0 ∨ 7 <= n → slp_by_breed_count n = 0.
Proof.
  intros H. unfold slp_by_breed_count.
  destruct (Z.leb_spec 0 n) as [Hn|Hn]; [|reflexivity].
  assert (7 <= n) as H7 by lia.
  replace (BREEDING_COSTS.SLP_BY_BREED_COUNT !! Z.to_nat n) with (@None Z); [reflexivity|].
  symmetry. apply lookup_ge_None. cbn. lia.
Qed.

(** X16: [calculateBreedingCost] does not check eligibility: a parent at
    the cap of 7 breeds adds nothing to the SLP cost, so the pairing is
    quoted at the other parent's cost alone and 0.5 AXS, while
    [canBreedTogether] refuses the same pairing. *)
Theorem calculateBreedingCost_at_cap (axie other : Axie) :
  7 <= breedCount axie →
  cost_slp (calculateBreedingCost axie other) = slp_by_breed_count (breedCount other)
  ∧ cost_slp (calculateBreedingCost other axie) = slp_by_breed_count (breedCount other)
  ∧ cost_axs (calculateBreedingCost axie other) = 0.5%float
  ∧ pair_canBreed (canBreedTogether axie other) = false.
Proof.
  intros H. unfold calculateBreedingCost. cbn [cost_slp cost_axs].
  rewrite (slp_by_breed_count_outside (breedCount axie)) by lia.
  split; [lia|]. split; [lia|]. split; [reflexivity|].
  apply (canBreedTogether_max axie other H).
Qed.

Lemma calculateBreedingCost_at_cap_witness :
  let a := test_axie "1" "0" "0" 7 4 in
  let b := test_axie "2" "0" "0" 0 4 in
  7 <= breedCount a
  ∧ cost_slp (calculateBreedingCost a b) = 900
  ∧ pair_canBreed (canBreedTogether a b) = false.
Proof.
  cbv zeta. split; [cbn; lia|].
  destruct (calculateBreedingCost_at_cap (test_axie "1" "0" "0" 7 4)
              (test_axie "2" "0" "0" 0 4)) as (Hs & _ & _ & Hc); [cbn; lia|].
  split; [exact Hs | exact Hc].
Defined.

(* ===================================================================== *)
(** ** The breeding actions against the breeding rules *)
(* ===================================================================== *)

Lemma or_zero_int_id (n : Z) : or_zero_int n = n.
Proof. unfold or_zero_int. destruct (Z.eqb_spec n 0); congruence. Qed.

Lemma length_push_if (cond : bool) (text : string) (issues : list string) :
  length (push_if cond text issues)
  = (length issues + if cond then 1 else 0)%nat.
Proof.
  unfold push_if. destruct cond; [rewrite length_app; reflexivity | lia].
Qed.

(** X17: the action [checkEligibility] and [canBreedTogether] agree except
    on siblings, which the action does not check: on the same two Axies,
    [canBreedTogether] allows the pairing exactly when the action allows it
    and the two are not siblings. The action lists no issue exactly when
    it allows the pairing. *)
Theorem checkEligibility_canBreedTogether
    (getAxie : string → AxieResponse) (sireIdRaw matronIdRaw sid mid : string)
    (sire matron : Axie) :
  parseAxieId sireIdRaw = Normal sid →
  parseAxieId matronIdRaw = Normal mid →
  describes sid (getAxie sid) sire →
  describes mid (getAxie mid) matron →
  ∃ result,
    checkEligibility getAxie sireIdRaw matronIdRaw = Normal result
    ∧ pair_canBreed (canBreedTogether sire matron)
      = elig_canBreed result && negb (blocks Siblings sire matron)
    ∧ elig_canBreed result
      = match elig_issues result with None => true | Some _ => false end.
Proof.
  intros Ps Pm (Is & Cs & Ss & Ms & Rs) (Im & Cm & Sm & Mm & Rm).
  unfold checkEligibility. rewrite Ps, Pm. cbn [bind]. cbv zeta.
  eexists. split; [reflexivity|].
  cbn [elig_canBreed elig_issues].
  rewrite canBreedTogether_eligible, !info_canBreed_eq.
  set (sib := blocks Siblings sire matron).
  cbn [blocks].
  rewrite <- Cs, <- Cm, <- Ss, <- Sm, Ms, Rs, Mm, Rm, !or_zero_int_id, Is, Im.
  unfold BREEDING_COSTS.MAX_BREED_COUNT. cbn [field_is].
  rewrite (Z.ltb_antisym 7 (breedCount sire)), (Z.ltb_antisym 7 (breedCount matron)),
    (Z.leb_antisym (stage sire) 4), (Z.leb_antisym (stage matron) 4).
  rewrite (String.eqb_sym (matronId sire) mid), (String.eqb_sym (sireId sire) mid),
    (String.eqb_sym (matronId matron) sid), (String.eqb_sym (sireId matron) sid).
  generalize (String.eqb sid mid) (String.eqb sid (matronId matron))
    (String.eqb sid (sireId matron)) (String.eqb mid (matronId sire))
    (String.eqb mid (sireId sire)) (7 <=? breedCount sire) (7 <=? breedCount matron)
    (stage sire <? 4) (stage matron <? 4) sib.
  intros [] [] [] [] [] [] [] [] [] []; split; reflexivity.
Qed.

Lemma checkEligibility_canBreedTogether_witness :
  let getAxie := test_client (test_response "1" "10" "11" 0 4)
                   (test_response "2" "10" "11" 0 4) in
  let sire := test_axie "1" "10" "11" 0 4 in
  let matron := test_axie "2" "10" "11" 0 4 in
  ∃ result,
    checkEligibility getAxie "#1" "https://app.axieinfinity.com/marketplace/axies/2"
    = Normal result
    ∧ elig_canBreed result = true
    ∧ blocks Siblings sire matron = true
    ∧ pair_canBreed (canBreedTogether sire matron) = false.
Proof.
  cbv zeta.
  destruct (checkEligibility_canBreedTogether
              (test_client (test_response "1" "10" "11" 0 4)
                 (test_response "2" "10" "11" 0 4))
              "#1" "https://app.axieinfinity.com/marketplace/axies/2" "1" "2"
              (test_axie "1" "10" "11" 0 4) (test_axie "2" "10" "11" 0 4))
    as (res & E & Hp & Hi); try reflexivity; try (repeat split; reflexivity).
  exists res. split; [exact E|].
  assert (elig_canBreed res = true) as Hc
    by (vm_compute in E; injection E as <-; reflexivity).
  split; [exact Hc|]. split; [reflexivity|].
  rewrite Hp, Hc. reflexivity.
Defined.

(** X18: the action [getBreedingCost] quotes what [calculateBreedingCost]
    computes for the same two Axies: the sum of the two table entries and
    0.5 AXS, with no eligibility check in either. *)
Theorem getBreedingCost_calculateBreedingCost
    (getAxie : string → AxieResponse) (sireIdRaw matronIdRaw sid mid : string)
    (sire matron : Axie) :
  parseAxieId sireIdRaw = Normal sid →
  parseAxieId matronIdRaw = Normal mid →
  describes sid (getAxie sid) sire →
  describes mid (getAxie mid) matron →
  ∃ result,
    getBreedingCost getAxie sireIdRaw matronIdRaw = Normal result
    ∧ total_slp (totalCost result) = cost_slp (calculateBreedingCost sire matron)
    ∧ total_axs (totalCost result) = cost_axs (calculateBreedingCost sire matron)
    ∧ total_slp (totalCost result)
      = parent_slpCost (cost_sire result) + parent_slpCost (cost_matron result)
    ∧ parent_id (cost_sire result) = axie_id sire
    ∧ parent_id (cost_matron result) = axie_id matron.
Proof.
  intros Ps Pm (Is & Cs & _) (Im & Cm & _).
  unfold getBreedingCost. rewrite Ps, Pm. cbn [bind]. cbv zeta.
  eexists. split; [reflexivity|].
  cbn [totalCost total_slp total_axs cost_sire cost_matron parent_slpCost parent_id].
  unfold calculateBreedingCost. cbn [cost_slp cost_axs].
  rewrite !or_zero_int_id, <- Cs, <- Cm, Is, Im. repeat split.
Qed.

Lemma getBreedingCost_calculateBreedingCost_witness :
  let getAxie := test_client (test_response "1" "0" "0" 1 4)
                   (test_response "2" "0" "0" 3 4) in
  ∃ result,
    getBreedingCost getAxie "1" "2" = Normal result
    ∧ total_slp (totalCost result) = 1350 + 3600.
Proof.
  cbv zeta.
  destruct (getBreedingCost_calculateBreedingCost
              (test_client (test_response "1" "0" "0" 1 4) (test_response "2" "0" "0" 3 4))
              "1" "2" "1" "2"
              (test_axie "1" "0" "0" 1 4) (test_axie "2" "0" "0" 3 4))
    as (res & E & Hs & _); try reflexivity; try (repeat split; reflexivity).
  exists res. split; [exact E | exact Hs].
Defined.

(** X19: the action [getBreedingInfo] agrees with [canBreed] on whether the
    Axie can breed and on the reason when it cannot; it quotes the table
    cost and 0.5 AXS in every case, where [canBreed] quotes zero costs for
    an Axie that cannot breed. *)
Theorem getBreedingInfo_canBreed
    (getAxie : string → AxieResponse) (axieIdRaw id : string) (axie : Axie) :
  parseAxieId axieIdRaw = Normal id →
  describes id (getAxie id) axie →
  ∃ result,
    getBreedingInfo getAxie axieIdRaw = Normal result
    ∧ binfo_canBreed result = info_canBreed (canBreed axie)
    ∧ binfo_reason result = reason (canBreed axie)
    ∧ total_slp (binfo_cost result) = slp_by_breed_count (breedCount axie)
    ∧ total_axs (binfo_cost result) = 0.5%float
    ∧ slpCost (canBreed axie)
      = (if binfo_canBreed result then total_slp (binfo_cost result) else 0)
    ∧ axsCost (canBreed axie)
      = (if binfo_canBreed result then total_axs (binfo_cost result) else 0%float).
Proof.
  intros Pa (_ & Ca & Sa & _).
  unfold getBreedingInfo. rewrite Pa. cbn [bind]. cbv zeta.
  eexists. split; [reflexivity|].
  cbn [binfo_canBreed binfo_reason binfo_cost total_slp total_axs].
  rewrite !or_zero_int_id, <- Ca, <- Sa.
  unfold canBreed, BREEDING_COSTS.MAX_BREED_COUNT.
  destruct (Z.leb_spec 7 (breedCount axie)), (Z.ltb_spec (breedCount axie) 7); try lia;
    destruct (Z.ltb_spec (stage axie) 4), (Z.leb_spec 4 (stage axie)); try lia;
    repeat split.
Qed.

Lemma getBreedingInfo_canBreed_witness :
  let getAxie := test_client (test_response "1" "0" "0" 2 3)
                   (test_response "2" "0" "0" 3 4) in
  ∃ result,
    getBreedingInfo getAxie "axie:1" = Normal result
    ∧ binfo_canBreed result = false
    ∧ binfo_reason result = Some "Axie must be an adult to breed"
    ∧ total_slp (binfo_cost result) = 2250
    ∧ slpCost (canBreed (test_axie "1" "0" "0" 2 3)) = 0.
Proof.
  cbv zeta.
  destruct (getBreedingInfo_canBreed
              (test_client (test_response "1" "0" "0" 2 3) (test_response "2" "0" "0" 3 4))
              "axie:1" "1" (test_axie "1" "0" "0" 2 3))
    as (res & E & Hc & Hr & Hs & _); try reflexivity; try (repeat split; reflexivity).
  exists res. split; [exact E|].
  split; [rewrite Hc; reflexivity|]. split; [rewrite Hr; reflexivity|].
  split; [rewrite Hs; reflexivity | reflexivity].
Defined.



(* ===================================================================== *)
(** ** Stages, rating tiers and offspring estimates *)
(* ===================================================================== *)

Lemma getStageName_cases (stage : Z) :
  (stage = 1 ∧ getStageName stage = "Egg")
  ∨ (stage = 2 ∧ getStageName stage = "Larva")
  ∨ (stage = 3 ∧ getStageName stage = "Petite")
  ∨ (stage = 4 ∧ getStageName stage = "Adult")
  ∨ ((stage < 1 ∨ 4 < stage) ∧ getStageName stage = "Unknown").
Proof.
  destruct (decide (stage = 1)) as [->|N1]; [left; split; reflexivity|].
  destruct (decide (stage = 2)) as [->|N2]; [right; left; split; reflexivity|].
  destruct (decide (stage = 3)) as [->|N3]; [do 2 right; left; split; reflexivity|].
  destruct (decide (stage = 4)) as [->|N4]; [do 3 right; left; split; reflexivity|].
  do 4 right. split; [lia|].
  unfold getStageName. cbn [list_to_map foldr uncurry fst snd].
  rewrite !lookup_insert_ne, lookup_empty by congruence. reflexivity.
Qed.

(** X21: an Axie below the breed cap can breed exactly when its stage has
    the name Adult or is beyond 4, and a stage beyond 4 has the name
    Unknown: [canBreed] asks for stage 4 or more, the table of names ends
    at 4. *)
Theorem getStageName_canBreed (axie : Axie) :
  breedCount axie < BREEDING_COSTS.MAX_BREED_COUNT →
  info_canBreed (canBreed axie)
  = String.eqb (getStageName (stage axie)) "Adult" || (4 <? stage axie)
  ∧ String.eqb (getStageName (stage axie)) "Adult" = (stage axie =? 4)
  ∧ String.eqb (getStageName (stage axie)) "Unknown"
    = (stage axie <? 1) || (4 <? stage axie).
Proof.
  intros Hc. unfold canBreed.
  destruct (Z.leb_spec BREEDING_COSTS.MAX_BREED_COUNT (breedCount axie)); [lia|].
  destruct (getStageName_cases (stage axie))
    as [[E ->]|[[E ->]|[[E ->]|[[E ->]|[E ->]]]]];
    try (rewrite E; repeat split; reflexivity).
  replace ("Unknown" =? "Adult")%string with false by reflexivity.
  replace ("Unknown" =? "Unknown")%string with true by reflexivity.
  destruct (Z.ltb_spec (stage axie) 4), (Z.ltb_spec 4 (stage axie)),
    (Z.ltb_spec (stage axie) 1), (Z.eqb_spec (stage axie) 4);
    try lia; repeat split; reflexivity.
Qed.

Lemma getStageName_canBreed_witness :
  info_canBreed (canBreed (test_axie "1" "0" "0" 0 5)) = true
  ∧ getStageName 5 = "Unknown".
Proof.
  destruct (getStageName_canBreed (test_axie "1" "0" "0" 0 5)) as (H & _).
  { reflexivity. }
  split; [rewrite H; reflexivity | reflexivity].
Defined.

Ltac pick_case :=
  first [ solve [split; [lia | reflexivity]] | left; pick_case | right; pick_case ].

Lemma getMmrTier_cases (mmr : Z) :
  (mmr < 800 ∧ getMmrTier mmr = mkRankedTier "Egg" 0 (Some 799) 1)
  ∨ (800 <= mmr <= 999 ∧ getMmrTier mmr = mkRankedTier "Chick" 800 (Some 999) 2)
  ∨ (1000 <= mmr <= 1099 ∧ getMmrTier mmr = mkRankedTier "Hare" 1000 (Some 1099) 3)
  ∨ (1100 <= mmr <= 1299 ∧ getMmrTier mmr = mkRankedTier "Boar" 1100 (Some 1299) 4)
  ∨ (1300 <= mmr <= 1499 ∧ getMmrTier mmr = mkRankedTier "Wolf" 1300 (Some 1499) 5)
  ∨ (1500 <= mmr <= 1799 ∧ getMmrTier mmr = mkRankedTier "Bear" 1500 (Some 1799) 6)
  ∨ (1800 <= mmr <= 2099 ∧ getMmrTier mmr = mkRankedTier "Tiger" 1800 (Some 2099) 7)
  ∨ (2100 <= mmr <= 2399 ∧ getMmrTier mmr = mkRankedTier "Dragon" 2100 (Some 2399) 8)
  ∨ (2400 <= mmr ∧ getMmrTier mmr = mkRankedTier "Challenger" 2400 None 9).
Proof.
  unfold getMmrTier, MMR_TIERS, first_tier.
  cbn [getMmrTier_loop hd]. unfold in_tier. cbn [minMmr maxMmr tier_name].
  repeat match goal with
         | |- context [?a <=? ?b] =>
             destruct (Z.leb_spec a b); cbn [andb]; try (exfalso; lia)
         end;
    pick_case.
Qed.

Lemma axieData_getMmrTier_unranked (mmr : Z) :
  axieData.getMmrTier mmr = unranked (getMmrTier mmr).
Proof.
  unfold axieData.getMmrTier, getMmrTier, MMR_TIERS, first_tier.
  cbn [List.find getMmrTier_loop hd]. unfold in_tier. cbn [minMmr maxMmr tier_name].
  repeat match goal with
         | |- context [?a <=? ?b] =>
             destruct (Z.leb_spec a b); cbn [andb]; try (exfalso; lia)
         end;
    reflexivity.
Qed.

(** X22: the tier returned for a rating contains the rating, or contains 0
    when the rating is negative; its rank is its position in [MMR_TIERS],
    from 1 to 9; and it is the tier that [getMmrTier] of the constants
    returns. *)
Theorem getMmrTier_contains (mmr : Z) :
  tier_contains (Z.max 0 mmr) (getMmrTier mmr)
  ∧ 1 <= rank (getMmrTier mmr) <= 9
  ∧ MMR_TIERS !! Z.to_nat (rank (getMmrTier mmr) - 1) = Some (unranked (getMmrTier mmr))
  ∧ axieData.getMmrTier mmr = unranked (getMmrTier mmr).
Proof.
  split; [|split; [|split; [|apply axieData_getMmrTier_unranked]]];
    destruct (getMmrTier_cases mmr)
      as [[H ->]|[[H ->]|[[H ->]|[[H ->]|[[H ->]|[[H ->]|[[H ->]|[[H ->]|[H ->]]]]]]]]];
    unfold tier_contains; cbn; first [lia | reflexivity | split; [lia | trivial]].
Qed.

(** X23: among integral ratings, a higher rating never has a lower rank. *)
Theorem getMmrTier_monotone (mmr1 mmr2 : Z) :
  mmr1 <= mmr2 → rank (getMmrTier mmr1) <= rank (getMmrTier mmr2).
Proof.
  intros H.
  destruct (getMmrTier_cases mmr1)
    as [[H1 ->]|[[H1 ->]|[[H1 ->]|[[H1 ->]|[[H1 ->]|[[H1 ->]|[[H1 ->]|[[H1 ->]|[H1 ->]]]]]]]]];
    destruct (getMmrTier_cases mmr2)
      as [[H2 ->]|[[H2 ->]|[[H2 ->]|[[H2 ->]|[[H2 ->]|[[H2 ->]|[[H2 ->]|[[H2 ->]|[H2 ->]]]]]]]]];
    cbn [rank]; lia.
Qed.

Lemma getMmrTier_monotone_witness :
  rank (getMmrTier 799) <= rank (getMmrTier 800).
Proof. apply (getMmrTier_monotone 799 800). lia. Defined.

(** X24: the action [getMmr] estimates 1000 plus 50 for each battle won, so
    the tier it reports is never Egg or Chick, and it is one of Hare, Boar,
    Wolf and Bear when at most ten battles are won; the estimate lies in
    the tier reported. *)
Theorem getMmr_tier (wins : nat) :
  In (res_tier (getMmr wins))
    ["Hare"; "Boar"; "Wolf"; "Bear"; "Tiger"; "Dragon"; "Challenger"]
  ∧ ((10 < wins)%nat ∨ In (res_tier (getMmr wins)) ["Hare"; "Boar"; "Wolf"; "Bear"])
  ∧ res_tierMinMmr (getMmr wins) <= res_estimatedMmr (getMmr wins)
  ∧ match res_tierMaxMmr (getMmr wins) with
    | Some top => res_estimatedMmr (getMmr wins) <= top
    | None => True
    end.
Proof.
  unfold getMmr. cbv zeta.
  cbn [res_tier res_tierMinMmr res_tierMaxMmr res_estimatedMmr].
  destruct (getMmrTier_cases (1000 + Z.of_nat wins * 50))
    as [[H ->]|[[H ->]|[[H ->]|[[H ->]|[[H ->]|[[H ->]|[[H ->]|[[H ->]|[H ->]]]]]]]]];
    try lia;
    cbn [ranked_name ranked_minMmr ranked_maxMmr In];
    (split; [tauto|]); (split; [first [left; lia | right; tauto]|]);
    (split; [lia|]); first [lia | trivial].
Qed.

Lemma round_half_between (a b : Z) :
  Z.min a b <= round_half (a + b) <= Z.max a b.
Proof.
  unfold round_half. split.
  - apply Z.div_le_lower_bound; lia.
  - apply Z.lt_succ_r. apply Z.div_lt_upper_bound; lia.
Qed.

Lemma round_half_same (a : Z) : round_half (a + a) = a.
Proof. unfold round_half. symmetry. apply Z.div_unique with (r := 1); lia. Qed.

(** X25: when no class of either parent is a name inherited from
    [Object.prototype], the estimate for the offspring is made of integers
    and does not depend on the order of the parents; each stat of either
    parent lies at least 4 above the minimum and at least 4 below the
    maximum, and so does the average; the estimated stats stay between 23
    and 65; two parents with the same stats give these stats as the
    average. *)
Theorem estimateOffspringStats_bounds (parent1Genes parent2Genes : DecodedGenes) :
  inherited_class parent1Genes = false →
  inherited_class parent2Genes = false →
  ∃ stats1 stats2 lo hi average,
    calculateStats parent1Genes = exact_stats stats1
    ∧ calculateStats parent2Genes = exact_stats stats2
    ∧ estimateOffspringStats parent1Genes parent2Genes
      = {| off_min := exact_stats lo;
           off_max := exact_stats hi;
           off_average := exact_stats average |}
    ∧ estimateOffspringStats parent2Genes parent1Genes
      = estimateOffspringStats parent1Genes parent2Genes
    ∧ stats_le (stats_shift 4 lo) stats1
    ∧ stats_le (stats_shift 4 lo) stats2
    ∧ stats_le stats1 (stats_shift (-4) hi)
    ∧ stats_le stats2 (stats_shift (-4) hi)
    ∧ stats_le (stats_shift 4 lo) average
    ∧ stats_le average (stats_shift (-4) hi)
    ∧ stats_between 23 65 lo
    ∧ stats_between 23 65 hi
    ∧ off_average (estimateOffspringStats parent1Genes parent1Genes)
      = calculateStats parent1Genes.
Proof.
  intros H1 H2. unfold estimateOffspringStats. cbv zeta.
  rewrite (calculateStats_sum _ H1), (calculateStats_sum _ H2).
  destruct (expected_stats_total parent1Genes) as (_ & _ & A1 & B1 & C1 & D1).
  destruct (expected_stats_total parent2Genes) as (_ & _ & A2 & B2 & C2 & D2).
  destruct (expected_stats parent1Genes) as [h1 s1 k1 m1].
  destruct (expected_stats parent2Genes) as [h2 s2 k2 m2].
  cbn [hp speed skill morale] in *.
  exists (mkStats h1 s1 k1 m1), (mkStats h2 s2 k2 m2),
    (mkStats (Z.min h1 h2 - 4) (Z.min s1 s2 - 4) (Z.min k1 k2 - 4) (Z.min m1 m2 - 4)),
    (mkStats (Z.max h1 h2 + 4) (Z.max s1 s2 + 4) (Z.max k1 k2 + 4) (Z.max m1 m2 + 4)),
    (mkStats (round_half (h1 + h2)) (round_half (s1 + s2))
       (round_half (k1 + k2)) (round_half (m1 + m2))).
  split; [reflexivity|]. split; [reflexivity|]. split; [reflexivity|].
  unfold exact_stats, min_less_4, max_plus_4, round_mean.
  cbn [stat_hp stat_speed stat_skill stat_morale stat_op1 stat_op2
         hp speed skill morale off_average].
  split.
  { rewrite (Z.min_comm h2), (Z.min_comm s2), (Z.min_comm k2), (Z.min_comm m2),
      (Z.max_comm h2), (Z.max_comm s2), (Z.max_comm k2), (Z.max_comm m2),
      (Z.add_comm h2), (Z.add_comm s2), (Z.add_comm k2), (Z.add_comm m2).
    reflexivity. }
  pose proof (round_half_between h1 h2). pose proof (round_half_between s1 s2).
  pose proof (round_half_between k1 k2). pose proof (round_half_between m1 m2).
  unfold stats_le, stats_shift, stats_between. cbn [hp speed skill morale].
  repeat split; try lia.
  rewrite !round_half_same. reflexivity.
Qed.

Lemma estimateOffspringStats_bounds_witness :
  ∃ stats1 lo hi,
    calculateStats (test_genes "bird" "plant" "ghost") = exact_stats stats1
    ∧ off_min (estimateOffspringStats (test_genes "bird" "plant" "ghost")
                 (test_genes "dusk" "mech" "ghost")) = exact_stats lo
    ∧ off_max (estimateOffspringStats (test_genes "bird" "plant" "ghost")
                 (test_genes "dusk" "mech" "ghost")) = exact_stats hi
    ∧ stats_le (stats_shift 4 lo) stats1
    ∧ stats_le stats1 (stats_shift (-4) hi).
Proof.
  destruct (estimateOffspringStats_bounds (test_genes "bird" "plant" "ghost")
              (test_genes "dusk" "mech" "ghost") eq_refl eq_refl)
    as (stats1 & stats2 & lo & hi & average & E1 & _ & E & _ & L1 & _ & U1 & _).
  exists stats1, lo, hi. rewrite E. cbn [off_min off_max].
  split; [exact E1|]. split; [reflexivity|]. split; [reflexivity|].
  split; [exact L1 | exact U1].
Defined.

(* ===================================================================== *)
(** ** Axie identifiers *)
(* ===================================================================== *)

Lemma take_digits_spec (s : string) :
  s = String.append (fst (take_digits s)) (snd (take_digits s))
  ∧ all_digits (fst (take_digits s)) = true
  ∧ no_digit_first (snd (take_digits s)) = true.
Proof.
  induction s as [|c r IH]; [repeat split|].
  cbn [take_digits]. destruct (is_digit c) eqn:D.
  - destruct (take_digits r) as [ds rest]. cbn [fst snd] in *.
    destruct IH as (E & A & N). rewrite append_cons, <- E.
    cbn [all_digits]. rewrite D, A. repeat split. exact N.
  - cbn [fst snd all_digits no_digit_first String.append]. rewrite D. repeat split.
Qed.

Lemma take_digits_append (ds rest : string) :
  all_digits ds = true → no_digit_first rest = true →
  take_digits (String.append ds rest) = (ds, rest).
Proof.
  intros A N. induction ds as [|c r IH].
  - change (String.append "" rest) with rest. destruct rest as [|c r]; [reflexivity|].
    cbn [take_digits no_digit_first] in *.
    destruct (is_digit c); [discriminate N | reflexivity].
  - cbn [all_digits] in A. apply andb_prop in A as [D A].
    rewrite append_cons. cbn [take_digits]. rewrite D, (IH A). reflexivity.
Qed.

Lemma prefix_append (s t : string) : String.prefix s (String.append s t) = true.
Proof.
  induction s as [|c r IH]; [destruct t; reflexivity|].
  rewrite append_cons. cbn [String.prefix].
  destruct (ascii_dec c c); [exact IH | congruence].
Qed.

Lemma contains_prefix (s sub : string) :
  String.prefix sub s = true → contains s sub = true.
Proof. intros H. destruct s; cbn [contains]; rewrite H; reflexivity. Qed.

Lemma contains_cons (c : ascii) (s sub : string) :
  contains s sub = true → contains (String c s) sub = true.
Proof. intros H. cbn [contains]. rewrite H. apply orb_true_r. Qed.

Lemma take_digits_contains (s : string) : contains s (fst (take_digits s)) = true.
Proof.
  apply contains_prefix. destruct (take_digits_spec s) as (E & _).
  rewrite E at 2. apply prefix_append.
Qed.

Lemma match_sep_digits_captured (s ds : string) :
  match_sep_digits s = Some ds → captured s ds.
Proof.
  destruct s as [|c r]; [discriminate|]. cbn [match_sep_digits].
  destruct (Ascii.eqb c "/" || Ascii.eqb c ":"); [|discriminate].
  destruct (take_digits_spec r) as (_ & A & _).
  pose proof (take_digits_contains r) as C.
  destruct (take_digits r) as [[|d ds'] rest]; [discriminate|].
  intros [= <-]. cbn [fst] in *.
  split; [discriminate|]. split; [exact A | apply contains_cons, C].
Qed.

Lemma captured_cons (c : ascii) (s ds : string) :
  captured s ds → captured (String c s) ds.
Proof. intros (N & A & C). repeat split; [exact N | exact A | apply contains_cons, C]. Qed.

Lemma match_axie_here_captured (s ds : string) :
  match_axie_here s = Some ds → captured s ds.
Proof.
  destruct s as [|c1 [|c2 [|c3 [|c4 r]]]]; try discriminate.
  cbn [match_axie_here].
  destruct (letter_ci c1 "a" "A" && letter_ci c2 "x" "X"
            && letter_ci c3 "i" "I" && letter_ci c4 "e" "E"); [|discriminate].
  intros H. do 4 apply captured_cons.
  destruct r as [|c5 r'].
  - apply match_sep_digits_captured, H.
  - destruct (letter_ci c5 "s" "S").
    + destruct (match_sep_digits r') as [found|] eqn:E.
      * injection H as <-. apply captured_cons, match_sep_digits_captured, E.
      * apply match_sep_digits_captured, H.
    + apply match_sep_digits_captured, H.
Qed.

Lemma search_axie_captured (s ds : string) :
  search_axie s = Some ds → captured s ds.
Proof.
  induction s as [|c r IH]; [discriminate|].
  cbn [search_axie]. destruct (match_axie_here (String c r)) as [found|] eqn:E.
  - intros [= <-]. apply match_axie_here_captured, E.
  - intros H. apply captured_cons, IH, H.
Qed.

Lemma match_number_captured (s ds : string) :
  match_number s = Some ds → captured s ds.
Proof.
  unfold match_number.
  set (body := match s with String "#" r => r | _ => s end).
  assert (∀ x, captured body x → captured s x) as Hb.
  { subst body. destruct s as [|c r]; [trivial|].
    destruct (Ascii.eqb_spec c "#") as [->|N].
    - intros x. apply captured_cons.
    - destruct c as [[] [] [] [] [] [] [] []]; trivial; congruence. }
  destruct (take_digits_spec body) as (_ & A & _).
  pose proof (take_digits_contains body) as C.
  destruct (take_digits body) as [[|d ds'] [|c rest]]; try discriminate.
  intros [= <-]. apply Hb. cbn [fst] in *. repeat split; [discriminate | exact A | exact C].
Qed.

Lemma is_digit_not_a (c : ascii) : is_digit c = true → letter_ci c "a" "A" = false.
Proof. destruct c as [[] [] [] [] [] [] [] []]; vm_compute; congruence. Qed.

Lemma is_digit_not_hash (c : ascii) : is_digit c = true → c ≠ "#"%char.
Proof. destruct c as [[] [] [] [] [] [] [] []]; vm_compute; congruence. Qed.

Lemma search_axie_skip (c : ascii) (r : string) :
  letter_ci c "a" "A" = false → search_axie (String c r) = search_axie r.
Proof.
  intros H. cbn [search_axie].
  replace (match_axie_here (String c r)) with (@None string); [reflexivity|].
  destruct r as [|c2 [|c3 [|c4 r]]]; try reflexivity.
  cbn [match_axie_here]. rewrite H. reflexivity.
Qed.

Lemma search_axie_digits (ds rest : string) :
  all_digits ds = true → search_axie (String.append ds rest) = search_axie rest.
Proof.
  induction ds as [|c r IH]; [reflexivity|].
  cbn [all_digits]. intros A. apply andb_prop in A as [D A].
  rewrite append_cons, search_axie_skip by (apply is_digit_not_a, D). apply IH, A.
Qed.

Lemma match_number_digits (ds rest : string) :
  all_digits ds = true → ds ≠ "" → no_digit_first rest = true →
  match_number (String.append ds rest)
  = match rest with EmptyString => Some ds | String _ _ => None end.
Proof.
  intros A N F. unfold match_number.
  replace (match String.append ds rest with String "#" r => r | _ => String.append ds rest end)
    with (String.append ds rest).
  - rewrite (take_digits_append _ _ A F).
    destruct ds as [|d ds']; [congruence|]. destruct rest; reflexivity.
  - destruct ds as [|d ds']; [congruence|]. rewrite append_cons.
    cbn [all_digits] in A. apply andb_prop in A as [D _].
    apply is_digit_not_hash in D.
    destruct d as [[] [] [] [] [] [] [] []]; try reflexivity; congruence.
Qed.

Lemma parseAxieId_digits (ds : string) :
  all_digits ds = true → ds ≠ "" → parseAxieId ds = Normal ds.
Proof.
  intros A N. unfold parseAxieId.
  pose proof (search_axie_digits ds "" A) as S.
  pose proof (match_number_digits ds "" A N eq_refl) as M.
  rewrite append_empty_r in S, M. rewrite S, M. reflexivity.
Qed.

(** X26: [parseAxieId] returns a non-empty run of decimal digits that occurs
    in the input, and parsing that result again returns it unchanged;
    otherwise it throws the error that quotes the input. *)
Theorem parseAxieId_result (input : string) :
  match parseAxieId input with
  | Normal id =>
      id ≠ "" ∧ all_digits id = true ∧ contains input id = true
      ∧ parseAxieId id = Normal id
  | Throw e => e = String.append "Invalid Axie ID format: " input
  end.
Proof.
  unfold parseAxieId at 1.
  destruct (search_axie input) as [id|] eqn:S.
  - destruct (search_axie_captured _ _ S) as (N & A & C).
    repeat split; [exact N | exact A | exact C | apply parseAxieId_digits; assumption].
  - destruct (match_number input) as [id|] eqn:M; [|reflexivity].
    destruct (match_number_captured _ _ M) as (N & A & C).
    repeat split; [exact N | exact A | exact C | apply parseAxieId_digits; assumption].
Qed.

Lemma take_digits_all (ds : string) :
  all_digits ds = true → take_digits ds = (ds, "").
Proof.
  intros A. pose proof (take_digits_append ds "" A eq_refl) as T.
  rewrite append_empty_r in T. exact T.
Qed.

Lemma match_axie_here_axies (s id : string) :
  fst (take_digits s) = id → id ≠ "" →
  match_axie_here
    (String "a" (String "x" (String "i" (String "e" (String "s" (String "/" s))))))
  = Some id.
Proof.
  intros T N. cbn -[take_digits]. destruct (take_digits s) as [ds rest].
  cbn [fst] in T. subst ds. destruct id; [congruence | reflexivity].
Qed.

Lemma search_axie_none (c : ascii) (r : string) :
  match_axie_here (String c r) = None → search_axie (String c r) = search_axie r.
Proof. intros H. cbn [search_axie]. rewrite H. reflexivity. Qed.

Lemma search_axie_axies (s id : string) :
  fst (take_digits s) = id → id ≠ "" →
  search_axie
    (String "a" (String "x" (String "i" (String "e" (String "s" (String "/" s))))))
  = Some id.
Proof.
  intros T N. cbn [search_axie]. rewrite (match_axie_here_axies s id T N). reflexivity.
Qed.

Ltac expand_append :=
  repeat rewrite append_cons;
  repeat match goal with
         | |- context [String.append EmptyString ?x] =>
             change (String.append EmptyString x) with x
         end.

(** X27: a non-empty string of decimal digits is accepted as it is, after a
    [#], and inside the two URLs that the package builds for an Axie:
    [parseAxieId] gives back the id from [getAxieMarketUrl] and from
    [getAxieImageUrl]. *)
Theorem parseAxieId_round_trip (id : string) :
  all_digits id = true → id ≠ "" →
  parseAxieId id = Normal id
  ∧ parseAxieId (String "#" id) = Normal id
  ∧ parseAxieId (getAxieMarketUrl id) = Normal id
  ∧ parseAxieId (getAxieImageUrl id) = Normal id.
Proof.
  intros A N. split; [apply parseAxieId_digits; assumption|].
  split.
  { unfold parseAxieId. rewrite search_axie_skip by reflexivity.
    pose proof (search_axie_digits id "" A) as S. rewrite append_empty_r in S.
    rewrite S. unfold match_number. rewrite (take_digits_all id A).
    destruct id; [congruence | reflexivity]. }
  split.
  - unfold parseAxieId, getAxieMarketUrl. expand_append.
    repeat rewrite search_axie_none by reflexivity.
    rewrite (search_axie_axies id id); [reflexivity | | exact N].
    rewrite (take_digits_all id A). reflexivity.
  - unfold parseAxieId, getAxieImageUrl. expand_append.
    repeat rewrite search_axie_none by reflexivity.
    rewrite (search_axie_axies _ id); [reflexivity | | exact N].
    rewrite (take_digits_append id _ A); reflexivity.
Qed.

Lemma parseAxieId_round_trip_witness :
  parseAxieId "#1234" = Normal "1234"
  ∧ parseAxieId "https://app.axieinfinity.com/marketplace/axies/1234" = Normal "1234".
Proof.
  destruct (parseAxieId_round_trip "1234") as (_ & H1 & H2 & _);
    [reflexivity | discriminate |].
  split; [exact H1 | exact H2].
Defined.

Lemma lower_char_letters (c : ascii) :
  (lower_char c = "a"%char → letter_ci c "a" "A" = true)
  ∧ (lower_char c = "x"%char → letter_ci c "x" "X" = true)
  ∧ (lower_char c = "i"%char → letter_ci c "i" "I" = true)
  ∧ (lower_char c = "e"%char → letter_ci c "e" "E" = true)
  ∧ (lower_char c = "s"%char → letter_ci c "s" "S" = true).
Proof.
  destruct c as [[] [] [] [] [] [] [] []];
    repeat split; vm_compute; intros H; first [reflexivity | discriminate H].
Qed.

Lemma separator_cases (c : ascii) :
  separator c = true → c = "/"%char ∨ c = ":"%char.
Proof.
  unfold separator. intros H. apply orb_prop in H as [H|H];
    apply Ascii.eqb_eq in H; auto.
Qed.

Lemma match_sep_digits_digits (sep : ascii) (id rest : string) :
  separator sep = true → all_digits id = true → id ≠ "" →
  no_digit_first rest = true →
  match_sep_digits (String sep (String.append id rest)) = Some id.
Proof.
  intros S A N F. cbn [match_sep_digits]. unfold separator in S. rewrite S.
  rewrite (take_digits_append id rest A F).
  destruct id; [congruence | reflexivity].
Qed.

Lemma match_axie_here_word (word : string) (sep : ascii) (id rest : string) :
  axie_word word = true → separator sep = true →
  all_digits id = true → id ≠ "" → no_digit_first rest = true →
  match_axie_here (String.append word (String sep (String.append id rest)))
  = Some id.
Proof.
  intros W S A N F.
  pose proof (match_sep_digits_digits sep id rest S A N F) as M.
  assert (letter_ci sep "s" "S" = false) as Ns
    by (destruct (separator_cases sep S) as [-> | ->]; reflexivity).
  unfold axie_word in W. apply orb_prop in W as [W|W]; apply String.eqb_eq in W.
  - destruct word as [|c1 [|c2 [|c3 [|c4 [|c5 w]]]]]; try discriminate W.
    cbn [lower] in W. injection W as W1 W2 W3 W4.
    apply (proj1 (lower_char_letters c1)) in W1.
    apply (proj1 (proj2 (lower_char_letters c2))) in W2.
    apply (proj1 (proj2 (proj2 (lower_char_letters c3)))) in W3.
    apply (proj1 (proj2 (proj2 (proj2 (lower_char_letters c4))))) in W4.
    rewrite !append_cons. change (String.append "" ?x) with x.
    cbn [match_axie_here]. rewrite W1, W2, W3, W4, Ns. cbn [andb].
    rewrite M. reflexivity.
  - destruct word as [|c1 [|c2 [|c3 [|c4 [|c5 [|c6 w]]]]]]; try discriminate W.
    cbn [lower] in W. injection W as W1 W2 W3 W4 W5.
    apply (proj1 (lower_char_letters c1)) in W1.
    apply (proj1 (proj2 (lower_char_letters c2))) in W2.
    apply (proj1 (proj2 (proj2 (lower_char_letters c3)))) in W3.
    apply (proj1 (proj2 (proj2 (proj2 (lower_char_letters c4))))) in W4.
    apply (proj2 (proj2 (proj2 (proj2 (lower_char_letters c5))))) in W5.
    rewrite !append_cons. change (String.append "" ?x) with x.
    cbn [match_axie_here]. rewrite W1, W2, W3, W4, W5. cbn [andb].
    rewrite M. reflexivity.
Qed.

(** X28: after [axie] or [axies], in any mix of capitals and small letters,
    and a [/] or [:], whatever follows the digits is ignored; after bare
    digits it is not: an input of digits followed by other text is refused
    unless that text holds a match of its own. *)
Theorem parseAxieId_trailing (word : string) (sep : ascii) (id rest : string) :
  axie_word word = true → separator sep = true →
  all_digits id = true → id ≠ "" → no_digit_first rest = true →
  parseAxieId (String.append word (String sep (String.append id rest))) = Normal id
  ∧ parseAxieId (String.append id rest)
    = match search_axie rest with
      | Some found => Normal found
      | None =>
          if String.eqb rest "" then Normal id
          else Throw (String.append "Invalid Axie ID format: " (String.append id rest))
      end.
Proof.
  intros W S A N F. split.
  - pose proof (match_axie_here_word word sep id rest W S A N F) as M.
    unfold parseAxieId.
    destruct (String.append word (String sep (String.append id rest))) as [|c r] eqn:E.
    + discriminate M.
    + cbn [search_axie]. rewrite M. reflexivity.
  - unfold parseAxieId. rewrite (search_axie_digits id rest A).
    destruct (search_axie rest); [reflexivity|].
    rewrite (match_number_digits id rest A N F).
    destruct rest; reflexivity.
Qed.

Lemma parseAxieId_trailing_witness :
  parseAxieId "aXiEs:12abc" = Normal "12"
  ∧ parseAxieId "12abc" = Throw "Invalid Axie ID format: 12abc".
Proof.
  destruct (parseAxieId_trailing "aXiEs" ":" "12" "abc") as (H1 & H2);
    [reflexivity | reflexivity | reflexivity | discriminate | reflexivity |].
  split; [exact H1 | exact H2].
Defined.

(* ===================================================================== *)
(** ** The table of costs and the validation of genes *)
(* ===================================================================== *)

(** X29: the case [getBreedCount] reports as the next cost the row of the
    table of [getCostsTable] at the breed count of the Axie, which is the
    cost [getBreedingInfo] quotes; at 7 breeds or more it reports no next
    cost and the Axie cannot breed; the two cases agree on whether it can.
    The table has a row for each of the breed counts 0 to 6. *)
Theorem getBreedCount_costs_table
    (getAxie : string → AxieResponse) (axieIdRaw id : string) :
  parseAxieId axieIdRaw = Normal id →
  ∃ result info,
    getBreedCount getAxie axieIdRaw = Normal result
    ∧ getBreedingInfo getAxie axieIdRaw = Normal info
    ∧ count_canBreed result = binfo_canBreed info
    ∧ count_breedCount result + remainingBreeds result = 7
    ∧ length (costsByBreedCount getCostsTable) = 7%nat
    ∧ match nextBreedCost result with
      | None => 7 <= count_breedCount result ∧ count_canBreed result = false
      | Some next =>
          count_breedCount result < 7
          ∧ next_axs next = 0.5%float
          ∧ match next_slp next with
            | Some slp =>
                slp = total_slp (binfo_cost info)
                ∧ costsByBreedCount getCostsTable !! Z.to_nat (count_breedCount result)
                  = Some {| row_breedCount := count_breedCount result;
                            row_slpCost := slp;
                            row_axsCost := 0.5%float |}
            | None => count_breedCount result < 0
            end
      end.
Proof.
  intros P. unfold getBreedCount, getBreedingInfo. rewrite P. cbn [bind]. cbv zeta.
  do 2 eexists. split; [reflexivity|]. split; [reflexivity|].
  cbn [count_canBreed binfo_canBreed count_breedCount remainingBreeds nextBreedCost
         binfo_cost total_slp].
  generalize (or_zero_int (resp_breedCount (getAxie id))). intros n.
  unfold BREEDING_COSTS.MAX_BREED_COUNT.
  split; [reflexivity|]. split; [lia|]. split; [reflexivity|].
  destruct (Z.ltb_spec n 7) as [Hlt|Hge]; [|split; [lia | reflexivity]].
  cbn [next_slp next_axs]. split; [exact Hlt|]. split; [reflexivity|].
  destruct (Z.leb_spec 0 n) as [Hpos|Hneg]; [|exact Hneg].
  assert (n = 0 ∨ n = 1 ∨ n = 2 ∨ n = 3 ∨ n = 4 ∨ n = 5 ∨ n = 6) as Hn by lia.
  destruct Hn as [->|[->|[->|[->|[->|[->| ->]]]]]]; split; reflexivity.
Qed.

Lemma getBreedCount_costs_table_witness :
  ∃ result,
    getBreedCount (test_client (test_response "1" "0" "0" 2 4)
                     (test_response "2" "0" "0" 7 4)) "#1" = Normal result
    ∧ count_canBreed result = true
    ∧ remainingBreeds result = 5.
Proof.
  destruct (getBreedCount_costs_table
              (test_client (test_response "1" "0" "0" 2 4) (test_response "2" "0" "0" 7 4))
              "#1" "1" eq_refl)
    as (result & info & E & _ & _ & Hr & _).
  exists result. split; [exact E|].
  assert (count_breedCount result = 2) as Hn
    by (vm_compute in E; injection E as <-; reflexivity).
  split; [vm_compute in E; injection E as <-; reflexivity | lia].
Defined.

(** X30: the case [validateGenes] answers with the decoded class, parts,
    pattern and colour exactly when the string matches the pattern of a
    gene, and with the message otherwise; the purity it shows is the
    sixths of matching parts as a percentage with one decimal: one of
    0.0%, 16.7%, 33.3%, 50.0%, 66.7%, 83.3% and 100.0%. *)
Theorem validateGenes_result (genes : string) :
  ∃ decoded,
    decodeGenes genes = Normal decoded
    ∧ (matching_parts decoded ≤ 6)%nat
    ∧ validateGenes genes
      = Normal
          (if matches_gene_pattern genes
           then Valid genes (genes_class decoded)
                  (eyes decoded) (ears decoded) (mouth decoded)
                  (horn decoded) (back decoded) (tail decoded)
                  (Some (purity_text (matching_parts decoded)))
                  (pattern decoded) (color decoded)
           else Invalid genes
                  "Invalid gene format. Expected 256-bit hex string (64 characters after 0x)").
Proof.
  destruct (decodeGenes_returns genes) as [decoded E].
  exists decoded. split; [exact E|].
  pose proof (matching_parts_le decoded) as Hle. split; [exact Hle|].
  unfold validateGenes. rewrite isValidGene_guards, guards_match_pattern. cbn [bind].
  destruct (matches_gene_pattern genes); [|reflexivity].
  cbn [negb]. rewrite E. cbn [bind]. cbv zeta.
  rewrite calculatePurity_by_count.
  destruct (matching_parts decoded) as [|[|[|[|[|[|[|k]]]]]]]; [..|lia];
    do 2 f_equal.
Qed.
